(** * A shallow embedding of [scvid.data.distributed_anndata]

    The development models [DistributedAnnDataCollection] and
    [LazyAnnData]: a row-indexed table split over shard files, with a
    least-recently-used cache of the shards that are held in memory.

    Python objects are records, methods are functions in a small
    state-and-exception monad over the part of the process the module
    mutates: the module flag [_GETATTR_MODE.lazy], the LRU cache shared by
    a collection and its shards, and a log of cache and file events. *)

From stdpp Require Import base option list strings gmap pretty.
From Stdlib Require Import ZArith.

Set Default Proof Using "Type".

(** ** Exceptions and outcomes *)

(** Column name and dtype of every column of an attribute group. *)
Definition signature_t : Type := list (string * string).

(** The exceptions the module can raise.  Python distinguishes the two
    [ValueError]s and the four [AssertionError]s by their message only;
    one constructor stands for each raise site. *)
Inductive exn : Type :=
  | IndexError
  | KeyError (key : string)
  | TypeError
  | AttributeError (attr : string)
  | ValueError_limits_xor_shard_size
  | ValueError_last_shard_size
  | ValueError_var_names
  | AssertionError_limits_length
  | AssertionError_keys_length
  | AssertionError_cache_size (requested max_size : nat)
  | AssertionError_n_obs (expected found : Z)
  | SchemaError (attr : string)
  | SchemaMismatchError (attr : string) (expected actual : option signature_t)
  | StorageUnavailableError (filename : string).

Inductive outcome (A : Type) : Type :=
  | Ok (a : A)
  | Raise (e : exn).
Arguments Ok {A} a.
Arguments Raise {A} e.

(** The names the specification gives to the failures. *)
Definition ConfigurationError (e : exn) : Prop :=
  e = ValueError_limits_xor_shard_size ∨ e = ValueError_last_shard_size.

Definition CacheCapacityError (e : exn) : Prop :=
  ∃ requested max_size, e = AssertionError_cache_size requested max_size.

Definition ShardSizeMismatchError (e : exn) : Prop :=
  ∃ expected found, e = AssertionError_n_obs expected found.

Definition is_SchemaMismatchError (e : exn) : Prop :=
  ∃ attr expected actual, e = SchemaMismatchError attr expected actual.

(** ** Shard content *)

(** One attribute group of a table: its column signature and, for real
    data, an identifier of the values it holds.  A value without content
    is a metadata-only stand-in. *)
Record AttrValue : Type := mkAttrValue {
  signature : signature_t;
  content : option nat;
}.

Global Instance AttrValue_eq_dec : EqDecision AttrValue.
Proof. solve_decision. Defined.

Module AnnData.
(** What the backing reader returns: a row count and named attribute
    groups. *)
Record t : Type := mk {
  n_obs : Z;
  attrs : gmap string AttrValue;
}.

(** [hasattr(adata, attr)] and [getattr(adata, attr)] in one lookup. *)
Definition getattr (adata : t) (attr : string) : option AttrValue :=
  attrs adata !! attr.
End AnnData.

(** The attribute groups whose structure every shard must share
    ([LazyAnnData._lazy_attrs]). *)
Definition _lazy_attrs : list string :=
  ["obs"; "obsm"; "layers"; "var"; "varm"; "varp"; "var_names"]%string.

Module AnnDataSchema.
Record t : Type := mk { attr_values : gmap string AttrValue }.

(** Modelled from the spec: a placeholder is a metadata-only stand-in
    for a tracked attribute group ([schema.py] is not among the
    sources). *)
Definition placeholder_of (v : AttrValue) : AttrValue :=
  mkAttrValue (signature v) None.

(** Modelled from the spec: [AnnDataSchema(adata)], section 4.1 [infer];
    it records the signature of every tracked attribute group of the
    reference content and fails with [SchemaError] when a group is
    missing. *)
Fixpoint infer_groups (groups : list string) (adata : AnnData.t)
    : outcome (gmap string AttrValue) :=
  match groups with
  | [] => Ok ∅
  | g :: groups' =>
      match AnnData.getattr adata g with
      | None => Raise (SchemaError g)
      | Some v =>
          match infer_groups groups' adata with
          | Ok m => Ok (<[g := placeholder_of v]> m)
          | Raise e => Raise e
          end
      end
  end.

Definition infer (adata : AnnData.t) : outcome t :=
  match infer_groups _lazy_attrs adata with
  | Ok m => Ok (mk m)
  | Raise e => Raise e
  end.

(** Modelled from the spec: [validate_anndata], section 4.1 [validate];
    the candidate's tracked attribute groups must have the reference's
    signature, the first group that differs is named in the error; the
    row count is not looked at. *)
Fixpoint validate_groups (groups : list string) (schema : t)
    (adata : AnnData.t) : outcome unit :=
  match groups with
  | [] => Ok tt
  | g :: groups' =>
      let expected := signature <$> attr_values schema !! g in
      let actual := signature <$> AnnData.getattr adata g in
      if decide (expected = actual)
      then validate_groups groups' schema adata
      else Raise (SchemaMismatchError g expected actual)
  end.

Definition validate_anndata (schema : t) (adata : AnnData.t)
    : outcome unit :=
  validate_groups _lazy_attrs schema adata.
End AnnDataSchema.

(** ** The bounded shard cache *)

Module LRU.
Section lru.
Context {V : Type}.

(** Modelled from the spec: the bounded shard cache of section 4.2
    (the class is [boltons.cacheutils.LRU], which is not among the
    sources).  A capacity, absent when unset, and the resident
    entries in recency order, the least recently touched first. *)
Record t : Type := mk {
  max_size : option nat;
  entries : list (string * V);
}.

Definition new (max_size : option nat) : t := mk max_size [].

Definition keys (c : t) : list string := (entries c).*1.

Definition size (c : t) : nat := length (entries c).

Fixpoint lookup (key : string) (es : list (string * V)) : option V :=
  match es with
  | [] => None
  | (k, v) :: es' => if decide (k = key) then Some v else lookup key es'
  end.

Definition without (key : string) (es : list (string * V))
    : list (string * V) :=
  filter (λ kv, kv.1 ≠ key) es.

(** Modelled from the spec: [key in cache], the presence check. *)
Definition contains (key : string) (c : t) : bool :=
  bool_decide (key ∈ keys c).

(** Modelled from the spec: [cache[key]]; a hit returns the content
    and makes the entry the most recently used, a miss is a
    [KeyError] ([None] here). *)
Definition getitem (key : string) (c : t) : option (V * t) :=
  match lookup key (entries c) with
  | Some v => Some (v, mk (max_size c) (without key (entries c) ++ [(key, v)]))
  | None => None
  end.

(** Modelled from the spec: the least recently used entry leaves when
    the capacity is exceeded; nothing leaves when it is unset. *)
Definition evict (max_size : option nat) (es : list (string * V))
    : list (string * V) :=
  match max_size with
  | Some n => if decide (n < length es) then tail es else es
  | None => es
  end.

(** Modelled from the spec: [cache[key] = value]; the entry becomes
    the most recently used one, then the capacity is enforced. *)
Definition setitem (key : string) (value : V) (c : t) : t :=
  mk (max_size c)
     (evict (max_size c) (without key (entries c) ++ [(key, value)])).
End lru.
Arguments t : clear implicits.
End LRU.

(** ** Process state and the method monad *)

(** What a method can observe of the cache and the backing store. *)
Inductive event : Type :=
  | CacheHit (key : string)
  | FileRead (filename : string)
  | CacheInsert (key : string).

Global Instance event_eq_dec : EqDecision event.
Proof. solve_decision. Defined.

(** The mutable state the module works on: the flag [_GETATTR_MODE.lazy],
    the one [LRU] object a collection shares with all its shards, and the
    events so far. *)
Record World : Type := mkWorld {
  lazy : bool;
  cache : LRU.t AnnData.t;
  trace : list event;
}.

Definition set_lazy (b : bool) (w : World) : World :=
  mkWorld b (cache w) (trace w).

Definition set_cache (c : LRU.t AnnData.t) (w : World) : World :=
  mkWorld (lazy w) c (trace w).

Definition log (e : event) (w : World) : World :=
  mkWorld (lazy w) (cache w) (trace w ++ [e]).

(** A method call runs from a world to an outcome and a world; what it
    mutated before raising stays mutated. *)
Definition M (A : Type) : Type := World → outcome A * World.

Global Instance M_ret : MRet M := λ A a w, (Ok a, w).

Global Instance M_bind : MBind M := λ A B f m w,
  match m w with
  | (Ok a, w') => f a w'
  | (Raise e, w') => (Raise e, w')
  end.

Definition raise {A : Type} (e : exn) : M A := λ w, (Raise e, w).

(** [assert cond, message] *)
Definition assert (cond : Prop) `{!Decision cond} (e : exn) : M unit :=
  if decide cond then mret tt else raise e.

(** A pure computation that may raise. *)
Definition lift {A : Type} (o : outcome A) : M A := λ w, (o, w).

(** [try: body; except KeyError: handler] *)
Definition except_KeyError {A : Type} (body handler : M A) : M A := λ w,
  match body w with
  | (Raise (KeyError _), w') => handler w'
  | r => r
  end.

(** [try: body; finally: cleanup] *)
Definition finally {A : Type} (body : M A) (cleanup : World → World) : M A :=
  λ w, let '(r, w') := body w in (r, cleanup w').

(** [for x in l: s = body(x, s)] *)
Fixpoint for_each {A S : Type} (l : list A) (body : A → S → M S) (s : S)
    : M S :=
  match l with
  | [] => mret s
  | x :: l' => s' ← body x s; for_each l' body s'
  end.

(** [enumerate(l)] *)
Definition enumerate {A : Type} (l : list A) : list (nat * A) :=
  imap (λ i x, (i, x)) l.

(** [l[i]] on a Python list: a negative index counts from the end. *)
Definition py_index {A : Type} (l : list A) (i : Z) : option A :=
  if decide (0 ≤ i)%Z then l !! Z.to_nat i
  else if decide (- Z.of_nat (length l) ≤ i)%Z
       then l !! Z.to_nat (Z.of_nat (length l) + i)
       else None.

(** The three ways the module uses the shared cache. *)
Definition cache_contains (key : string) : M bool := λ w,
  (Ok (LRU.contains key (cache w)), w).

Definition cache_getitem (key : string) : M AnnData.t := λ w,
  match LRU.getitem key (cache w) with
  | Some (v, c') => (Ok v, log (CacheHit key) (set_cache c' w))
  | None => (Raise (KeyError key), w)
  end.

Definition cache_setitem (key : string) (value : AnnData.t) : M unit := λ w,
  (Ok tt, log (CacheInsert key) (set_cache (LRU.setitem key value (cache w)) w)).

(** ** [LazyAnnData] *)

Module LazyAnnData.
(** The shard's [cache] attribute is a reference to the collection's
    cache, which is the [cache] of the world. *)
Record t : Type := mk {
  filename : string;
  limits : Z * Z;
  schema : AnnDataSchema.t;
}.

Definition n_obs (self : t) : Z := (limits self).2 - (limits self).1.

(** The label [f"cell_{i}"] of the row at global position [i]. *)
Definition cell_name (i : Z) : string := "cell_" +:+ pretty i.

(** The labels [f"cell_{i}"] for [i] in the range from [limits[0]] to
    [limits[1]]; the property is computed from [limits], which is never
    assigned again. *)
Definition obs_names (self : t) : list string :=
  cell_name <$> seqZ (limits self).1 ((limits self).2 - (limits self).1).

(** [self.filename in self.cache] *)
Definition cached (self : t) : M bool := cache_contains (filename self).

Section methods.
(** The backing reader: the content of a file, or nothing when the
    file cannot be read. *)
Context (read_h5ad_file : string → option AnnData.t).

Definition read (filename : string) : M AnnData.t := λ w,
  match read_h5ad_file filename with
  | Some adata => (Ok adata, log (FileRead filename) w)
  | None => (Raise (StorageUnavailableError filename),
             log (FileRead filename) w)
  end.

Definition adata (self : t) : M AnnData.t :=
  except_KeyError
    (cache_getitem (filename self))
    (adata ← read (filename self);
     assert (n_obs self = AnnData.n_obs adata)
       (AssertionError_n_obs (n_obs self) (AnnData.n_obs adata));;
     lift (AnnDataSchema.validate_anndata (schema self) adata);;
     cache_setitem (filename self) adata;;
     mret adata).

(** The names normal attribute lookup finds on a shard: the attributes
    [__init__] sets, the two class attributes and the properties. *)
Definition _own_attrs : list string :=
  ["filename"; "limits"; "schema"; "cache"; "_lazy_attrs"; "_all_attrs";
   "n_obs"; "n_vars"; "shape"; "obs_names"; "cached"; "adata"]%string.

(** Python calls [__getattr__] for a name normal lookup does not find.
    That is so for every name that is not one of the above and does not
    start with two underscores, as the names of methods and the names
    every object has do. *)
Definition reaches_getattr (attr : string) : Prop :=
  (attr ∉ _own_attrs) ∧ (String.prefix "__" attr = false).

(** [__getattr__], reached for every name that is not an attribute or
    a property of the class. *)
Definition __getattr__ (self : t) (attr : string) : M AttrValue := λ w,
  if lazy w then
    if decide (attr ∈ _lazy_attrs) then
      match AnnDataSchema.attr_values (schema self) !! attr with
      | Some v => (Ok v, w)
      | None => (Raise (KeyError attr), w)
      end
    else (Raise (AttributeError attr), w)
  else
    (adata ← adata self;
     match AnnData.getattr adata attr with
     | Some v => mret v
     | None => raise (AttributeError attr)
     end) w.
End methods.
End LazyAnnData.

(** ** [DistributedAnnDataCollection] *)

Definition is_none {A : Type} (o : option A) : bool :=
  match o with None => true | Some _ => false end.

(** [with lazy_getattr(): body] *)
Definition lazy_getattr {A : Type} (body : M A) : M A := λ w,
  finally body (set_lazy false) (set_lazy true w).

Module DistributedAnnDataCollection.
(** [filenames] is one brace pattern or a sequence of names. *)
Inductive filenames_arg : Type :=
  | Pattern (pattern : string)
  | Names (names : list string).

(** The constructor's arguments; [label], [index_unique], [convert] and
    [indices_strict] are handed to [AnnCollection] unchanged and play no
    part here. *)
Record init_args : Type := mk_args {
  arg_filenames : filenames_arg;
  arg_limits : option (list Z);
  arg_shard_size : option Z;
  arg_last_shard_size : option Z;
  arg_max_cache_size : option nat;
  arg_cache_size_strictly_enforced : bool;
  arg_keys : option (list string);
}.

(** The attributes of an instance.  [self.cache] is the cache of the
    world. *)
Record t : Type := mk {
  filenames : list string;
  limits : list Z;
  max_cache_size : option nat;
  cache_size_strictly_enforced : bool;
  schema : AnnDataSchema.t;
  adatas : list LazyAnnData.t;
}.

(** [indices] is one position or a sequence of positions. *)
Inductive indices_arg : Type :=
  | Int (index : Z)
  | Seq (indices : list Z).

(** [[LazyAnnData(filename, (start, end), schema, cache)
      for start, end, filename in zip([0] + limits, limits, filenames)]] *)
Definition lazy_adatas (limits : list Z) (filenames : list string)
    (schema : AnnDataSchema.t) : list LazyAnnData.t :=
  zip_with (λ range filename, LazyAnnData.mk filename range schema)
    (zip (0%Z :: limits) limits) filenames.

(** [[shard_size * (i + 1) for i in range(n)]] *)
Definition uniform_limits (shard_size : Z) (n : nat) : list Z :=
  (λ i, shard_size * (Z.of_nat i + 1))%Z <$> seq 0 n.

(** [limits[-1] = limits[-1] - shard_size + last_shard_size] *)
Definition set_last_limit (shard_size last_shard_size : Z) (limits : list Z)
    : M (list Z) :=
  match py_index limits (-1) with
  | Some l => mret (<[pred (length limits) := (l - shard_size + last_shard_size)%Z]> limits)
  | None => raise IndexError
  end.

(** The running totals [AnnCollection.__init__] stores as [self.limits]:
    [[n_0, n_0 + n_1, ...]] for members of [n_i] rows. *)
Fixpoint running_totals (total : Z) (sizes : list Z) : list Z :=
  match sizes with
  | [] => []
  | n :: sizes' => (total + n)%Z :: running_totals (total + n) sizes'
  end.

(** [self.adatas[idx]] *)
Definition adatas_getitem (self : t) (idx : Z) : M LazyAnnData.t :=
  match py_index (adatas self) idx with
  | Some shard => mret shard
  | None => raise IndexError
  end.

(** What is left of [self.__dict__] after [del state["cache"]] and
    [del state["adatas"]]. *)
Record state : Type := mk_state {
  state_filenames : list string;
  state_limits : list Z;
  state_max_cache_size : option nat;
  state_cache_size_strictly_enforced : bool;
  state_schema : AnnDataSchema.t;
}.

(** [self.__dict__]: every attribute of the instance, the cache object
    and the shard objects among them. *)
Record instance_dict : Type := mk_dict {
  dict_state : state;
  dict_cache : LRU.t AnnData.t;
  dict_adatas : list LazyAnnData.t;
}.

Definition __dict__ (self : t) : M instance_dict := λ w,
  (Ok (mk_dict
         (mk_state (filenames self) (limits self) (max_cache_size self)
            (cache_size_strictly_enforced self) (schema self))
         (cache w) (adatas self)), w).

Definition __getstate__ (self : t) : M state :=
  d ← __dict__ self;
  mret (dict_state d).

Definition __setstate__ (st : state) : M t := λ w,
  (Ok (mk (state_filenames st) (state_limits st) (state_max_cache_size st)
         (state_cache_size_strictly_enforced st) (state_schema st)
         (lazy_adatas (state_limits st) (state_filenames st)
            (state_schema st))),
   set_cache (LRU.new (state_max_cache_size st)) w).

Section methods.
Context (read_h5ad_file : string → option AnnData.t).
Context (braceexpand : string → list string).

(** The part of [AnnCollection.__init__] that looks at its members:
    with [join_vars=None] all members must have the same [var_names],
    and the running totals of their row counts become [self.limits]. *)
Definition AnnCollection_init (adatas : list LazyAnnData.t) : M (list Z) :=
  var_names ← for_each adatas
    (λ shard acc,
       v ← LazyAnnData.__getattr__ read_h5ad_file shard "var_names";
       mret (acc ++ [v]))
    [];
  match var_names with
  | [] => raise IndexError
  | v0 :: _ =>
      assert (Forall (λ v, v = v0) var_names) ValueError_var_names;;
      mret (running_totals 0 (LazyAnnData.n_obs <$> adatas))
  end.

Definition __init__ (args : init_args) : M t :=
  let filenames :=
    match arg_filenames args with
    | Pattern pattern => braceexpand pattern
    | Names names => names
    end in
  filename0 ← match filenames !! 0 with
               | Some f => mret f
               | None => raise IndexError
               end;
  (if bool_decide (is_none (arg_limits args) = is_none (arg_shard_size args))
   then raise ValueError_limits_xor_shard_size
   else if is_none (arg_shard_size args)
           && negb (is_none (arg_last_shard_size args))
   then raise ValueError_last_shard_size
   else mret tt);;
  limits ← match arg_shard_size args with
            | Some shard_size =>
                let limits := uniform_limits shard_size (length filenames) in
                match arg_last_shard_size args with
                | Some last_shard_size =>
                    set_last_limit shard_size last_shard_size limits
                | None => mret limits
                end
            | None =>
                match arg_limits args with
                | Some limits => mret limits
                | None => raise TypeError
                end
            end;
  assert (length limits = length filenames) AssertionError_limits_length;;
  (λ w, (Ok tt, set_cache (LRU.new (arg_max_cache_size args)) w));;
  adata0 ← LazyAnnData.read read_h5ad_file filename0;
  cache_setitem filename0 adata0;;
  schema ← lift (AnnDataSchema.infer adata0);
  let lazy_adatas := lazy_adatas limits filenames schema in
  let keys := default filenames (arg_keys args) in
  assert (length keys = length filenames) AssertionError_keys_length;;
  limits ← lazy_getattr (AnnCollection_init lazy_adatas);
  mret (mk filenames limits (arg_max_cache_size args)
          (arg_cache_size_strictly_enforced args) schema lazy_adatas).

(** The body of the first loop of [materialize]: a shard that is
    cached is fetched into its slot.  (The two [self.adatas[idx]] of
    an iteration denote the same shard.) *)
Definition fetch_cached (self : t) (slot : nat * Z)
    (adatas : list (option AnnData.t)) : M (list (option AnnData.t)) :=
  let '(i, idx) := slot in
  shard ← adatas_getitem self idx;
  is_cached ← LazyAnnData.cached shard;
  if (is_cached : bool) then
    adata ← LazyAnnData.adata read_h5ad_file shard;
    mret (<[i := Some adata]> adatas)
  else mret adatas.

(** The body of the second loop: a shard that is not cached is
    fetched into its slot. *)
Definition fetch_new (self : t) (slot : nat * Z)
    (adatas : list (option AnnData.t)) : M (list (option AnnData.t)) :=
  let '(i, idx) := slot in
  shard ← adatas_getitem self idx;
  is_cached ← LazyAnnData.cached shard;
  if negb (is_cached : bool) then
    adata ← LazyAnnData.adata read_h5ad_file shard;
    mret (<[i := Some adata]> adatas)
  else mret adatas.

Definition materialize (self : t) (indices : indices_arg)
    : M (list (option AnnData.t)) :=
  let indices :=
    match indices with
    | Int index => [index]
    | Seq indices => indices
    end in
  (if cache_size_strictly_enforced self then
     match max_cache_size self with
     | Some max_size =>
         assert (length indices ≤ max_size)
           (AssertionError_cache_size (length indices) max_size)
     | None => raise TypeError
     end
   else mret tt);;
  let adatas := replicate (length indices) None in
  adatas ← for_each (enumerate indices) (fetch_cached self) adatas;
  adatas ← for_each (enumerate indices) (fetch_new self) adatas;
  mret adatas.

Section getitem.
(** What [__getitem__] takes from [AnnCollection] and from anndata: the
    row and column labels of the collection, the normalization of an
    index against them, its resolution to one entry per member ([None]
    for a member the index does not touch), and the view, which takes
    [self.convert] from [self].  The first two calls can raise; none of
    them reads a shard. *)
Context {Index Names Oidx Vidx Resolved I View : Type}.
Context (obs_names var_names : t → Names).
Context (_normalize_indices : Index → Names → Names → outcome (Oidx * Vidx)).
Context (_resolve_idx : t → Oidx → Vidx → outcome Resolved).
Context (resolved_idx_0 : Resolved → list (option I)).
Context (AnnCollectionView : t → Resolved → View).

Definition __getitem__ (self : t) (index : Index) : M View :=
  normalized ← lift (_normalize_indices index (obs_names self) (var_names self));
  resolved_idx ← lift (_resolve_idx self normalized.1 normalized.2);
  let adatas_indices :=
    (λ slot, Z.of_nat slot.1)
      <$> filter (λ slot, slot.2 ≠ None)
            (enumerate (resolved_idx_0 resolved_idx)) in
  materialize self (Seq adatas_indices);;
  mret (AnnCollectionView self resolved_idx).
End getitem.
End methods.
End DistributedAnnDataCollection.

(** ** [PyroTrainingPlan] *)

Module PyroTrainingPlan.
Section init.
(** Values of keyword arguments, losses and optimizer classes are opaque;
    [lr_default] is [1e-3], [Trace_ELBO_loss] is
    [pyro.infer.Trace_ELBO().differentiable_loss] and [Adam] is
    [torch.optim.Adam]. *)
Context {Value Loss Optim : Type}.
Context (lr_default : Value) (Trace_ELBO_loss : Loss) (Adam : Optim).

(** Dicts are objects: the heap maps the identity of a dict to its
    content, and [update] changes a dict in place. *)
Definition dict : Type := gmap string Value.
Definition heap : Type := gmap nat dict.

(** [optim_kwargs] is a dict or anything else, [None] by default. *)
Inductive kwargs_arg : Type :=
  | Dict (id : nat)
  | NotADict.

Record t : Type := mk {
  optim_kwargs : nat;
  loss_fn : Loss;
  optim : Optim;
}.

(** [dict()] *)
Definition new_dict (h : heap) : nat * heap :=
  let id := fresh (dom h) in (id, <[id := ∅]> h).

(** [d.update({key: value})] *)
Definition update (id : nat) (key : string) (value : Value) (h : heap) : heap :=
  match h !! id with
  | Some d => <[id := <[key := value]> d]> h
  | None => h
  end.

(** The result is [None] only when the argument names no dict of the
    heap. *)
Definition __init__ (arg_loss_fn : option Loss) (arg_optim : option Optim)
    (arg_optim_kwargs : kwargs_arg) (h : heap) : option (t * heap) :=
  let '(optim_kwargs, h) :=
    match arg_optim_kwargs with
    | Dict id => (id, h)
    | NotADict => new_dict h
    end in
  d ← h !! optim_kwargs;
  let h :=
    if decide ("lr"%string ∉ dom d)
    then update optim_kwargs "lr" lr_default h
    else h in
  Some (mk optim_kwargs
          (match arg_loss_fn with None => Trace_ELBO_loss | Some l => l end)
          (match arg_optim with None => Adam | Some o => o end),
        h).

(** [self.optim(self.module.parameters(), **self.optim_kwargs)]: the
    optimizer class and the keyword arguments it is called with. *)
Definition configure_optimizers (self : t) (h : heap) : option (Optim * dict) :=
  kwargs ← h !! optim_kwargs self;
  Some (optim self, kwargs).
End init.
End PyroTrainingPlan.

(** ** Vocabulary of the statements *)

(** The files behind the positions a call names, as [materialize] resolves
    them. *)
Definition requested_files (adatas : list LazyAnnData.t) (indices : list Z)
    : list string :=
  omap (λ idx, LazyAnnData.filename <$> py_index adatas idx) indices.

(** Recency order over keys: touching a key makes it the most recent. *)
Definition touch (key : string) (l : list string) : list string :=
  filter (λ x, x ≠ key) l ++ [key].

(** Enforcing a capacity on a recency order. *)
Definition trim (max_size : option nat) (l : list string) : list string :=
  match max_size with
  | Some n => if decide (n < length l) then tail l else l
  | None => l
  end.

(** The keys a history of touches leaves, the least recently touched
    first. *)
Definition recency (history : list string) : list string :=
  foldl (λ acc key, touch key acc) [] history.

(** The [n] most recent keys of a recency order. *)
Definition last_n (n : nat) (l : list string) : list string :=
  drop (length l - n) l.

Definition window (max_size : option nat) (l : list string) : list string :=
  match max_size with
  | Some n => last_n n l
  | None => l
  end.

(** The invariant of the cache representation: no key twice, and no more
    entries than the capacity. *)
Definition cache_wf {V : Type} (c : LRU.t V) : Prop :=
  NoDup (LRU.keys c) ∧ ∀ n, LRU.max_size c = Some n → LRU.size c ≤ n.

(** The cache holds the most recent keys of a history of touches. *)
Definition tracks {V : Type} (history : list string) (c : LRU.t V) : Prop :=
  LRU.keys c = window (LRU.max_size c) (recency history).

(** The keys an event touches, and the files it reads. *)
Definition touches (t : list event) : list string :=
  omap (λ e, match e with
             | CacheHit k | CacheInsert k => Some k
             | FileRead _ => None
             end) t.

Definition file_reads (t : list event) : list string :=
  omap (λ e, match e with FileRead f => Some f | _ => None end) t.

(** Events of the miss path: the file is read, its content inserted. *)
Definition is_load (e : event) : Prop :=
  match e with CacheHit _ => False | _ => True end.

Definition is_Ok {A : Type} (r : outcome A) : Prop :=
  match r with Ok _ => True | Raise _ => False end.

(** How a method call may change the world: it appends events, leaves the
    flag and the capacity alone, keeps the cache well formed and in step
    with the touches it made, and adds no key it did not touch. *)
Definition evolves (t : list event) (w w' : World) : Prop :=
  trace w' = trace w ++ t
  ∧ lazy w' = lazy w
  ∧ LRU.max_size (cache w') = LRU.max_size (cache w)
  ∧ (cache_wf (cache w) → cache_wf (cache w'))
  ∧ (∀ h, tracks h (cache w) → tracks (h ++ touches t) (cache w'))
  ∧ (∀ k, k ∈ LRU.keys (cache w') → k ∈ LRU.keys (cache w) ∨ k ∈ touches t).

(** The failures of loading a shard. *)
Definition load_error (e : exn) : Prop :=
  (∃ f, e = StorageUnavailableError f)
  ∨ ShardSizeMismatchError e
  ∨ is_SchemaMismatchError e.

Section load.
Context (read_h5ad_file : string → option AnnData.t).

(** What [LazyAnnData.adata] does on a miss, step by step: read the
    file, compare the row counts, validate, insert. *)
Definition load (self : LazyAnnData.t) (w : World)
    : outcome AnnData.t * World :=
  let f := LazyAnnData.filename self in
  let w1 := log (FileRead f) w in
  match read_h5ad_file f with
  | None => (Raise (StorageUnavailableError f), w1)
  | Some adata =>
      if decide (LazyAnnData.n_obs self = AnnData.n_obs adata) then
        match AnnDataSchema.validate_anndata (LazyAnnData.schema self) adata with
        | Ok _ => (Ok adata,
                   log (CacheInsert f)
                     (set_cache (LRU.setitem f adata (cache w)) w1))
        | Raise e => (Raise e, w1)
        end
      else (Raise (AssertionError_n_obs (LazyAnnData.n_obs self)
                     (AnnData.n_obs adata)), w1)
  end.
End load.

(** The content has the signature the schema records, for every tracked
    attribute group. *)
Definition conforms (schema : AnnDataSchema.t) (adata : AnnData.t) : Prop :=
  Forall (λ g, signature <$> AnnDataSchema.attr_values schema !! g
               = signature <$> AnnData.getattr adata g) _lazy_attrs.

(** The file names a constructor call names, after brace expansion. *)
Definition expanded_filenames (braceexpand : string → list string)
    (args : DistributedAnnDataCollection.init_args) : list string :=
  match DistributedAnnDataCollection.arg_filenames args with
  | DistributedAnnDataCollection.Pattern pattern => braceexpand pattern
  | DistributedAnnDataCollection.Names names => names
  end.

(** Exactly one of [limits] and [shard_size] is given. *)
Definition exactly_one_given (args : DistributedAnnDataCollection.init_args)
    : Prop :=
  is_none (DistributedAnnDataCollection.arg_limits args)
  ≠ is_none (DistributedAnnDataCollection.arg_shard_size args).

(** [last_shard_size] is given and [shard_size] is not. *)
Definition last_without_shard_size
    (args : DistributedAnnDataCollection.init_args) : Prop :=
  DistributedAnnDataCollection.arg_shard_size args = None
  ∧ DistributedAnnDataCollection.arg_last_shard_size args ≠ None.

(** What a successful construction leaves: the collection and the world,
    in terms of the first file [f0], its content, and the boundaries [L]
    the constructor computed. *)
Definition constructed (read_h5ad_file : string → option AnnData.t)
    (braceexpand : string → list string)
    (args : DistributedAnnDataCollection.init_args) (w0 : World)
    (c : DistributedAnnDataCollection.t) (w1 : World) : Prop :=
  ∃ (f0 : string) (adata0 : AnnData.t) (L : list Z),
    expanded_filenames braceexpand args !! 0 = Some f0
    ∧ read_h5ad_file f0 = Some adata0
    ∧ AnnDataSchema.infer adata0 = Ok (DistributedAnnDataCollection.schema c)
    ∧ length L = length (expanded_filenames braceexpand args)
    ∧ c = DistributedAnnDataCollection.mk
            (expanded_filenames braceexpand args)
            (DistributedAnnDataCollection.running_totals 0
               (LazyAnnData.n_obs <$>
                  DistributedAnnDataCollection.lazy_adatas L
                    (expanded_filenames braceexpand args)
                    (DistributedAnnDataCollection.schema c)))
            (DistributedAnnDataCollection.arg_max_cache_size args)
            (DistributedAnnDataCollection.arg_cache_size_strictly_enforced args)
            (DistributedAnnDataCollection.schema c)
            (DistributedAnnDataCollection.lazy_adatas L
               (expanded_filenames braceexpand args)
               (DistributedAnnDataCollection.schema c))
    ∧ w1 = mkWorld false
             (LRU.setitem f0 adata0
                (LRU.new (DistributedAnnDataCollection.arg_max_cache_size args)))
             (trace w0 ++ [FileRead f0; CacheInsert f0]).

(** The positions a call to [materialize] names. *)
Definition indices_list (indices : DistributedAnnDataCollection.indices_arg)
    : list Z :=
  match indices with
  | DistributedAnnDataCollection.Int index => [index]
  | DistributedAnnDataCollection.Seq indices => indices
  end.

(** A request fits the cache when it names no more positions than the
    capacity, if there is one. *)
Definition fits (max_size : option nat) (requested : nat) : Prop :=
  ∀ n, max_size = Some n → requested ≤ n.

(** The ways a caller reaches the cache through a collection and its
    shards. *)
Inductive access : Type :=
  | Content (shard : LazyAnnData.t)
  | Attribute (shard : LazyAnnData.t) (attr : string)
  | Presence (shard : LazyAnnData.t)
  | Materialize (self : DistributedAnnDataCollection.t)
      (indices : DistributedAnnDataCollection.indices_arg).

Section accesses.
Context (read_h5ad_file : string → option AnnData.t).

(** The world after an access, whether it returned or raised. *)
Definition after_access (w : World) (a : access) : World :=
  match a with
  | Content shard => (LazyAnnData.adata read_h5ad_file shard w).2
  | Attribute shard attr =>
      (LazyAnnData.__getattr__ read_h5ad_file shard attr w).2
  | Presence shard => (LazyAnnData.cached shard w).2
  | Materialize self indices =>
      (DistributedAnnDataCollection.materialize read_h5ad_file self indices w).2
  end.

Definition after_accesses (w : World) (l : list access) : World :=
  foldl after_access w l.
End accesses.

(** The boundaries the constructor works out from its arguments, for [n]
    file names (lines 104 to 109 of the source). *)
Definition computed_limits (args : DistributedAnnDataCollection.init_args)
    (n : nat) : outcome (list Z) :=
  match DistributedAnnDataCollection.arg_shard_size args with
  | Some shard_size =>
      let limits := DistributedAnnDataCollection.uniform_limits shard_size n in
      match DistributedAnnDataCollection.arg_last_shard_size args with
      | Some last_shard_size =>
          match py_index limits (-1) with
          | Some l =>
              Ok (<[pred (length limits) := (l - shard_size + last_shard_size)%Z]>
                    limits)
          | None => Raise IndexError
          end
      | None => Ok limits
      end
  | None =>
      match DistributedAnnDataCollection.arg_limits args with
      | Some limits => Ok limits
      | None => Raise TypeError
      end
  end.

Section init_steps.
Context (read_h5ad_file : string → option AnnData.t).
Context (braceexpand : string → list string).

(** The constructor, step by step: what it returns and what it leaves,
    in the order in which it checks and acts. *)
Definition init_steps (args : DistributedAnnDataCollection.init_args)
    (w0 : World) : outcome DistributedAnnDataCollection.t * World :=
  let fns := expanded_filenames braceexpand args in
  let max_size := DistributedAnnDataCollection.arg_max_cache_size args in
  match fns !! 0 with
  | None => (Raise IndexError, w0)
  | Some f0 =>
      if bool_decide (is_none (DistributedAnnDataCollection.arg_limits args)
                      = is_none (DistributedAnnDataCollection.arg_shard_size args))
      then (Raise ValueError_limits_xor_shard_size, w0)
      else if is_none (DistributedAnnDataCollection.arg_shard_size args)
              && negb (is_none (DistributedAnnDataCollection.arg_last_shard_size args))
      then (Raise ValueError_last_shard_size, w0)
      else
        match computed_limits args (length fns) with
        | Raise e => (Raise e, w0)
        | Ok L =>
            if decide (length L = length fns) then
              match read_h5ad_file f0 with
              | None =>
                  (Raise (StorageUnavailableError f0),
                   mkWorld (lazy w0) (LRU.new max_size)
                     (trace w0 ++ [FileRead f0]))
              | Some adata0 =>
                  let w2 :=
                    mkWorld (lazy w0)
                      (LRU.setitem f0 adata0 (LRU.new max_size))
                      ((trace w0 ++ [FileRead f0]) ++ [CacheInsert f0]) in
                  match AnnDataSchema.infer adata0 with
                  | Raise e => (Raise e, w2)
                  | Ok schema =>
                      if decide (length (default fns
                                   (DistributedAnnDataCollection.arg_keys args))
                                 = length fns)
                      then
                        let shards :=
                          DistributedAnnDataCollection.lazy_adatas L fns schema in
                        let r :=
                          DistributedAnnDataCollection.AnnCollection_init
                            read_h5ad_file shards (set_lazy true w2) in
                        (match r.1 with
                         | Ok limits =>
                             Ok (DistributedAnnDataCollection.mk fns limits
                                   max_size
                                   (DistributedAnnDataCollection.arg_cache_size_strictly_enforced args)
                                   schema shards)
                         | Raise e => Raise e
                         end, set_lazy false r.2)
                      else (Raise AssertionError_keys_length, w2)
                  end
              end
            else (Raise AssertionError_limits_length, w0)
        end
  end.
End init_steps.

(** Filling the slots of a result list: the slot of every position for
    which [content] gives a value receives it. *)
Definition fill (content : Z → option AnnData.t) (slots : list (nat * Z))
    (adatas : list (option AnnData.t)) : list (option AnnData.t) :=
  foldl (λ acc slot,
           match content slot.2 with
           | Some a => <[slot.1 := Some a]> acc
           | None => acc
           end) adatas slots.

(** The content the cache [c] holds for the shard at a position. *)
Definition cached_content (adatas : list LazyAnnData.t)
    (c : LRU.t AnnData.t) (idx : Z) : option AnnData.t :=
  shard ← py_index adatas idx;
  LRU.lookup (LazyAnnData.filename shard) (LRU.entries c).

(** The content of the file of the shard at a position, for a shard that
    [c] does not hold. *)
Definition file_content (read_h5ad_file : string → option AnnData.t)
    (adatas : list LazyAnnData.t) (c : LRU.t AnnData.t) (idx : Z)
    : option AnnData.t :=
  shard ← py_index adatas idx;
  if decide (LazyAnnData.filename shard ∈ LRU.keys c) then None
  else read_h5ad_file (LazyAnnData.filename shard).

(** ** A concrete store *)

(** Five shard files.  The first three have ten rows and the same
    structure; the fourth names a column of [obs] differently; the fifth
    has seven rows. *)
Module Demo.
Definition group (sig : signature_t) (values : nat) : AttrValue :=
  mkAttrValue sig (Some values).

Definition table (rows : Z) (obs_column : string) (values : nat)
    : AnnData.t :=
  AnnData.mk rows
    (list_to_map
       [("obs", group [(obs_column, "category")] values);
        ("obsm", group [("X_pca", "float32")] values);
        ("layers", group [] values);
        ("var", group [("gene", "object")] 0);
        ("varm", group [] 0);
        ("varp", group [] 0);
        ("var_names", group [("index", "object")] 0)]%string).

Definition files (f : string) : option AnnData.t :=
  if decide (f = "s0") then Some (table 10 "cell_type" 0)
  else if decide (f = "s1") then Some (table 10 "cell_type" 1)
  else if decide (f = "s2") then Some (table 10 "cell_type" 2)
  else if decide (f = "s3") then Some (table 10 "celltype" 3)
  else if decide (f = "s4") then Some (table 7 "cell_type" 4)
  else None.

Definition braceexpand (pattern : string) : list string := [pattern].

Definition names : list string := ["s0"; "s1"; "s2"; "s3"; "s4"]%string.

(** [DistributedAnnDataCollection(names, shard_size=10, max_cache_size=2)] *)
Definition args : DistributedAnnDataCollection.init_args :=
  DistributedAnnDataCollection.mk_args
    (DistributedAnnDataCollection.Names names)
    None (Some 10%Z) None (Some 2) true None.

(** A process that has no collection yet. *)
Definition fresh : World := mkWorld false (LRU.new None) [].

Definition built : outcome DistributedAnnDataCollection.t * World :=
  DistributedAnnDataCollection.__init__ files braceexpand args fresh.

(** The schema of the first file and the collection built from [args]. *)
Definition schema : AnnDataSchema.t :=
  match AnnDataSchema.infer (table 10 "cell_type" 0) with
  | Ok s => s
  | Raise _ => AnnDataSchema.mk ∅
  end.

Definition collection : DistributedAnnDataCollection.t :=
  DistributedAnnDataCollection.mk names [10; 20; 30; 40; 50]%Z (Some 2) true
    schema
    (DistributedAnnDataCollection.lazy_adatas [10; 20; 30; 40; 50]%Z names
       schema).

Definition world : World := built.2.

Definition shard (i : nat) : LazyAnnData.t :=
  default (LazyAnnData.mk "" (0, 0)%Z schema)
    (DistributedAnnDataCollection.adatas collection !! i).
End Demo.

Module Demo2.
(** [DistributedAnnDataCollection(["s0"], limits=[10], last_shard_size=5)] *)
Definition args_last_shard_size : DistributedAnnDataCollection.init_args :=
  DistributedAnnDataCollection.mk_args
    (DistributedAnnDataCollection.Names ["s0"%string])
    (Some [10%Z]) None (Some 5%Z) (Some 2) true None.
End Demo2.

Module Demo3.
(** The demo collection after [materialize(2)]: the cache is full, and the
    first shard is the least recently used. *)
Definition world_full : World :=
  (DistributedAnnDataCollection.materialize Demo.files Demo.collection
     (DistributedAnnDataCollection.Int 2) Demo.world).2.

(** ... and after [materialize([1, 0])] from there. *)
Definition after_query : outcome (list (option AnnData.t)) * World :=
  DistributedAnnDataCollection.materialize Demo.files Demo.collection
    (DistributedAnnDataCollection.Seq [1; 0]%Z) world_full.
End Demo3.

Module Demo4.
(** A stand-in for the index machinery of [AnnCollection] on the demo
    collection: an index is already the resolved list, one entry per
    member, and the view is that list. *)
Definition query (index : list (option ())) : M (list (option ())) :=
  DistributedAnnDataCollection.__getitem__ Demo.files
    (λ _, ()) (λ _, ()) (λ index _ _, Ok (index, ())) (λ _ oidx _, Ok oidx)
    (λ resolved, resolved) (λ _ resolved, resolved)
    Demo.collection index.
End Demo4.

(** ** Facts about the cache *)

Section lru_facts.
Context {V : Type}.
Implicit Types (c : LRU.t V) (es : list (string * V)) (k : string).

Lemma keys_without k es :
  (LRU.without k es).*1 = filter (λ x, x ≠ k) es.*1.
Proof.
  unfold LRU.without.
  induction es as [|[k' v] es IH]; [done|].
  rewrite fmap_cons, !filter_cons; simpl.
  destruct (decide (k' ≠ k)); [rewrite fmap_cons; by f_equal | done].
Qed.

Lemma lookup_None_keys k es : LRU.lookup k es = None ↔ k ∉ es.*1.
Proof.
  induction es as [|[k' v] es IH]; simpl.
  - split; [intros _; apply not_elem_of_nil | done].
  - rewrite not_elem_of_cons. destruct (decide (k' = k)) as [->|Hne].
    + split; [done | by intros [? _]].
    + rewrite IH. split; [by intros; split | by intros [_ ?]].
Qed.

Lemma lookup_Some_keys k es v : LRU.lookup k es = Some v → k ∈ es.*1.
Proof.
  intros H. destruct (decide (k ∈ es.*1)) as [|Hn]; [done|].
  apply lookup_None_keys in Hn. congruence.
Qed.

Lemma contains_true k c : LRU.contains k c = true ↔ k ∈ LRU.keys c.
Proof. unfold LRU.contains. by rewrite bool_decide_eq_true. Qed.

Lemma contains_false k c : LRU.contains k c = false ↔ k ∉ LRU.keys c.
Proof. unfold LRU.contains. by rewrite bool_decide_eq_false. Qed.

Lemma getitem_None k c : LRU.getitem k c = None ↔ LRU.contains k c = false.
Proof.
  unfold LRU.getitem. rewrite contains_false. unfold LRU.keys.
  rewrite <- lookup_None_keys. by destruct (LRU.lookup k (LRU.entries c)).
Qed.

Lemma getitem_Some k c v c' :
  LRU.getitem k c = Some (v, c') →
  LRU.contains k c = true ∧ LRU.max_size c' = LRU.max_size c
  ∧ LRU.keys c' = touch k (LRU.keys c).
Proof.
  unfold LRU.getitem. destruct (LRU.lookup k (LRU.entries c)) as [v'|] eqn:E; [|done].
  intros [= <- <-]. split_and!; [|done|].
  - apply contains_true. by eapply lookup_Some_keys.
  - unfold LRU.keys, touch; simpl. by rewrite fmap_app, keys_without.
Qed.

Lemma contains_getitem k c :
  LRU.contains k c = true → ∃ v c', LRU.getitem k c = Some (v, c').
Proof.
  intros H. destruct (LRU.getitem k c) as [[v c']|] eqn:E; [eauto|].
  apply getitem_None in E. congruence.
Qed.

Lemma keys_evict (m : option nat) es :
  (LRU.evict m es).*1 = match m with
                        | Some n => if decide (n < length es.*1) then tail es.*1 else es.*1
                        | None => es.*1
                        end.
Proof.
  unfold LRU.evict. destruct m as [n|]; [|done].
  rewrite length_fmap. destruct (decide (n < length es)); [|done].
  by destruct es.
Qed.
End lru_facts.

Section recency_facts.
Implicit Types (k x : string) (l R h : list string).

Lemma elem_of_touch x k l : x ∈ touch k l ↔ x = k ∨ x ∈ l.
Proof.
  unfold touch. rewrite elem_of_app, list_elem_of_filter, list_elem_of_singleton.
  destruct (decide (x = k)); tauto.
Qed.

Lemma NoDup_touch k l : NoDup l → NoDup (touch k l).
Proof.
  intros Hl. unfold touch. apply NoDup_app. split_and!.
  - by apply NoDup_filter.
  - intros x [Hx _]%list_elem_of_filter ->%list_elem_of_singleton. done.
  - apply NoDup_singleton.
Qed.

Lemma filter_ne_notin k l : k ∉ l → filter (λ x, x ≠ k) l = l.
Proof.
  induction l as [|y l IH]; [done|].
  rewrite not_elem_of_cons. intros [Hne Hl].
  rewrite filter_cons_True by done. by rewrite IH.
Qed.

Lemma touch_notin k l : k ∉ l → touch k l = l ++ [k].
Proof. intros H. unfold touch. by rewrite filter_ne_notin. Qed.

Lemma length_filter_ne_in k l :
  NoDup l → k ∈ l → S (length (filter (λ x, x ≠ k) l)) = length l.
Proof.
  induction l as [|y l IH]; [by intros _ ?%elem_of_nil|].
  intros [Hy Hl]%NoDup_cons. rewrite elem_of_cons. intros [->|Hk].
  - rewrite filter_cons_False by (intros ?; done).
    by rewrite filter_ne_notin.
  - rewrite filter_cons_True by (intros ->; done).
    simpl. by rewrite IH.
Qed.

Lemma length_touch_in k l : NoDup l → k ∈ l → length (touch k l) = length l.
Proof.
  intros Hl Hk. unfold touch. rewrite length_app; simpl.
  rewrite <- (length_filter_ne_in k l) by done. lia.
Qed.

Lemma length_touch_le k l : length (touch k l) ≤ S (length l).
Proof.
  unfold touch. rewrite length_app; simpl.
  pose proof (length_filter (λ x, x ≠ k) l). lia.
Qed.

Lemma last_n_short n l : length l ≤ n → last_n n l = l.
Proof. intros H. unfold last_n. by replace (length l - n) with 0 by lia. Qed.

Lemma last_n_app n l1 l2 : length l2 = n → last_n n (l1 ++ l2) = l2.
Proof.
  intros H. unfold last_n. rewrite length_app.
  replace (length l1 + length l2 - n) with (length l1) by lia.
  by rewrite drop_app_length.
Qed.

Lemma length_last_n n l : length (last_n n l) = n `min` length l.
Proof. unfold last_n. rewrite length_drop. lia. Qed.

(** A recency order splits into what fell out of the window and the
    window. *)
Lemma last_n_split n l :
  ∃ old, l = old ++ last_n n l ∧ (old = [] ∨ length (last_n n l) = n).
Proof.
  exists (take (length l - n) l). split.
  - unfold last_n. by rewrite take_drop.
  - destruct (decide (length l ≤ n)) as [Hle|Hgt].
    + left. by replace (length l - n) with 0 by lia.
    + right. rewrite length_last_n. lia.
Qed.

Lemma elem_of_last_n x n l : x ∈ last_n n l → x ∈ l.
Proof.
  destruct (last_n_split n l) as (old & Hl & _). intros Hx.
  rewrite Hl. apply elem_of_app. by right.
Qed.

Lemma NoDup_last_n n l : NoDup l → NoDup (last_n n l).
Proof.
  destruct (last_n_split n l) as (old & Hl & _). rewrite Hl at 1.
  by intros (_ & _ & ?)%NoDup_app.
Qed.

Lemma window_touch_hit m R k :
  NoDup R → k ∈ window m R → touch k (window m R) = window m (touch k R).
Proof.
  destruct m as [n|]; [simpl|done]. intros HR Hk.
  destruct (last_n_split n R) as (old & HRs & Hold).
  set (L := last_n n R) in *.
  assert (NoDup (old ++ L)) as (_ & Hdisj & HL)%NoDup_app by by rewrite <- HRs.
  assert (k ∉ old) as Hk' by (intros ?; by eapply Hdisj).
  assert (length (touch k L) = length L) as Hlen by by apply length_touch_in.
  assert (touch k R = old ++ touch k L) as ->.
  { rewrite HRs. unfold touch. rewrite filter_app, filter_ne_notin by done.
    by rewrite <- (assoc_L (++)). }
  destruct Hold as [->|Hn].
  - simpl. rewrite last_n_short; [done|].
    rewrite Hlen. unfold L. rewrite length_last_n. lia.
  - by rewrite last_n_app by lia.
Qed.

Lemma window_touch m R k :
  NoDup R → trim m (touch k (window m R)) = window m (touch k R).
Proof.
  intros HR. destruct (decide (k ∈ window m R)) as [Hk|Hk].
  { rewrite window_touch_hit by done.
    destruct m as [n|]; [simpl|done].
    rewrite decide_False; [done|]. rewrite length_last_n. lia. }
  destruct m as [n|]; simpl in *; [|done].
  destruct (last_n_split n R) as (old & HRs & Hold).
  set (L := last_n n R) in *.
  rewrite (touch_notin k L) by done.
  assert (touch k R = filter (λ x, x ≠ k) old ++ (L ++ [k])) as ->.
  { rewrite HRs at 1. unfold touch.
    by rewrite filter_app, (filter_ne_notin k L), <- (assoc_L (++)) by done. }
  rewrite length_app; simpl.
  destruct Hold as [->|Hn].
  - simpl. destruct (decide (n < length L + 1)) as [Hlt|Hge].
    + assert (length L = n) as HLn.
      { pose proof (length_last_n n R) as HLR. fold L in HLR. lia. }
      unfold last_n. rewrite length_app; simpl.
      replace (length L + 1 - n) with 1 by lia. by destruct L.
    + rewrite last_n_short; [done|]. rewrite length_app; simpl. lia.
  - rewrite decide_True by lia.
    unfold last_n. rewrite !length_app; simpl.
    replace (length (filter (λ x, x ≠ k) old) + (length L + 1) - n)
      with (length (filter (λ x, x ≠ k) old) + 1) by lia.
    rewrite drop_app_add. by destruct L.
Qed.

Lemma recency_snoc h k : recency (h ++ [k]) = touch k (recency h).
Proof. unfold recency. by rewrite foldl_snoc. Qed.

Lemma NoDup_recency h : NoDup (recency h).
Proof.
  induction h as [|k h IH] using rev_ind; [apply NoDup_nil_2|].
  rewrite recency_snoc. by apply NoDup_touch.
Qed.

Lemma elem_of_recency x h : x ∈ recency h ↔ x ∈ h.
Proof.
  induction h as [|k h IH] using rev_ind; [done|].
  rewrite recency_snoc, elem_of_touch, elem_of_app, list_elem_of_singleton, IH.
  tauto.
Qed.

Lemma recency_NoDup l : NoDup l → recency l = l.
Proof.
  induction l as [|k l IH] using rev_ind; [done|].
  intros (Hl & Hdisj & _)%NoDup_app. rewrite recency_snoc, IH by done.
  apply touch_notin. intros Hk. eapply Hdisj; [done|]. apply list_elem_of_singleton. done.
Qed.

Lemma length_recency h : length (recency h) ≤ length h.
Proof.
  induction h as [|k h IH] using rev_ind; [done|].
  rewrite recency_snoc, length_app; simpl.
  pose proof (length_touch_le k (recency h)). lia.
Qed.

Lemma filter_all (P : string → Prop) `{!∀ x, Decision (P x)} l :
  (∀ x, x ∈ l → P x) → filter P l = l.
Proof.
  induction l as [|y l IH]; [done|]. intros HP.
  rewrite filter_cons_True by (apply HP; left).
  rewrite IH; [done|]. intros x Hx. apply HP. by right.
Qed.

(** The touches of a later period end the recency order. *)
Lemma recency_app h t :
  recency (h ++ t) = filter (λ x, x ∉ t) (recency h) ++ recency t.
Proof.
  induction t as [|k t IH] using rev_ind.
  - rewrite !app_nil_r. rewrite filter_all; [done|].
    intros x _. apply not_elem_of_nil.
  - rewrite (assoc_L (++)), !recency_snoc, IH. unfold touch.
    rewrite filter_app, <- !(assoc_L (++)). f_equal.
    rewrite list_filter_filter. apply list_filter_iff. intros x.
    rewrite elem_of_app, list_elem_of_singleton. tauto.
Qed.

(** Keys touched at most [n] distinct times ago are within the [n] most
    recent. *)
Lemma recent_in_window m h t x :
  (∀ n, m = Some n → length (recency t) ≤ n) →
  x ∈ t → x ∈ window m (recency (h ++ t)).
Proof.
  intros Hlen Hx. apply elem_of_recency in Hx.
  rewrite recency_app. destruct m as [n|]; simpl.
  - specialize (Hlen n eq_refl). unfold last_n.
    set (old := filter (λ x, x ∉ t) (recency h)).
    rewrite length_app.
    destruct (decide (length old + length (recency t) - n ≤ length old)) as [Hle|Hgt]; [|lia].
    rewrite drop_app_le by done. apply elem_of_app. by right.
  - apply elem_of_app. by right.
Qed.
End recency_facts.

Section lru_invariants.
Context {V : Type}.
Implicit Types (c : LRU.t V) (k : string).

Lemma keys_setitem k v c :
  LRU.keys (LRU.setitem k v c) = trim (LRU.max_size c) (touch k (LRU.keys c)).
Proof.
  unfold LRU.keys, LRU.setitem, trim, touch; simpl.
  by rewrite keys_evict, fmap_app, keys_without.
Qed.

Lemma size_keys c : LRU.size c = length (LRU.keys c).
Proof. unfold LRU.size, LRU.keys. by rewrite length_fmap. Qed.

Lemma cache_wf_new (m : option nat) : cache_wf (LRU.new (V:=V) m).
Proof.
  split; [apply NoDup_nil_2|]. intros n _. unfold LRU.size; simpl. lia.
Qed.

Lemma cache_wf_getitem k c v c' :
  cache_wf c → LRU.getitem k c = Some (v, c') → cache_wf c'.
Proof.
  intros [Hnd Hsz] (Hin%contains_true & Hm & Hk)%getitem_Some. split.
  - rewrite Hk. by apply NoDup_touch.
  - intros n Hn. rewrite Hm in Hn. specialize (Hsz n Hn).
    rewrite size_keys in *. by rewrite Hk, length_touch_in.
Qed.

Lemma NoDup_trim (m : option nat) (l : list string) : NoDup l → NoDup (trim m l).
Proof.
  intros Hl. destruct m as [n|]; simpl; [|done].
  destruct (decide _); [|done]. destruct l; [done|].
  by apply NoDup_cons in Hl as [_ ?].
Qed.

Lemma length_trim n (l : list string) :
  length l ≤ S n → length (trim (Some n) l) ≤ n.
Proof.
  intros Hl. simpl. destruct (decide _); [|lia].
  destruct l; simpl in *; lia.
Qed.

Lemma cache_wf_setitem k v c : cache_wf c → cache_wf (LRU.setitem k v c).
Proof.
  intros [Hnd Hsz]. split.
  - rewrite keys_setitem. by apply NoDup_trim, NoDup_touch.
  - intros n Hn. simpl in Hn. specialize (Hsz n Hn).
    rewrite size_keys in *. rewrite keys_setitem, Hn. apply length_trim.
    pose proof (length_touch_le k (LRU.keys c)). lia.
Qed.

Lemma elem_of_trim x (m : option nat) (l : list string) : x ∈ trim m l → x ∈ l.
Proof.
  destruct m as [n|]; simpl; [|done]. destruct (decide _); [|done].
  destruct l; [done|]. simpl. by right.
Qed.

Lemma tracks_getitem h k c v c' :
  tracks h c → LRU.getitem k c = Some (v, c') → tracks (h ++ [k]) c'.
Proof.
  unfold tracks. intros Hc (Hin%contains_true & Hm & Hk)%getitem_Some.
  rewrite Hk, Hm, Hc, recency_snoc. rewrite Hc in Hin.
  apply window_touch_hit; [apply NoDup_recency | done].
Qed.

Lemma tracks_setitem h k v c :
  tracks h c → tracks (h ++ [k]) (LRU.setitem k v c).
Proof.
  unfold tracks. intros Hc. rewrite keys_setitem, Hc, recency_snoc. simpl.
  apply window_touch, NoDup_recency.
Qed.

Lemma tracks_keys c : cache_wf c → tracks (LRU.keys c) c.
Proof.
  intros [Hnd Hsz]. unfold tracks. rewrite recency_NoDup by done.
  destruct (LRU.max_size c) as [n|] eqn:E; [simpl|done].
  rewrite last_n_short; [done|]. specialize (Hsz n eq_refl).
  by rewrite size_keys in Hsz.
Qed.
End lru_invariants.

(** ** Facts about the world and [LazyAnnData] *)

Lemma bind_unfold {A B : Type} (m : M A) (f : A → M B) (w : World) :
  (m ≫= f) w = match m w with
               | (Ok a, w') => f a w'
               | (Raise e, w') => (Raise e, w')
               end.
Proof. reflexivity. Qed.

Lemma touches_app t1 t2 : touches (t1 ++ t2) = touches t1 ++ touches t2.
Proof. apply omap_app. Qed.

Lemma file_reads_app t1 t2 : file_reads (t1 ++ t2) = file_reads t1 ++ file_reads t2.
Proof. apply omap_app. Qed.

Lemma touches_hits (hits : list string) : touches (CacheHit <$> hits) = hits.
Proof. induction hits as [|k hits IH]; [done|]. unfold touches in *. simpl. f_equal. apply IH. Qed.

Lemma evolves_refl w : evolves [] w w.
Proof.
  unfold evolves. rewrite app_nil_r. split_and!; try done.
  - intros h. by rewrite app_nil_r.
  - intros k. by left.
Qed.

Lemma evolves_trans t1 t2 w1 w2 w3 :
  evolves t1 w1 w2 → evolves t2 w2 w3 → evolves (t1 ++ t2) w1 w3.
Proof.
  intros (Ht1 & Hl1 & Hm1 & Hwf1 & Htr1 & Hk1) (Ht2 & Hl2 & Hm2 & Hwf2 & Htr2 & Hk2).
  unfold evolves. split_and!.
  - by rewrite Ht2, Ht1, (assoc_L (++)).
  - congruence.
  - congruence.
  - auto.
  - intros h Hh. rewrite touches_app, (assoc_L (++)). auto.
  - intros k Hk. rewrite touches_app, elem_of_app.
    destruct (Hk2 k Hk) as [Hk'|]; [|tauto].
    destruct (Hk1 k Hk'); tauto.
Qed.

Lemma evolves_read f w : evolves [FileRead f] w (log (FileRead f) w).
Proof.
  unfold evolves; simpl. split_and!; try done.
  - intros h. by rewrite app_nil_r.
  - intros k. by left.
Qed.

Lemma evolves_hit k w v c' :
  LRU.getitem k (cache w) = Some (v, c') →
  evolves [CacheHit k] w (log (CacheHit k) (set_cache c' w)).
Proof.
  intros Hget. pose proof (getitem_Some _ _ _ _ Hget) as (Hin & Hm & Hk).
  unfold evolves; simpl. split_and!; try done.
  - intros Hwf. by eapply cache_wf_getitem.
  - intros h Hh. by eapply tracks_getitem.
  - intros x. rewrite Hk, elem_of_touch, list_elem_of_singleton. tauto.
Qed.

Lemma evolves_insert k v w :
  evolves [CacheInsert k] w
    (log (CacheInsert k) (set_cache (LRU.setitem k v (cache w)) w)).
Proof.
  unfold evolves; simpl. split_and!; try done.
  - apply cache_wf_setitem.
  - intros h. apply tracks_setitem.
  - intros x. rewrite keys_setitem. intros Hx%elem_of_trim%elem_of_touch.
    rewrite list_elem_of_singleton. tauto.
Qed.

Lemma validate_groups_raises groups schema adata e :
  AnnDataSchema.validate_groups groups schema adata = Raise e →
  is_SchemaMismatchError e.
Proof.
  induction groups as [|g groups IH]; simpl; [done|].
  destruct (decide _); [done|]. intros [= <-]. by eexists _, _, _.
Qed.

Section shard_facts.
Context (read_h5ad_file : string → option AnnData.t).
Implicit Types (self : LazyAnnData.t) (w : World).

Lemma adata_hit self w v c' :
  LRU.getitem (LazyAnnData.filename self) (cache w) = Some (v, c') →
  LazyAnnData.adata read_h5ad_file self w
  = (Ok v, log (CacheHit (LazyAnnData.filename self)) (set_cache c' w)).
Proof.
  intros H. unfold LazyAnnData.adata, except_KeyError, cache_getitem.
  by rewrite H.
Qed.

Lemma adata_miss self w :
  LRU.getitem (LazyAnnData.filename self) (cache w) = None →
  LazyAnnData.adata read_h5ad_file self w = load read_h5ad_file self w.
Proof.
  intros H. unfold LazyAnnData.adata, except_KeyError, cache_getitem, load.
  rewrite H. rewrite bind_unfold. unfold LazyAnnData.read.
  destruct (read_h5ad_file _) as [adata|]; [|done].
  rewrite bind_unfold. unfold assert.
  destruct (decide (LazyAnnData.n_obs self = AnnData.n_obs adata)) as [Hn|Hn]; [|done].
  unfold mret, M_ret. rewrite bind_unfold. unfold lift.
  destruct (AnnDataSchema.validate_anndata _ _) as [[]|e]; done.
Qed.
End shard_facts.

Lemma validate_groups_Ok groups schema adata :
  AnnDataSchema.validate_groups groups schema adata = Ok tt
  ↔ Forall (λ g, signature <$> AnnDataSchema.attr_values schema !! g
                 = signature <$> AnnData.getattr adata g) groups.
Proof.
  induction groups as [|g groups IH]; simpl.
  - split; [intros _; apply Forall_nil_2 | done].
  - rewrite Forall_cons. destruct (decide _) as [Heq|Hne].
    + rewrite IH. tauto.
    + split; [done | by intros [? _]].
Qed.

Lemma validate_anndata_Ok schema adata :
  AnnDataSchema.validate_anndata schema adata = Ok tt ↔ conforms schema adata.
Proof. apply validate_groups_Ok. Qed.

Lemma validate_anndata_Raise schema adata :
  ¬ conforms schema adata →
  ∃ e, AnnDataSchema.validate_anndata schema adata = Raise e
       ∧ is_SchemaMismatchError e.
Proof.
  intros Hn. destruct (AnnDataSchema.validate_anndata schema adata) as [[]|e] eqn:E.
  - by apply validate_anndata_Ok in E.
  - exists e. split; [done|]. by eapply validate_groups_raises.
Qed.

Section shard_cases.
Context (read_h5ad_file : string → option AnnData.t).
Implicit Types (self : LazyAnnData.t) (w : World).

Lemma load_cases self w r w' :
  load read_h5ad_file self w = (r, w') →
  (is_Ok r
   ∧ evolves [FileRead (LazyAnnData.filename self);
              CacheInsert (LazyAnnData.filename self)] w w')
  ∨ ((∃ e, r = Raise e ∧ load_error e)
     ∧ w' = log (FileRead (LazyAnnData.filename self)) w).
Proof.
  unfold load. intros H. set (f := LazyAnnData.filename self) in *.
  destruct (read_h5ad_file f) as [adata|].
  - destruct (decide _) as [Hn|Hn].
    + destruct (AnnDataSchema.validate_anndata _ _) as [[]|e] eqn:Ev.
      * injection H as <- <-. left. split; [done|].
        apply (evolves_trans [FileRead f] [CacheInsert f] _ (log (FileRead f) w)).
        { apply evolves_read. }
        apply (evolves_insert f adata (log (FileRead f) w)).
      * injection H as <- <-. right. split; [|done]. exists e. split; [done|].
        right; right. by eapply validate_groups_raises.
    + injection H as <- <-. right. split; [|done]. eexists. split; [done|].
      right; left. by eexists _, _.
  - injection H as <- <-. right. split; [|done]. eexists. split; [done|].
    left. by eexists.
Qed.

(** The three ways an access to the content of a shard can go. *)
Lemma adata_cases self w r w' :
  LazyAnnData.adata read_h5ad_file self w = (r, w') →
  (LazyAnnData.filename self ∈ LRU.keys (cache w) ∧ is_Ok r
   ∧ evolves [CacheHit (LazyAnnData.filename self)] w w'
   ∧ ∀ k, k ∈ LRU.keys (cache w') ↔ k ∈ LRU.keys (cache w))
  ∨ ((LazyAnnData.filename self ∉ LRU.keys (cache w)) ∧ is_Ok r
     ∧ evolves [FileRead (LazyAnnData.filename self);
                CacheInsert (LazyAnnData.filename self)] w w')
  ∨ ((LazyAnnData.filename self ∉ LRU.keys (cache w))
     ∧ (∃ e, r = Raise e ∧ load_error e)
     ∧ w' = log (FileRead (LazyAnnData.filename self)) w).
Proof.
  intros H. set (f := LazyAnnData.filename self) in *. destruct (LRU.getitem f (cache w)) as [[v c']|] eqn:Hget.
  - rewrite (adata_hit _ _ _ _ _ Hget) in H. injection H as <- <-.
    pose proof (getitem_Some _ _ _ _ Hget) as (Hin%contains_true & _ & Hk).
    left. split_and!; [done|done|by eapply evolves_hit|].
    intros k; simpl. rewrite Hk, elem_of_touch.
    split; [intros [->|]; done | tauto].
  - rewrite (adata_miss _ _ _ Hget) in H.
    apply getitem_None, contains_false in Hget.
    destruct (load_cases _ _ _ _ H) as [[? ?]|[? ?]]; tauto.
Qed.

Lemma adata_evolves self w r w' :
  LazyAnnData.adata read_h5ad_file self w = (r, w') → ∃ t, evolves t w w'.
Proof.
  intros [(_ & _ & ? & _)|[(_ & _ & ?)|(_ & _ & ->)]]%adata_cases; eauto.
  eexists. apply evolves_read.
Qed.
End shard_cases.

(** ** Facts about construction *)

Section init_facts.
Context (read_h5ad_file : string → option AnnData.t).
Context (braceexpand : string → list string).

Lemma var_names_tracked : "var_names"%string ∈ _lazy_attrs.
Proof. unfold _lazy_attrs. rewrite !elem_of_cons. do 6 right. by left. Qed.

(** In lazy mode the look at every member's [var_names] touches neither
    the cache nor a file. *)
Lemma var_names_loop_lazy (adatas : list LazyAnnData.t) (acc : list AttrValue)
    (w : World) :
  lazy w = true →
  ∃ r, for_each adatas
         (λ shard acc,
            v ← LazyAnnData.__getattr__ read_h5ad_file shard "var_names";
            mret (acc ++ [v])) acc w = (r, w)
       ∧ ∀ e, r = Raise e → e = KeyError "var_names".
Proof.
  intros Hlazy. revert acc.
  induction adatas as [|shard adatas IH]; intros acc; simpl.
  - by eexists.
  - rewrite !bind_unfold. unfold LazyAnnData.__getattr__ at 1. rewrite Hlazy.
    rewrite decide_True by apply var_names_tracked.
    destruct (AnnDataSchema.attr_values _ !! _) as [v|].
    + unfold mret, M_ret. apply IH.
    + eexists. split; [done|]. by intros e [= <-].
Qed.

Lemma AnnCollection_init_lazy (adatas : list LazyAnnData.t) (w : World) :
  lazy w = true →
  ∃ r, DistributedAnnDataCollection.AnnCollection_init read_h5ad_file adatas w
       = (r, w)
       ∧ (∀ l, r = Ok l →
            l = DistributedAnnDataCollection.running_totals 0
                  (LazyAnnData.n_obs <$> adatas))
       ∧ (∀ e, r = Raise e →
            e = KeyError "var_names" ∨ e = IndexError
            ∨ e = ValueError_var_names).
Proof.
  intros Hlazy. unfold DistributedAnnDataCollection.AnnCollection_init.
  rewrite bind_unfold.
  destruct (var_names_loop_lazy adatas [] w Hlazy) as (r & -> & Hr).
  destruct r as [[|v0 vs]|e].
  - eexists. split; [done|]. split; [done|]. intros e [= <-]. tauto.
  - rewrite bind_unfold. unfold assert. destruct (decide _).
    + eexists. split; [done|]. split; [|done]. by intros l [= <-].
    + eexists. split; [done|]. split; [done|]. intros e [= <-]. tauto.
  - eexists. split; [done|]. split; [done|]. intros e' [= <-].
    left. by apply Hr.
Qed.

Lemma limits_stage (args : DistributedAnnDataCollection.init_args) (n : nat)
    (w : World) (r : outcome (list Z)) (w' : World) :
  match DistributedAnnDataCollection.arg_shard_size args with
  | Some shard_size =>
      match DistributedAnnDataCollection.arg_last_shard_size args with
      | Some last_shard_size =>
          DistributedAnnDataCollection.set_last_limit shard_size
            last_shard_size
            (DistributedAnnDataCollection.uniform_limits shard_size n)
      | None => mret (DistributedAnnDataCollection.uniform_limits shard_size n)
      end
  | None =>
      match DistributedAnnDataCollection.arg_limits args with
      | Some limits => mret limits
      | None => raise TypeError
      end
  end w = (r, w') →
  w' = w ∧ ∀ e, r = Raise e → e = IndexError ∨ e = TypeError.
Proof.
  destruct (DistributedAnnDataCollection.arg_shard_size args) as [s|].
  - destruct (DistributedAnnDataCollection.arg_last_shard_size args) as [l|].
    + unfold DistributedAnnDataCollection.set_last_limit.
      destruct (py_index _ _); intros [= <- <-]; split; try done.
      intros e [= <-]. tauto.
    + by intros [= <- <-].
  - destruct (DistributedAnnDataCollection.arg_limits args) as [l|];
      intros [= <- <-]; split; try done.
    intros e [= <-]. tauto.
Qed.

Lemma not_ConfigurationError (e : exn) :
  e ≠ ValueError_limits_xor_shard_size → e ≠ ValueError_last_shard_size →
  ¬ ConfigurationError e.
Proof. intros ?? [?|?]; done. Qed.

(** Every way a constructor call can end. *)
Lemma init_inv (args : DistributedAnnDataCollection.init_args) (w0 : World)
    (r : outcome DistributedAnnDataCollection.t) (w1 : World) :
  DistributedAnnDataCollection.__init__ read_h5ad_file braceexpand args w0
  = (r, w1) →
  (expanded_filenames braceexpand args = [] ∧ r = Raise IndexError ∧ w1 = w0)
  ∨ (expanded_filenames braceexpand args ≠ [] ∧ ¬ exactly_one_given args
     ∧ r = Raise ValueError_limits_xor_shard_size ∧ w1 = w0)
  ∨ (expanded_filenames braceexpand args ≠ [] ∧ exactly_one_given args
     ∧ last_without_shard_size args
     ∧ r = Raise ValueError_last_shard_size ∧ w1 = w0)
  ∨ (expanded_filenames braceexpand args ≠ [] ∧ exactly_one_given args
     ∧ ¬ last_without_shard_size args
     ∧ ((∃ e t, r = Raise e ∧ ¬ ConfigurationError e
                ∧ ¬ is_SchemaMismatchError e
                ∧ trace w1 = trace w0 ++ t
                ∧ ∃ f0, expanded_filenames braceexpand args !! 0 = Some f0
                        ∧ (file_reads t = [] ∨ file_reads t = [f0]))
        ∨ (∃ c, r = Ok c
                ∧ constructed read_h5ad_file braceexpand args w0 c w1))).
Proof.
  unfold DistributedAnnDataCollection.__init__.
  fold (expanded_filenames braceexpand args).
  set (fns := expanded_filenames braceexpand args).
  intros H. rewrite bind_unfold in H.
  destruct (fns !! 0) as [f0|] eqn:Hf0.
  2:{ injection H as <- <-. left. by destruct fns. }
  assert (fns ≠ []) as Hne by (by intros E; rewrite E in Hf0).
  right.
  unfold mret at 1, M_ret at 1 in H. cbv beta iota in H.
  rewrite bind_unfold in H.
  destruct (bool_decide _) eqn:Hg1.
  { injection H as <- <-. left. apply bool_decide_eq_true in Hg1.
    split_and!; try done. by intros ?. }
  apply bool_decide_eq_false in Hg1. right.
  destruct (is_none (DistributedAnnDataCollection.arg_shard_size args)
            && negb (is_none (DistributedAnnDataCollection.arg_last_shard_size args))) eqn:Hg2.
  { injection H as <- <-. left. split_and!; try done.
    apply andb_true_iff in Hg2 as [Hs Hl]. unfold last_without_shard_size.
    destruct (DistributedAnnDataCollection.arg_shard_size args); [done|].
    by destruct (DistributedAnnDataCollection.arg_last_shard_size args). }
  right.
  assert (¬ last_without_shard_size args) as Hg2'.
  { intros [Hs Hl]. rewrite Hs in Hg2.
    by destruct (DistributedAnnDataCollection.arg_last_shard_size args). }
  split_and!; [done|done|done|].
  unfold mret at 1, M_ret at 1 in H. cbv beta iota in H.
  rewrite bind_unfold in H.
  match type of H with
  | (let (_, _) := ?m w0 in _) = _ =>
      destruct (m w0) as [[limits|e] w'] eqn:Hlim
  end; apply limits_stage in Hlim as [-> Hlim].
  2:{ injection H as <- <-. left. exists e, []. rewrite app_nil_r.
      split_and!; try done.
      - destruct (Hlim e eq_refl) as [->| ->]; by apply not_ConfigurationError.
      - destruct (Hlim e eq_refl) as [->| ->]; by intros (?&?&?&?).
      - exists f0. split; [done|]. by left. }
  rewrite bind_unfold in H. unfold assert at 1 in H.
  destruct (decide (length limits = length fns)) as [Hlen|Hlen].
  2:{ injection H as <- <-. left. exists AssertionError_limits_length, [].
      rewrite app_nil_r. split_and!; try done.
      - by apply not_ConfigurationError.
      - by intros (?&?&?&?).
      - exists f0. split; [done|]. by left. }
  unfold mret at 1, M_ret at 1 in H. cbv beta iota in H.
  rewrite bind_unfold in H. cbv beta iota in H.
  rewrite bind_unfold in H. unfold LazyAnnData.read at 1 in H.
  destruct (read_h5ad_file f0) as [adata0|] eqn:Hread.
  2:{ injection H as <- <-. left. exists (StorageUnavailableError f0), [FileRead f0].
      split_and!; try done.
      - by apply not_ConfigurationError.
      - by intros (?&?&?&?).
      - exists f0. split; [done|]. by right. }
  rewrite bind_unfold in H. unfold cache_setitem at 1 in H.
  rewrite bind_unfold in H. unfold lift at 1 in H.
  destruct (AnnDataSchema.infer adata0) as [schema|e] eqn:Hinfer.
  2:{ injection H as <- <-. left. exists e, [FileRead f0; CacheInsert f0].
      assert (∃ g, e = SchemaError g) as [g ->].
      { clear -Hinfer. unfold AnnDataSchema.infer in Hinfer.
        destruct (AnnDataSchema.infer_groups _ _) as [|e'] eqn:E; [done|].
        injection Hinfer as <-. revert e' E.
        induction _lazy_attrs as [|g gs IH]; intros e' E; simpl in E; [done|].
        destruct (AnnData.getattr adata0 g); [|injection E as <-; by eexists].
        destruct (AnnDataSchema.infer_groups gs adata0); [done|].
        injection E as <-. by apply IH. }
      split_and!; try done.
      - by apply not_ConfigurationError.
      - by intros (?&?&?&?).
      - simpl. by rewrite <- (assoc_L (++)).
      - exists f0. split; [done|]. by right. }
  rewrite bind_unfold in H. unfold assert at 1 in H.
  destruct (decide (length (default fns (DistributedAnnDataCollection.arg_keys args)) = length fns)) as [Hkeys|Hkeys].
  2:{ injection H as <- <-. left. exists AssertionError_keys_length, [FileRead f0; CacheInsert f0].
      split_and!; try done.
      - by apply not_ConfigurationError.
      - by intros (?&?&?&?).
      - simpl. by rewrite <- (assoc_L (++)).
      - exists f0. split; [done|]. by right. }
  unfold mret at 1, M_ret at 1 in H. cbv beta iota in H.
  rewrite bind_unfold in H. unfold lazy_getattr, finally in H.
  match type of H with
  | context [DistributedAnnDataCollection.AnnCollection_init _ ?ads ?w] =>
      destruct (AnnCollection_init_lazy ads w eq_refl) as (r' & Hr' & Hok & Herr);
      rewrite Hr' in H
  end.
  destruct r' as [limits'|e]; injection H as <- <-.
  - right. eexists. split; [done|]. exists f0, adata0, limits.
    rewrite (Hok _ eq_refl). split_and!; try done.
    unfold log, set_cache, set_lazy; simpl. by rewrite <- (assoc_L (++)).
  - left. exists e, [FileRead f0; CacheInsert f0]. split_and!; try done.
    + destruct (Herr e eq_refl) as [->|[->| ->]]; by apply not_ConfigurationError.
    + destruct (Herr e eq_refl) as [->|[->| ->]]; by intros (?&?&?&?).
    + simpl. by rewrite <- (assoc_L (++)).
    + exists f0. split; [done|]. by right.
Qed.
End init_facts.

(** ** Facts about the shard list *)

Lemma lazy_adatas_lookup (L : list Z) (fns : list string)
    (s : AnnDataSchema.t) (i : nat) (shard : LazyAnnData.t) :
  DistributedAnnDataCollection.lazy_adatas L fns s !! i = Some shard →
  LazyAnnData.schema shard = s
  ∧ fns !! i = Some (LazyAnnData.filename shard)
  ∧ L !! i = Some (LazyAnnData.limits shard).2.
Proof.
  unfold DistributedAnnDataCollection.lazy_adatas.
  intros (range & f & -> & Hr & Hf)%lookup_zip_with_Some.
  apply lookup_zip_with_Some in Hr as (a & b & -> & _ & Hb). done.
Qed.

Lemma lazy_adatas_elem_of (L : list Z) (fns : list string)
    (s : AnnDataSchema.t) (shard : LazyAnnData.t) :
  shard ∈ DistributedAnnDataCollection.lazy_adatas L fns s →
  LazyAnnData.schema shard = s ∧ LazyAnnData.filename shard ∈ fns.
Proof.
  intros [i Hi]%list_elem_of_lookup.
  apply lazy_adatas_lookup in Hi as (? & ? & _). split; [done|].
  by eapply list_elem_of_lookup_2.
Qed.

Lemma length_lazy_adatas (L : list Z) (fns : list string) (s : AnnDataSchema.t) :
  length L = length fns →
  length (DistributedAnnDataCollection.lazy_adatas L fns s) = length fns.
Proof.
  intros H. unfold DistributedAnnDataCollection.lazy_adatas.
  rewrite length_zip_with, length_zip, length_cons. lia.
Qed.

(** The running totals of the row counts of the shards are the boundaries
    the shards were cut at. *)
Lemma running_totals_lazy_adatas (L : list Z) (fns : list string)
    (s : AnnDataSchema.t) (start : Z) :
  length L ≤ length fns →
  DistributedAnnDataCollection.running_totals start
    (LazyAnnData.n_obs <$>
       zip_with (λ range filename, LazyAnnData.mk filename range s)
         (zip (start :: L) L) fns)
  = L.
Proof.
  revert fns start. induction L as [|x L IH]; intros fns start Hlen; [done|].
  destruct fns as [|f fns]; simpl in Hlen; [lia|].
  set (g := λ range filename, LazyAnnData.mk filename range s).
  assert (zip_with g (zip (start :: x :: L) (x :: L)) (f :: fns)
          = g (start, x) f :: zip_with g (zip (x :: L) L) fns) as -> by done.
  rewrite fmap_cons. cbn [DistributedAnnDataCollection.running_totals].
  assert (LazyAnnData.n_obs (g (start, x) f) = (x - start)%Z) as -> by done.
  replace (start + (x - start))%Z with x by lia.
  f_equal. apply IH. lia.
Qed.

(** ** Facts about the two passes of [materialize] *)

Lemma enumerate_snd_from {A : Type} (l : list A) (g : nat → nat) :
  (imap (λ i x, (g i, x)) l).*2 = l.
Proof.
  revert g. induction l as [|x l IH]; intros g; [done|].
  rewrite imap_cons, fmap_cons. simpl. f_equal. apply (IH (g ∘ S)).
Qed.

Lemma enumerate_snd {A : Type} (l : list A) : (enumerate l).*2 = l.
Proof. apply (enumerate_snd_from l id). Qed.

Lemma filter_ext_in {A : Type} (P Q : A → Prop)
    `{!∀ x, Decision (P x)} `{!∀ x, Decision (Q x)} (l : list A) :
  (∀ x, x ∈ l → P x ↔ Q x) → filter P l = filter Q l.
Proof.
  induction l as [|x l IH]; intros HPQ; [done|].
  rewrite !filter_cons.
  assert (P x ↔ Q x) as Hx by (apply HPQ; left).
  rewrite IH by (intros y Hy; apply HPQ; by right).
  destruct (decide (P x)), (decide (Q x)); tauto.
Qed.

Lemma requested_files_cons_Some (adatas : list LazyAnnData.t) (idx : Z)
    (indices : list Z) (shard : LazyAnnData.t) :
  py_index adatas idx = Some shard →
  requested_files adatas (idx :: indices)
  = LazyAnnData.filename shard :: requested_files adatas indices.
Proof. intros H. unfold requested_files. simpl. by rewrite H. Qed.

Lemma requested_files_cons_None (adatas : list LazyAnnData.t) (idx : Z)
    (indices : list Z) :
  py_index adatas idx = None →
  requested_files adatas (idx :: indices) = requested_files adatas indices.
Proof. intros H. unfold requested_files. simpl. by rewrite H. Qed.

Lemma length_requested_files (adatas : list LazyAnnData.t) (indices : list Z) :
  length (requested_files adatas indices) ≤ length indices.
Proof.
  induction indices as [|idx indices IH]; [done|].
  destruct (py_index adatas idx) as [shard|] eqn:E.
  - rewrite (requested_files_cons_Some _ _ _ _ E). simpl. lia.
  - rewrite (requested_files_cons_None _ _ _ E). simpl. lia.
Qed.

(** A key touched within the last few distinct touches is resident when
    those touches fit the capacity. *)
Lemma tracked_resident {V : Type} (c : LRU.t V) (h T F : list string)
    (f : string) :
  tracks (h ++ T) c →
  (∀ x, x ∈ T → x ∈ F) →
  fits (LRU.max_size c) (length F) →
  f ∈ T → f ∈ LRU.keys c.
Proof.
  intros Htr HT Hfits Hf. rewrite Htr. apply recent_in_window; [|done].
  intros n Hn. specialize (Hfits n Hn).
  etrans; [|exact Hfits]. apply submseteq_length, NoDup_submseteq.
  - apply NoDup_recency.
  - intros x Hx. apply HT. by apply (elem_of_recency x T).
Qed.

Section passes.
Context (read_h5ad_file : string → option AnnData.t).
Implicit Types (self : DistributedAnnDataCollection.t) (w : World).

Lemma fetch_cached_unfold self (i : nat) (idx : Z)
    (ads : list (option AnnData.t)) w :
  DistributedAnnDataCollection.fetch_cached read_h5ad_file self (i, idx) ads w
  = match py_index (DistributedAnnDataCollection.adatas self) idx with
    | None => (Raise IndexError, w)
    | Some shard =>
        if LRU.contains (LazyAnnData.filename shard) (cache w) then
          match LazyAnnData.adata read_h5ad_file shard w with
          | (Ok a, w') => (Ok (<[i := Some a]> ads), w')
          | (Raise e, w') => (Raise e, w')
          end
        else (Ok ads, w)
    end.
Proof.
  unfold DistributedAnnDataCollection.fetch_cached,
    DistributedAnnDataCollection.adatas_getitem.
  rewrite bind_unfold.
  destruct (py_index _ idx) as [shard|]; [|done].
  unfold mret at 1, M_ret at 1. cbv beta iota.
  rewrite bind_unfold. unfold LazyAnnData.cached, cache_contains.
  destruct (LRU.contains _ _); [|done].
  rewrite bind_unfold. by destruct (LazyAnnData.adata _ _ _) as [[a|e] w'].
Qed.

Lemma fetch_new_unfold self (i : nat) (idx : Z)
    (ads : list (option AnnData.t)) w :
  DistributedAnnDataCollection.fetch_new read_h5ad_file self (i, idx) ads w
  = match py_index (DistributedAnnDataCollection.adatas self) idx with
    | None => (Raise IndexError, w)
    | Some shard =>
        if LRU.contains (LazyAnnData.filename shard) (cache w) then (Ok ads, w)
        else
          match LazyAnnData.adata read_h5ad_file shard w with
          | (Ok a, w') => (Ok (<[i := Some a]> ads), w')
          | (Raise e, w') => (Raise e, w')
          end
    end.
Proof.
  unfold DistributedAnnDataCollection.fetch_new,
    DistributedAnnDataCollection.adatas_getitem.
  rewrite bind_unfold.
  destruct (py_index _ idx) as [shard|]; [|done].
  unfold mret at 1, M_ret at 1. cbv beta iota.
  rewrite bind_unfold. unfold LazyAnnData.cached, cache_contains.
  destruct (LRU.contains _ _); cbn [negb]; [done|].
  rewrite bind_unfold. by destruct (LazyAnnData.adata _ _ _) as [[a|e] w'].
Qed.

Lemma for_each_cons {A S : Type} (x : A) (l : list A) (body : A → S → M S)
    (s : S) w :
  for_each (x :: l) body s w
  = match body x s w with
    | (Ok s', w') => for_each l body s' w'
    | (Raise e, w') => (Raise e, w')
    end.
Proof. reflexivity. Qed.

(** The first pass only hits: it touches the resident shards among the
    requested ones, in the order of the request, and stops early only at
    a position that is out of range. *)
Lemma first_pass_inv self (slots : list (nat * Z)) :
  ∀ (ads : list (option AnnData.t)) w r w',
    for_each slots (DistributedAnnDataCollection.fetch_cached read_h5ad_file self)
      ads w = (r, w') →
    ∃ hits,
      evolves (CacheHit <$> hits) w w'
      ∧ (∀ k, k ∈ LRU.keys (cache w') ↔ k ∈ LRU.keys (cache w))
      ∧ hits `prefix_of`
          filter (λ f, f ∈ LRU.keys (cache w))
            (requested_files (DistributedAnnDataCollection.adatas self) slots.*2)
      ∧ (is_Ok r →
         hits = filter (λ f, f ∈ LRU.keys (cache w))
                  (requested_files (DistributedAnnDataCollection.adatas self)
                     slots.*2))
      ∧ (∀ e, r = Raise e → e = IndexError).
Proof.
  induction slots as [|[i idx] slots IH]; intros ads w r w' H.
  { injection H as <- <-. exists []. split_and!; try done.
    apply evolves_refl. }
  rewrite for_each_cons, fetch_cached_unfold in H.
  rewrite fmap_cons; cbn [snd].
  destruct (py_index _ idx) as [shard|] eqn:Hidx.
  2:{ injection H as <- <-. exists []. split_and!; try done.
      - apply evolves_refl.
      - apply prefix_nil.
      - by intros e [= <-]. }
  rewrite (requested_files_cons_Some _ _ _ _ Hidx).
  destruct (LRU.contains _ _) eqn:Hc.
  - apply contains_true in Hc.
    destruct (LazyAnnData.adata _ shard w) as [r1 w1] eqn:Ha.
    apply adata_cases in Ha as [(_ & Hok & Hev & Hkeys)|[(? & _)|(? & _)]];
      [|done|done].
    destruct r1 as [a|]; [|done].
    apply IH in H as (hits & Hev' & Hkeys' & Hpre & Hfull & Herr).
    assert (filter (λ f, f ∈ LRU.keys (cache w1))
              (requested_files (DistributedAnnDataCollection.adatas self) slots.*2)
            = filter (λ f, f ∈ LRU.keys (cache w))
                (requested_files (DistributedAnnDataCollection.adatas self) slots.*2))
      as Hfilter by (apply filter_ext_in; intros x _; apply Hkeys).
    rewrite Hfilter in *.
    exists (LazyAnnData.filename shard :: hits).
    rewrite filter_cons_True by done. split_and!.
    + rewrite fmap_cons.
      by apply (evolves_trans [CacheHit (LazyAnnData.filename shard)] _ w w1 w').
    + intros k. by rewrite Hkeys', Hkeys.
    + by apply prefix_cons.
    + intros Hr. by rewrite Hfull.
    + done.
  - apply contains_false in Hc. rewrite filter_cons_False by done.
    by apply IH in H.
Qed.

(** The second pass only loads: every event is a file read or an
    insertion, the files are read in the order of the request, and when
    the pass completes every requested file that was not resident has
    been read. *)
Lemma second_pass_inv self (slots : list (nat * Z)) :
  ∀ (ads : list (option AnnData.t)) w r w',
    for_each slots (DistributedAnnDataCollection.fetch_new read_h5ad_file self)
      ads w = (r, w') →
    ∃ t,
      evolves t w w'
      ∧ Forall is_load t
      ∧ file_reads t `sublist_of`
          requested_files (DistributedAnnDataCollection.adatas self) slots.*2
      ∧ (∀ k, k ∈ touches t →
           k ∈ requested_files (DistributedAnnDataCollection.adatas self) slots.*2)
      ∧ (is_Ok r →
         ∀ f, f ∈ requested_files (DistributedAnnDataCollection.adatas self)
                    slots.*2 →
              f ∉ LRU.keys (cache w) → f ∈ file_reads t)
      ∧ (∀ e, r = Raise e → e = IndexError ∨ load_error e).
Proof.
  induction slots as [|[i idx] slots IH]; intros ads w r w' H.
  { injection H as <- <-. exists []. split_and!; try done.
    apply evolves_refl. }
  rewrite for_each_cons, fetch_new_unfold in H.
  rewrite fmap_cons; cbn [snd].
  destruct (py_index _ idx) as [shard|] eqn:Hidx.
  2:{ injection H as <- <-. exists [].
      split; [apply evolves_refl|]. split; [done|].
      split; [apply sublist_nil_l|].
      split; [intros k Hk; by apply elem_of_nil in Hk|].
      split; [done|]. intros e [= <-]. by left. }
  rewrite (requested_files_cons_Some _ _ _ _ Hidx).
  set (f := LazyAnnData.filename shard) in *.
  destruct (LRU.contains f (cache w)) eqn:Hc.
  - apply contains_true in Hc.
    apply IH in H as (t & Hev & Hload & Hsub & Htouch & Hcover & Herr).
    exists t. split_and!; try done.
    + by apply sublist_cons.
    + intros k Hk. right. by apply Htouch.
    + intros Hr g [->|Hg]%elem_of_cons Hmiss; [done|]. by apply Hcover.
  - apply contains_false in Hc.
    destruct (LazyAnnData.adata _ shard w) as [r1 w1] eqn:Ha.
    apply adata_cases in Ha as [(? & _)|[(_ & Hok & Hev)|(_ & (e & -> & He) & ->)]];
      [done| |].
    + destruct r1 as [a|]; [|done].
      apply IH in H as (t & Hev' & Hload & Hsub & Htouch & Hcover & Herr).
      exists ([FileRead f; CacheInsert f] ++ t). split_and!.
      * by apply (evolves_trans _ _ w w1 w').
      * apply Forall_app. split; [|done]. by repeat constructor.
      * rewrite file_reads_app. by apply sublist_skip.
      * intros k. rewrite touches_app, elem_of_app.
        intros [Hk%list_elem_of_singleton|Hk]; [subst k; left|right; by apply Htouch].
      * intros Hr g Hg Hmiss. rewrite file_reads_app.
        apply elem_of_cons in Hg as [->|Hg]; [by left|].
        destruct (decide (g = f)) as [->|Hne]; [by left|]. right.
        apply Hcover; [done|done|]. intros Hin.
        destruct Hev as (_ & _ & _ & _ & _ & Hgrow).
        destruct (Hgrow g Hin) as [?|Hg']; [done|].
        by apply list_elem_of_singleton in Hg'.
      * done.
    + injection H as <- <-. exists [FileRead f].
      split; [apply evolves_read|]. split; [by repeat constructor|].
      split; [apply sublist_skip, sublist_nil_l|].
      split; [intros k Hk; by apply elem_of_nil in Hk|].
      split; [done|]. intros e' [= <-]. by right.
Qed.

(** While the requested files fit the cache, the second pass evicts none
    of the files the call has touched, and reads none of them again. *)
Lemma second_pass_fits self (slots : list (nat * Z)) (h F : list string) :
  ∀ (ads : list (option AnnData.t)) w r w' (T : list string),
    for_each slots (DistributedAnnDataCollection.fetch_new read_h5ad_file self)
      ads w = (r, w') →
    tracks (h ++ T) (cache w) →
    (∀ x, x ∈ T → x ∈ F) →
    (∀ x, x ∈ requested_files (DistributedAnnDataCollection.adatas self)
                slots.*2 → x ∈ F) →
    fits (LRU.max_size (cache w)) (length F) →
    ∃ t,
      trace w' = trace w ++ t
      ∧ (∀ f, f ∈ T → f ∈ LRU.keys (cache w') ∧ f ∉ file_reads t)
      ∧ (is_Ok r →
         NoDup (requested_files (DistributedAnnDataCollection.adatas self)
                  slots.*2) →
         (∀ f, f ∈ requested_files (DistributedAnnDataCollection.adatas self)
                     slots.*2 →
               f ∈ LRU.keys (cache w) → f ∈ T) →
         file_reads t
         = filter (λ f, f ∉ LRU.keys (cache w))
             (requested_files (DistributedAnnDataCollection.adatas self)
                slots.*2)).
Proof.
  induction slots as [|[i idx] slots IH]; intros ads w r w' T H Htr HT HF Hfits.
  { injection H as <- <-. exists []. rewrite app_nil_r. split_and!; try done.
    intros g Hg. split; [by eapply tracked_resident | apply not_elem_of_nil]. }
  rewrite for_each_cons, fetch_new_unfold in H.
  rewrite fmap_cons in *; cbn [snd] in *.
  destruct (py_index _ idx) as [shard|] eqn:Hidx.
  2:{ injection H as <- <-. exists []. rewrite app_nil_r. split_and!; try done.
      intros g Hg. split; [by eapply tracked_resident | apply not_elem_of_nil]. }
  rewrite (requested_files_cons_Some _ _ _ _ Hidx) in *.
  set (f := LazyAnnData.filename shard) in *.
  destruct (LRU.contains f (cache w)) eqn:Hc.
  - apply contains_true in Hc.
    eapply IH in H as (t & Ht & Hkeep & Hexact); [|done|done| |done].
    2:{ intros x Hx. apply HF. by right. }
    exists t. split_and!; [done|done|].
    intros Hr [Hf Hnd]%NoDup_cons Hres.
    rewrite filter_cons_False by (intros Hn; by apply Hn).
    apply Hexact; [done|done|]. intros g Hg. apply Hres. by right.
  - apply contains_false in Hc.
    destruct (LazyAnnData.adata _ shard w) as [r1 w1] eqn:Ha.
    apply adata_cases in Ha as [(? & _)|[(_ & Hok & Hev)|(_ & (e & -> & He) & ->)]];
      [done| |].
    + destruct r1 as [a|]; [|done].
      destruct Hev as (Ht1 & _ & Hmax & _ & Htr1 & Hgrow).
      specialize (Htr1 _ Htr). simpl in Htr1. rewrite <- (assoc_L (++)) in Htr1.
      assert (∀ x, x ∈ T ++ [f] → x ∈ F) as HT1.
      { intros x [?|Hx%list_elem_of_singleton]%elem_of_app; [by apply HT|].
        subst x. apply HF. by left. }
      assert (fits (LRU.max_size (cache w1)) (length F)) as Hfits1
        by by rewrite Hmax.
      eapply IH in H as (t & Ht & Hkeep & Hexact); [|exact Htr1|done| |done].
      2:{ intros x Hx. apply HF. by right. }
      exists ([FileRead f; CacheInsert f] ++ t). split_and!.
      * by rewrite Ht, Ht1, (assoc_L (++)).
      * intros g Hg. destruct (Hkeep g) as [Hin Hnot].
        { apply elem_of_app. by left. }
        split; [done|]. rewrite file_reads_app. simpl.
        apply not_elem_of_cons. split; [|done]. intros ->.
        apply Hc. by eapply tracked_resident.
      * intros Hr [Hf Hnd]%NoDup_cons Hres.
        rewrite file_reads_app, filter_cons_True by done. simpl. f_equal.
        rewrite Hexact; [|done|done|].
        -- apply filter_ext_in. intros g Hg. split; intros Hn Hin; apply Hn.
           ++ eapply tracked_resident; [exact Htr1|done|done|].
              apply elem_of_app. left. apply Hres; [by right|done].
           ++ destruct (Hgrow g Hin) as [?|Hg']; [done|].
              apply list_elem_of_singleton in Hg' as ->. done.
        -- intros g Hg Hin. apply elem_of_app.
           destruct (Hgrow g Hin) as [?|Hg']; [|by right].
           left. apply Hres; [by right|done].
    + injection H as <- <-. exists [FileRead f]. split_and!; try done.
      intros g Hg. assert (g ∈ LRU.keys (cache w)) as Hin
        by by eapply tracked_resident.
      split; [done|]. simpl.
      intros Hgf%list_elem_of_singleton. by subst g.
Qed.
End passes.

Section materialize_facts.
Context (read_h5ad_file : string → option AnnData.t).
Implicit Types (self : DistributedAnnDataCollection.t) (w : World).

Lemma passes_inv self (idxs : list Z) w
    (r : outcome (list (option AnnData.t))) w' :
  (adatas ← for_each (enumerate idxs)
              (DistributedAnnDataCollection.fetch_cached read_h5ad_file self)
              (replicate (length idxs) None);
   adatas ← for_each (enumerate idxs)
              (DistributedAnnDataCollection.fetch_new read_h5ad_file self)
              adatas;
   mret adatas) w = (r, w') →
  ∃ r1 w1,
    for_each (enumerate idxs)
      (DistributedAnnDataCollection.fetch_cached read_h5ad_file self)
      (replicate (length idxs) None) w = (r1, w1)
    ∧ match r1 with
      | Raise e => r = Raise e ∧ w' = w1
      | Ok ads1 =>
          for_each (enumerate idxs)
            (DistributedAnnDataCollection.fetch_new read_h5ad_file self)
            ads1 w1 = (r, w')
      end.
Proof.
  intros H. rewrite bind_unfold in H.
  destruct (for_each _ _ _ w) as [[ads1|e] w1].
  - rewrite bind_unfold in H. exists (Ok ads1), w1. split; [done|].
    destruct (for_each _ _ ads1 w1) as [[ads2|e] w2]; by injection H as <- <-.
  - injection H as <- <-. by exists (Raise e), w1.
Qed.

(** Every way a call to [materialize] can go: the guard rejects it, or
    the first pass runs and, unless it stops, the second. *)
Lemma materialize_inv self (indices : DistributedAnnDataCollection.indices_arg)
    w (r : outcome (list (option AnnData.t))) w' :
  DistributedAnnDataCollection.materialize read_h5ad_file self indices w
  = (r, w') →
  (DistributedAnnDataCollection.cache_size_strictly_enforced self = true
   ∧ w' = w
   ∧ ((DistributedAnnDataCollection.max_cache_size self = None
       ∧ r = Raise TypeError)
      ∨ ∃ m, DistributedAnnDataCollection.max_cache_size self = Some m
             ∧ m < length (indices_list indices)
             ∧ r = Raise (AssertionError_cache_size
                            (length (indices_list indices)) m)))
  ∨ ((DistributedAnnDataCollection.cache_size_strictly_enforced self = true →
      ∃ m, DistributedAnnDataCollection.max_cache_size self = Some m
           ∧ length (indices_list indices) ≤ m)
     ∧ ∃ r1 w1,
         for_each (enumerate (indices_list indices))
           (DistributedAnnDataCollection.fetch_cached read_h5ad_file self)
           (replicate (length (indices_list indices)) None) w = (r1, w1)
         ∧ match r1 with
           | Raise e => r = Raise e ∧ w' = w1
           | Ok ads1 =>
               for_each (enumerate (indices_list indices))
                 (DistributedAnnDataCollection.fetch_new read_h5ad_file self)
                 ads1 w1 = (r, w')
           end).
Proof.
  unfold DistributedAnnDataCollection.materialize.
  fold (indices_list indices). set (idxs := indices_list indices).
  intros H. rewrite bind_unfold in H.
  assert (∀ w0 : World, (mret () : M ()) w0 = (Ok (), w0)) as Hret by done.
  destruct (DistributedAnnDataCollection.cache_size_strictly_enforced self) eqn:Hs.
  - destruct (DistributedAnnDataCollection.max_cache_size self) as [m|] eqn:Hm.
    + unfold assert in H. destruct (decide (length idxs ≤ m)) as [Hle|Hgt].
      * rewrite Hret in H. right. split; [by exists m|].
        by apply passes_inv.
      * injection H as <- <-. left. split_and!; [done|done|].
        right. exists m. split_and!; [done|lia|done].
    + injection H as <- <-. left. split_and!; [done|done|]. by left.
  - rewrite Hret in H. right. split; [done|].
    by apply passes_inv.
Qed.
End materialize_facts.

Section pair.
Context (read_h5ad_file : string → option AnnData.t).

Lemma for_each_nil {A S : Type} (body : A → S → M S) (s : S) (w : World) :
  for_each [] body s w = (Ok s, w).
Proof. reflexivity. Qed.

(** The scenario of the specification, from the state construction
    leaves: the cache holds the first shard only. *)
Lemma materialize_first_two (self : DistributedAnnDataCollection.t) (w : World)
    (shard0 shard1 : LazyAnnData.t) (adata0 adata1 : AnnData.t) :
  DistributedAnnDataCollection.cache_size_strictly_enforced self = true →
  DistributedAnnDataCollection.max_cache_size self = Some 2 →
  DistributedAnnDataCollection.adatas self !! 0 = Some shard0 →
  DistributedAnnDataCollection.adatas self !! 1 = Some shard1 →
  cache w = LRU.mk (Some 2) [(LazyAnnData.filename shard0, adata0)] →
  LazyAnnData.filename shard1 ≠ LazyAnnData.filename shard0 →
  read_h5ad_file (LazyAnnData.filename shard1) = Some adata1 →
  LazyAnnData.n_obs shard1 = AnnData.n_obs adata1 →
  AnnDataSchema.validate_anndata (LazyAnnData.schema shard1) adata1 = Ok () →
  DistributedAnnDataCollection.materialize read_h5ad_file self
    (DistributedAnnDataCollection.Seq [0; 1]%Z) w
  = (Ok [Some adata0; Some adata1],
     mkWorld (lazy w)
       (LRU.mk (Some 2) [(LazyAnnData.filename shard0, adata0);
                         (LazyAnnData.filename shard1, adata1)])
       (trace w ++ [CacheHit (LazyAnnData.filename shard0);
                    FileRead (LazyAnnData.filename shard1);
                    CacheInsert (LazyAnnData.filename shard1)])).
Proof.
  intros Hstrict Hmax Hs0 Hs1 Hcache Hne Hread Hrows Hvalid.
  set (f0 := LazyAnnData.filename shard0) in *.
  set (f1 := LazyAnnData.filename shard1) in *.
  destruct w as [lz c tr]; simpl in Hcache; subst c.
  set (c0 := LRU.mk (Some 2) [(f0, adata0)]).
  assert (py_index (DistributedAnnDataCollection.adatas self) 0 = Some shard0)
    as Hi0 by done.
  assert (py_index (DistributedAnnDataCollection.adatas self) 1 = Some shard1)
    as Hi1 by done.
  assert (LRU.without f0 [(f0, adata0)] = []) as Hwo0.
  { unfold LRU.without. by rewrite filter_cons_False by (intros Hn; by apply Hn). }
  assert (LRU.getitem f0 c0 = Some (adata0, c0)) as Hget0.
  { unfold LRU.getitem, c0; simpl. rewrite decide_True by done.
    by rewrite Hwo0. }
  assert (LRU.contains f0 c0 = true) as Hc0.
  { apply contains_true. unfold c0, LRU.keys; simpl. left. }
  assert (LRU.contains f1 c0 = false) as Hc1.
  { apply contains_false. unfold c0, LRU.keys; simpl.
    by intros ?%list_elem_of_singleton. }
  assert (LRU.getitem f1 c0 = None) as Hget1 by by apply getitem_None.
  assert (LRU.setitem f1 adata1 c0 = LRU.mk (Some 2) [(f0, adata0); (f1, adata1)])
    as Hset.
  { unfold LRU.setitem, c0, LRU.without; simpl.
    rewrite filter_cons_True by (simpl; congruence). done. }
  assert (enumerate [0; 1]%Z = [(0, 0%Z); (1, 1%Z)]) as Henum by done.
  unfold DistributedAnnDataCollection.materialize.
  rewrite Hstrict, Hmax. cbn [indices_list length replicate].
  rewrite Henum, bind_unfold. unfold assert. rewrite decide_True by lia.
  unfold mret at 1, M_ret at 1. cbv beta iota.
  rewrite bind_unfold, for_each_cons.
  rewrite fetch_cached_unfold, Hi0. fold f0. cbn [cache].
  rewrite Hc0, (adata_hit read_h5ad_file shard0 _ adata0 c0) by done.
  cbv beta iota. rewrite for_each_cons.
  rewrite fetch_cached_unfold, Hi1. fold f0 f1. cbn [cache log set_cache].
  rewrite Hc1, for_each_nil. cbv beta iota.
  rewrite bind_unfold, for_each_cons.
  rewrite fetch_new_unfold, Hi0. fold f0. cbn [cache log set_cache].
  rewrite Hc0. cbv beta iota. rewrite for_each_cons.
  rewrite fetch_new_unfold, Hi1. fold f1. cbn [cache log set_cache].
  rewrite Hc1, (adata_miss read_h5ad_file shard1) by done.
  unfold load. fold f1. rewrite Hread, decide_True, Hvalid by done.
  cbn [cache log set_cache]. rewrite Hset, for_each_nil.
  unfold mret, M_ret, log, set_cache. cbn.
  by rewrite <- !(assoc_L (++)).
Qed.
End pair.
Section init_unfold.
Context (read_h5ad_file : string → option AnnData.t).
Context (braceexpand : string → list string).

Lemma limits_stage_eq (args : DistributedAnnDataCollection.init_args) (n : nat)
    (w : World) :
  match DistributedAnnDataCollection.arg_shard_size args with
  | Some shard_size =>
      match DistributedAnnDataCollection.arg_last_shard_size args with
      | Some last_shard_size =>
          DistributedAnnDataCollection.set_last_limit shard_size
            last_shard_size
            (DistributedAnnDataCollection.uniform_limits shard_size n)
      | None => mret (DistributedAnnDataCollection.uniform_limits shard_size n)
      end
  | None =>
      match DistributedAnnDataCollection.arg_limits args with
      | Some limits => mret limits
      | None => raise TypeError
      end
  end w = (computed_limits args n, w).
Proof.
  unfold computed_limits, DistributedAnnDataCollection.set_last_limit.
  destruct (DistributedAnnDataCollection.arg_shard_size args) as [s|].
  - destruct (DistributedAnnDataCollection.arg_last_shard_size args) as [l|];
      [|done].
    by destruct (py_index _ _).
  - by destruct (DistributedAnnDataCollection.arg_limits args).
Qed.

Lemma init_unfold (args : DistributedAnnDataCollection.init_args) (w0 : World) :
  DistributedAnnDataCollection.__init__ read_h5ad_file braceexpand args w0
  = init_steps read_h5ad_file braceexpand args w0.
Proof.
  unfold DistributedAnnDataCollection.__init__, init_steps.
  fold (expanded_filenames braceexpand args).
  set (fns := expanded_filenames braceexpand args).
  rewrite bind_unfold.
  destruct (fns !! 0) as [f0|]; [|done].
  unfold mret at 1, M_ret at 1. cbv beta iota.
  rewrite bind_unfold.
  destruct (bool_decide _); [done|].
  destruct (_ && _); [done|].
  unfold mret at 1, M_ret at 1. cbv beta iota.
  rewrite bind_unfold, limits_stage_eq.
  destruct (computed_limits args (length fns)) as [L|e]; [|done].
  rewrite bind_unfold. unfold assert at 1.
  destruct (decide (length L = length fns)) as [HL|HL]; [|done].
  unfold mret at 1, M_ret at 1. cbv beta iota.
  rewrite bind_unfold. cbv beta iota.
  rewrite bind_unfold. unfold LazyAnnData.read at 1.
  destruct (read_h5ad_file f0) as [adata0|]; [|done].
  rewrite bind_unfold. unfold cache_setitem at 1.
  rewrite bind_unfold. unfold lift at 1.
  destruct (AnnDataSchema.infer adata0) as [schema|e1]; [|done].
  rewrite bind_unfold. unfold assert at 1.
  destruct (decide _) as [HK|HK]; [|done].
  unfold mret at 1, M_ret at 1. cbv beta iota.
  rewrite bind_unfold. unfold lazy_getattr, finally.
  unfold log, set_cache; cbn [lazy cache trace].
  destruct (DistributedAnnDataCollection.AnnCollection_init _ _ _)
    as [[limits|e2] w3]; done.
Qed.
End init_unfold.

(** ** Materializing a shard *)

Section shard_theorems.
Context (read_h5ad_file : string → option AnnData.t).

(** C3.  On a cache miss the content of a shard is read from its
    backing file.  When the row count read differs from the shard's
    [end - start] the access fails with the shard-size error; when the
    row counts agree and the content does not conform to the schema it
    fails with the schema-mismatch error; in both cases the cache is
    left as it was.  Content that passes both checks is returned and
    inserted. *)
Theorem adata_miss_checks_before_caching
    (self : LazyAnnData.t) (w : World) (loaded : AnnData.t)
    (r : outcome AnnData.t) (w' : World) :
  LRU.contains (LazyAnnData.filename self) (cache w) = false →
  read_h5ad_file (LazyAnnData.filename self) = Some loaded →
  LazyAnnData.adata read_h5ad_file self w = (r, w') →
  trace w' = trace w ++ [FileRead (LazyAnnData.filename self)]
             ++ match r with
                | Ok _ => [CacheInsert (LazyAnnData.filename self)]
                | Raise _ => []
                end
  ∧ (AnnData.n_obs loaded ≠ LazyAnnData.n_obs self →
     (∃ e, r = Raise e ∧ ShardSizeMismatchError e) ∧ cache w' = cache w)
  ∧ (AnnData.n_obs loaded = LazyAnnData.n_obs self →
     ¬ conforms (LazyAnnData.schema self) loaded →
     (∃ e, r = Raise e ∧ is_SchemaMismatchError e) ∧ cache w' = cache w)
  ∧ (AnnData.n_obs loaded = LazyAnnData.n_obs self →
     conforms (LazyAnnData.schema self) loaded →
     r = Ok loaded
     ∧ cache w' = LRU.setitem (LazyAnnData.filename self) loaded (cache w)).
Proof.
  intros Hmiss%getitem_None Hread Hrun.
  rewrite (adata_miss _ _ _ Hmiss) in Hrun. unfold load in Hrun.
  rewrite Hread in Hrun.
  destruct (decide (LazyAnnData.n_obs self = AnnData.n_obs loaded)) as [Hn|Hn].
  - destruct (AnnDataSchema.validate_anndata _ _) as [[]|e] eqn:Ev;
      injection Hrun as <- <-; simpl.
    + apply validate_anndata_Ok in Ev.
      split_and!; [by rewrite <- (assoc_L (++))|done|done|done].
    + split_and!; [done|done| |].
      * intros _ _. split; [|done]. exists e. split; [done|].
        by eapply validate_groups_raises.
      * intros _ Hc%validate_anndata_Ok. congruence.
  - injection Hrun as <- <-; simpl.
    split_and!; [done| |done|done].
    intros _. split; [|done]. eexists. split; [done|]. by eexists _, _.
Qed.

(** C7.  Asking whether a shard is materialized is a presence check on
    its file name: it answers whether the name is a key of the cache and
    leaves the world, and with it the recency order of the cache, as it
    was. *)
Theorem cached_leaves_recency_order (self : LazyAnnData.t) (w : World) :
  LazyAnnData.cached self w
  = (Ok (bool_decide (LazyAnnData.filename self ∈ LRU.keys (cache w))), w)
  ∧ LRU.entries (cache (LazyAnnData.cached self w).2) = LRU.entries (cache w).
Proof. done. Qed.
End shard_theorems.

Lemma adata_miss_checks_before_caching_witness :
  (∃ e, (LazyAnnData.adata Demo.files (Demo.shard 4) Demo.world).1 = Raise e
        ∧ ShardSizeMismatchError e)
  ∧ (∃ e, (LazyAnnData.adata Demo.files (Demo.shard 3) Demo.world).1 = Raise e
          ∧ is_SchemaMismatchError e)
  ∧ (LazyAnnData.adata Demo.files (Demo.shard 1) Demo.world).1
    = Ok (Demo.table 10 "cell_type" 1).
Proof.
  split_and!.
  - refine (proj1 (proj1 (proj2 (adata_miss_checks_before_caching Demo.files
      (Demo.shard 4) Demo.world (Demo.table 7 "cell_type" 4) _ _
      eq_refl eq_refl (surjective_pairing _))) _)).
    vm_compute. discriminate.
  - refine (proj1 (proj1 (proj2 (proj2 (adata_miss_checks_before_caching Demo.files
      (Demo.shard 3) Demo.world (Demo.table 10 "celltype" 3) _ _
      eq_refl eq_refl (surjective_pairing _)))) eq_refl _)).
    intros Hc. apply validate_anndata_Ok in Hc. vm_compute in Hc. discriminate.
  - refine (proj1 (proj2 (proj2 (proj2 (adata_miss_checks_before_caching Demo.files
      (Demo.shard 1) Demo.world (Demo.table 10 "cell_type" 1) _ _
      eq_refl eq_refl (surjective_pairing _)))) eq_refl _)).
    apply validate_anndata_Ok. vm_compute. reflexivity.
Defined.


(** ** Construction *)

Section construction_theorems.
Context (read_h5ad_file : string → option AnnData.t).
Context (braceexpand : string → list string).

(** C9, amended.  For a non-empty list of file names, construction fails
    with a configuration error exactly when [limits] and [shard_size] are
    both given or both missing, or when [last_shard_size] is given without
    [shard_size]. *)
Theorem init_configuration_error
    (args : DistributedAnnDataCollection.init_args) (w0 : World) :
  expanded_filenames braceexpand args ≠ [] →
  (∃ e, (DistributedAnnDataCollection.__init__ read_h5ad_file braceexpand
           args w0).1 = Raise e
        ∧ ConfigurationError e)
  ↔ ¬ exactly_one_given args ∨ last_without_shard_size args.
Proof.
  intros Hne.
  destruct (DistributedAnnDataCollection.__init__ _ _ args w0) as [r w1] eqn:H.
  apply init_inv in H. simpl.
  destruct H as [(? & _)|[(_ & Hx & -> & _)|[(_ & Hx & Hl & -> & _)
                |(_ & Hx & Hl & [(e & t & -> & He & _)|(c & -> & _)])]]].
  - done.
  - split; [tauto|]. intros _. eexists. split; [done|]. by left.
  - split; [tauto|]. intros _. eexists. split; [done|]. by right.
  - split; [|tauto]. intros (e' & [= <-] & He'). done.
  - split; [|tauto]. by intros (e' & [=] & _).
Qed.

End construction_theorems.

Lemma init_last_shard_size_without_shard_size :
  exactly_one_given Demo2.args_last_shard_size
  ∧ ∃ e, (DistributedAnnDataCollection.__init__ Demo.files Demo.braceexpand
            Demo2.args_last_shard_size Demo.fresh).1 = Raise e
         ∧ ConfigurationError e.
Proof.
  split; [by intros [=]|].
  exists ValueError_last_shard_size. split; [reflexivity | by right].
Qed.

Lemma init_configuration_error_witness :
  (∃ e, (DistributedAnnDataCollection.__init__ Demo.files Demo.braceexpand
           Demo2.args_last_shard_size Demo.fresh).1 = Raise e
        ∧ ConfigurationError e)
  ↔ ¬ exactly_one_given Demo2.args_last_shard_size
    ∨ last_without_shard_size Demo2.args_last_shard_size.
Proof.
  apply (init_configuration_error Demo.files Demo.braceexpand
           Demo2.args_last_shard_size Demo.fresh).
  simpl. discriminate.
Defined.

Section first_file_theorems.
Context (read_h5ad_file : string → option AnnData.t).
Context (braceexpand : string → list string).

(** C5.  Construction reads at most one backing file, the first, and
    never fails with the schema-mismatch error.  When it succeeds it has
    read exactly the first file, the schema is the one inferred from that
    file, and the content of that file has been inserted into a new
    cache, so that no other shard is resident (and the first one is,
    unless the capacity is zero).  A shard whose content has the declared
    row count and does not conform to the schema fails with the
    schema-mismatch error whenever it is materialized, that is whenever
    its content is accessed while it is not resident; a conforming one
    does not. *)
Theorem init_reads_first_file_only
    (args : DistributedAnnDataCollection.init_args) (w0 : World)
    (r : outcome DistributedAnnDataCollection.t) (w1 : World) :
  DistributedAnnDataCollection.__init__ read_h5ad_file braceexpand args w0
  = (r, w1) →
  (∀ e, r = Raise e → ¬ is_SchemaMismatchError e)
  ∧ (∃ t, trace w1 = trace w0 ++ t
          ∧ (file_reads t = []
             ∨ ∃ f0, expanded_filenames braceexpand args !! 0 = Some f0
                     ∧ file_reads t = [f0]))
  ∧ ∀ self, r = Ok self →
      ∃ f0 adata0,
        expanded_filenames braceexpand args !! 0 = Some f0
        ∧ read_h5ad_file f0 = Some adata0
        ∧ AnnDataSchema.infer adata0
          = Ok (DistributedAnnDataCollection.schema self)
        ∧ trace w1 = trace w0 ++ [FileRead f0; CacheInsert f0]
        ∧ cache w1
          = LRU.setitem f0 adata0
              (LRU.new (DistributedAnnDataCollection.arg_max_cache_size args))
        ∧ (∀ k, k ∈ LRU.keys (cache w1) → k = f0)
        ∧ (DistributedAnnDataCollection.arg_max_cache_size args ≠ Some 0 →
           LRU.keys (cache w1) = [f0])
        ∧ ∀ shard loaded w,
            shard ∈ DistributedAnnDataCollection.adatas self →
            LazyAnnData.filename shard ∉ LRU.keys (cache w) →
            read_h5ad_file (LazyAnnData.filename shard) = Some loaded →
            AnnData.n_obs loaded = LazyAnnData.n_obs shard →
            (¬ conforms (DistributedAnnDataCollection.schema self) loaded
             ↔ ∃ e, (LazyAnnData.adata read_h5ad_file shard w).1 = Raise e
                    ∧ is_SchemaMismatchError e).
Proof.
  intros H. apply init_inv in H.
  destruct H as [(_ & -> & ->)|[(_ & _ & -> & ->)|[(_ & _ & _ & -> & ->)
                |(_ & _ & _ & [(e & t & -> & _ & He & Ht & f0 & Hf0 & Hreads)
                              |(c & -> & Hc)])]]].
  1-3: split_and!; [by intros e [= <-] (?&?&?&?)
                   | exists []; rewrite app_nil_r; split; [done | by left]
                   | done].
  - split_and!; [by intros e' [= <-] | | done].
    exists t. split; [done|]. destruct Hreads as [?| ?]; [by left|].
    right. by exists f0.
  - destruct Hc as (f0 & adata0 & L & Hf0 & Hread & Hinfer & Hlen & Hself & ->).
    split_and!; [done| |].
    { eexists. split; [done|]. right. by exists f0. }
    intros self [= <-]. exists f0, adata0. simpl.
    split_and!; try done.
    + intros k. rewrite keys_setitem. intros Hk%elem_of_trim%elem_of_touch.
      destruct Hk as [?|Hk]; [done|]. by apply elem_of_nil in Hk.
    + intros Hcap. rewrite keys_setitem; simpl.
      destruct (DistributedAnnDataCollection.arg_max_cache_size args) as [[|n]|];
        [done| |done].
      unfold trim, touch. cbn [filter list_filter app length].
      destruct (decide _) as [Hlt|_]; [simpl in Hlt; lia | done].
    + intros shard loaded w Hshard Hmiss Hloaded Hrows.
      rewrite Hself in Hshard; simpl in Hshard.
      apply lazy_adatas_elem_of in Hshard as [Hschema _].
      apply contains_false, getitem_None in Hmiss.
      rewrite (adata_miss _ _ _ Hmiss). unfold load.
      rewrite Hloaded, Hschema.
      destruct (decide _) as [_|Hn]; [|by rewrite Hrows in Hn].
      destruct (AnnDataSchema.validate_anndata _ loaded) as [[]|e] eqn:Ev; simpl.
      * apply validate_anndata_Ok in Ev. split; [done|]. by intros (e & [=] & _).
      * split.
        -- intros _. exists e. split; [done|]. by eapply validate_groups_raises.
        -- intros _ Hc%validate_anndata_Ok. congruence.
Qed.
End first_file_theorems.

Lemma init_reads_first_file_only_witness :
  trace Demo.world = [FileRead "s0"; CacheInsert "s0"]
  ∧ LRU.keys (cache Demo.world) = ["s0"%string]
  ∧ ∃ e, (LazyAnnData.adata Demo.files (Demo.shard 3) Demo.world).1 = Raise e
         ∧ is_SchemaMismatchError e.
Proof.
  destruct (init_reads_first_file_only Demo.files Demo.braceexpand Demo.args
              Demo.fresh (Ok Demo.collection) Demo.world)
    as (_ & _ & H).
  { vm_compute. reflexivity. }
  destruct (H _ eq_refl) as (f0 & adata0 & Hf0 & _ & _ & Ht & _ & _ & Hk & Hs).
  injection Hf0 as <-. split_and!.
  - exact Ht.
  - apply Hk. discriminate.
  - apply (Hs (Demo.shard 3) (Demo.table 10 "celltype" 3) Demo.world).
    + vm_compute. do 3 right. left.
    + vm_compute. intros Hin%list_elem_of_singleton. discriminate.
    + reflexivity.
    + reflexivity.
    + intros Hc%validate_anndata_Ok. vm_compute in Hc. discriminate.
Defined.

(** ** Saving and restoring *)

(** The shard list built from boundaries, file names and a schema,
    position by position: the shard at [i] pairs the [i]-th file name
    with the range from the boundary before (0 for the first) to the
    [i]-th boundary. *)
Lemma lazy_adatas_spec (L : list Z) (fns : list string) (s : AnnDataSchema.t)
    (i : nat) (shard : LazyAnnData.t) :
  DistributedAnnDataCollection.lazy_adatas L fns s !! i = Some shard
  ↔ ∃ filename start stop,
      fns !! i = Some filename
      ∧ (0%Z :: L) !! i = Some start
      ∧ L !! i = Some stop
      ∧ shard = LazyAnnData.mk filename (start, stop) s.
Proof.
  unfold DistributedAnnDataCollection.lazy_adatas. split.
  - intros (range & f & -> & Hr & Hf)%lookup_zip_with_Some.
    apply lookup_zip_with_Some in Hr as (a & b & -> & Ha & Hb).
    by exists f, a, b.
  - intros (f & a & b & Hf & Ha & Hb & ->).
    apply lookup_zip_with_Some. exists (a, b), f. split_and!; [done| |done].
    apply lookup_zip_with_Some. by exists a, b.
Qed.

(** C8.  The saved state of a collection is its file names, boundaries,
    capacity, enforcement flag and schema: it is the same whatever the
    cache holds and whatever the shard objects are.  Restoring from it
    gives a collection with these five attributes, a shard list built
    anew from them -- one shard per pair of file name and boundary, in
    order, each from the boundary before (0 for the first) to its own,
    with the saved schema -- and a new, empty cache of the same capacity.
    For a collection the constructor has built, the restored collection
    is the original one. *)
Theorem setstate_getstate
    (self : DistributedAnnDataCollection.t) (w w' : World) :
  ∃ saved restored,
    DistributedAnnDataCollection.__getstate__ self w = (Ok saved, w)
    ∧ (∀ cache2 adatas2,
         (DistributedAnnDataCollection.__getstate__
            (DistributedAnnDataCollection.mk
               (DistributedAnnDataCollection.filenames self)
               (DistributedAnnDataCollection.limits self)
               (DistributedAnnDataCollection.max_cache_size self)
               (DistributedAnnDataCollection.cache_size_strictly_enforced self)
               (DistributedAnnDataCollection.schema self)
               adatas2)
            (set_cache cache2 w)).1 = Ok saved)
    ∧ DistributedAnnDataCollection.__setstate__ saved w'
      = (Ok restored,
         set_cache
           (LRU.new (DistributedAnnDataCollection.max_cache_size self)) w')
    ∧ DistributedAnnDataCollection.filenames restored
      = DistributedAnnDataCollection.filenames self
    ∧ DistributedAnnDataCollection.limits restored
      = DistributedAnnDataCollection.limits self
    ∧ DistributedAnnDataCollection.schema restored
      = DistributedAnnDataCollection.schema self
    ∧ DistributedAnnDataCollection.max_cache_size restored
      = DistributedAnnDataCollection.max_cache_size self
    ∧ DistributedAnnDataCollection.cache_size_strictly_enforced restored
      = DistributedAnnDataCollection.cache_size_strictly_enforced self
    ∧ length (DistributedAnnDataCollection.adatas restored)
      = length (DistributedAnnDataCollection.limits self)
        `min` length (DistributedAnnDataCollection.filenames self)
    ∧ (∀ i shard,
         DistributedAnnDataCollection.adatas restored !! i = Some shard
         ↔ ∃ filename start stop,
             DistributedAnnDataCollection.filenames self !! i = Some filename
             ∧ (0%Z :: DistributedAnnDataCollection.limits self) !! i
               = Some start
             ∧ DistributedAnnDataCollection.limits self !! i = Some stop
             ∧ shard = LazyAnnData.mk filename (start, stop)
                         (DistributedAnnDataCollection.schema self))
    ∧ LRU.entries
        (cache (set_cache
                  (LRU.new (DistributedAnnDataCollection.max_cache_size self))
                  w')) = []
    ∧ (∀ read_h5ad_file braceexpand args w0 w1,
         DistributedAnnDataCollection.__init__ read_h5ad_file braceexpand
           args w0 = (Ok self, w1) →
         restored = self).
Proof.
  eexists _, _. split_and!; try reflexivity.
  - cbn [DistributedAnnDataCollection.adatas].
    unfold DistributedAnnDataCollection.lazy_adatas.
    rewrite length_zip_with, length_zip, length_cons.
    cbn [DistributedAnnDataCollection.state_limits
         DistributedAnnDataCollection.state_filenames
         DistributedAnnDataCollection.dict_state]. lia.
  - intros i shard. apply lazy_adatas_spec.
  - intros read_h5ad_file braceexpand args w0 w1 Hinit.
    apply init_inv in Hinit.
    destruct Hinit as [(_ & [=] & _)|[(_ & _ & [=] & _)|[(_ & _ & _ & [=] & _)
                      |(_ & _ & _ & [(e & t & [=] & _)|(c & [= <-] & Hc)])]]].
    destruct Hc as (f0 & adata0 & L & _ & _ & _ & Hlen & Hself & _).
    destruct self as [fns lim max strict sch ads]; simpl in *.
    injection Hself as Hfns Hlim _ _ Hads.
    assert (lim = L) as ->.
    { rewrite Hlim. unfold DistributedAnnDataCollection.lazy_adatas.
      apply running_totals_lazy_adatas. lia. }
    f_equal. by rewrite Hads, <- Hfns.
Qed.

Lemma setstate_getstate_witness :
  ∃ saved,
    DistributedAnnDataCollection.__getstate__ Demo.collection Demo.world
    = (Ok saved, Demo.world)
    ∧ (DistributedAnnDataCollection.__setstate__ saved Demo.world).1
      = Ok Demo.collection.
Proof.
  destruct (setstate_getstate Demo.collection Demo.world Demo.world)
    as (saved & restored & Hget & _ & Hset & _ & _ & _ & _ & _ & _ & _ & _
        & Hsame).
  exists saved. split; [exact Hget|]. rewrite Hset; simpl. f_equal.
  apply (Hsame Demo.files Demo.braceexpand Demo.args Demo.fresh Demo.world).
  vm_compute. reflexivity.
Defined.

(** ** Attribute access *)

(** C6 fails as stated.  After construction the second shard of the demo
    collection is not materialized; reading its [obs] nevertheless reads
    the backing file and returns the real value, not the placeholder the
    schema holds. *)
Lemma getattr_unmaterialized_reads_file :
  LRU.contains (LazyAnnData.filename (Demo.shard 1)) (cache Demo.world) = false
  ∧ ∃ placeholder real w',
      AnnDataSchema.attr_values (LazyAnnData.schema (Demo.shard 1)) !! "obs"%string
      = Some placeholder
      ∧ LazyAnnData.__getattr__ Demo.files (Demo.shard 1) "obs" Demo.world
        = (Ok real, w')
      ∧ real ≠ placeholder
      ∧ file_reads (trace w') = file_reads (trace Demo.world) ++ ["s1"%string].
Proof.
  split; [reflexivity|].
  exists (mkAttrValue [("cell_type", "category")]%string None),
         (Demo.group [("cell_type", "category")]%string 1).
  eexists. split_and!.
  - reflexivity.
  - vm_compute. reflexivity.
  - discriminate.
  - reflexivity.
Qed.

Section getattr_theorems.
Context (read_h5ad_file : string → option AnnData.t).

(** C6, amended.  What the access to a tracked attribute group of a shard
    returns follows the lazy-attribute mode, not the state of the shard.
    While the mode is on, as it is during construction, the access
    returns the value the schema holds for the group and changes nothing:
    no file is read and the cache is not touched, whether the shard is
    materialized or not.  While the mode is off, the access returns the
    real value: from the cached content, without a file read, when the
    shard is materialized, and from the content it reads from the backing
    file when the shard is not. *)
Theorem getattr_follows_lazy_mode
    (self : LazyAnnData.t) (attr : string) (w : World) :
  attr ∈ _lazy_attrs →
  (lazy w = true →
   LazyAnnData.__getattr__ read_h5ad_file self attr w
   = (match AnnDataSchema.attr_values (LazyAnnData.schema self) !! attr with
      | Some v => Ok v
      | None => Raise (KeyError attr)
      end, w))
  ∧ (lazy w = false →
     ∀ adata,
       LRU.lookup (LazyAnnData.filename self) (LRU.entries (cache w))
       = Some adata →
       ∃ w', LazyAnnData.__getattr__ read_h5ad_file self attr w
             = (match AnnData.getattr adata attr with
                | Some v => Ok v
                | None => Raise (AttributeError attr)
                end, w')
             ∧ file_reads (trace w') = file_reads (trace w))
  ∧ (lazy w = false →
     ∀ loaded,
       LRU.contains (LazyAnnData.filename self) (cache w) = false →
       read_h5ad_file (LazyAnnData.filename self) = Some loaded →
       LazyAnnData.n_obs self = AnnData.n_obs loaded →
       conforms (LazyAnnData.schema self) loaded →
       ∃ w', LazyAnnData.__getattr__ read_h5ad_file self attr w
             = (match AnnData.getattr loaded attr with
                | Some v => Ok v
                | None => Raise (AttributeError attr)
                end, w')
             ∧ file_reads (trace w')
               = file_reads (trace w) ++ [LazyAnnData.filename self]).
Proof.
  intros Hattr. unfold LazyAnnData.__getattr__. split_and!.
  - intros ->. rewrite decide_True by done.
    by destruct (AnnDataSchema.attr_values _ !! attr).
  - intros -> adata Hlook. rewrite bind_unfold.
    assert (LRU.getitem (LazyAnnData.filename self) (cache w)
            = Some (adata, LRU.mk (LRU.max_size (cache w))
                             (LRU.without (LazyAnnData.filename self)
                                (LRU.entries (cache w))
                              ++ [(LazyAnnData.filename self, adata)]))) as Hget.
    { unfold LRU.getitem. by rewrite Hlook. }
    rewrite (adata_hit _ _ _ _ _ Hget).
    eexists. split.
    + by destruct (AnnData.getattr adata attr).
    + destruct (AnnData.getattr adata attr); simpl;
        by rewrite file_reads_app, app_nil_r.
  - intros -> loaded Hmiss%getitem_None Hread Hrows Hconf.
    rewrite bind_unfold, (adata_miss _ _ _ Hmiss). unfold load.
    rewrite Hread, decide_True by done.
    apply validate_anndata_Ok in Hconf. rewrite Hconf.
    eexists. split.
    + by destruct (AnnData.getattr loaded attr).
    + destruct (AnnData.getattr loaded attr); simpl;
        by rewrite !file_reads_app, <- (assoc_L (++)), app_nil_r.
Qed.
End getattr_theorems.

Lemma getattr_follows_lazy_mode_witness :
  LazyAnnData.__getattr__ Demo.files (Demo.shard 1) "obs"
    (set_lazy true Demo.world)
  = (Ok (mkAttrValue [("cell_type", "category")]%string None),
     set_lazy true Demo.world)
  ∧ ∃ w', LazyAnnData.__getattr__ Demo.files (Demo.shard 0) "obs" Demo.world
          = (Ok (Demo.group [("cell_type", "category")]%string 0), w')
          ∧ file_reads (trace w') = file_reads (trace Demo.world).
Proof.
  assert ("obs"%string ∈ _lazy_attrs) as Hobs by left.
  split.
  - exact (proj1 (getattr_follows_lazy_mode Demo.files (Demo.shard 1) "obs"
                    (set_lazy true Demo.world) Hobs) eq_refl).
  - exact (proj1 (proj2 (getattr_follows_lazy_mode Demo.files (Demo.shard 0)
                           "obs" Demo.world Hobs)) eq_refl
             (Demo.table 10 "cell_type" 0) eq_refl).
Defined.

(** ** Materializing shards *)

Section materialize_theorems.
Context (read_h5ad_file : string → option AnnData.t).

(** C1.  A call to [materialize] first hits the cache for the requested
    shards that are resident when the call starts, in the order of the
    request, and only then loads: every event after the hits is a file
    read or an insertion, the files are read in the order of the request,
    and when the call succeeds every requested shard that was not
    resident has been read.  When the request names no more positions
    than the capacity of the cache, a requested shard that was resident
    is still resident when the call ends, however it ends, and its file
    has not been read again; when moreover the request names no file
    twice and the call succeeds, the files read are exactly the requested
    files that were not resident, in the order of the request.  With a
    capacity of two and a query for two shards this is the scenario of
    the specification. *)
Theorem materialize_resident_first
    (self : DistributedAnnDataCollection.t)
    (indices : DistributedAnnDataCollection.indices_arg)
    (w : World) (r : outcome (list (option AnnData.t))) (w' : World) :
  cache_wf (cache w) →
  DistributedAnnDataCollection.materialize read_h5ad_file self indices w
  = (r, w') →
  ∃ hits loads,
    trace w' = trace w ++ (CacheHit <$> hits) ++ loads
    ∧ Forall is_load loads
    ∧ hits `prefix_of`
        filter (λ f, f ∈ LRU.keys (cache w))
          (requested_files (DistributedAnnDataCollection.adatas self)
             (indices_list indices))
    ∧ file_reads loads `sublist_of`
        requested_files (DistributedAnnDataCollection.adatas self)
          (indices_list indices)
    ∧ (is_Ok r →
       hits = filter (λ f, f ∈ LRU.keys (cache w))
                (requested_files (DistributedAnnDataCollection.adatas self)
                   (indices_list indices))
       ∧ ∀ f, f ∈ requested_files (DistributedAnnDataCollection.adatas self)
                    (indices_list indices) →
              f ∉ LRU.keys (cache w) → f ∈ file_reads loads)
    ∧ (fits (LRU.max_size (cache w)) (length (indices_list indices)) →
       (∀ f, f ∈ requested_files (DistributedAnnDataCollection.adatas self)
                   (indices_list indices) →
             f ∈ LRU.keys (cache w) →
             f ∈ LRU.keys (cache w') ∧ f ∉ file_reads loads)
       ∧ (is_Ok r →
          NoDup (requested_files (DistributedAnnDataCollection.adatas self)
                   (indices_list indices)) →
          file_reads loads
          = filter (λ f, f ∉ LRU.keys (cache w))
              (requested_files (DistributedAnnDataCollection.adatas self)
                 (indices_list indices)))).
Proof.
  intros Hwf H.
  set (files := requested_files (DistributedAnnDataCollection.adatas self)
                  (indices_list indices)).
  apply materialize_inv in H as [(_ & -> & Hr)|(_ & r1 & w1 & Hp1 & Hp2)].
  { exists [], []. rewrite !app_nil_r.
    assert (¬ is_Ok r) as Hnok by (destruct Hr as [[_ ->]|(m & _ & _ & ->)]; tauto).
    split_and!; try done.
    - apply prefix_nil.
    - apply sublist_nil_l.
    - intros _. split; [|done]. intros f _ Hf. split; [done|apply not_elem_of_nil]. }
  apply first_pass_inv in Hp1 as (hits & Hev1 & Hkeys1 & Hpre & Hfull & Herr1).
  rewrite enumerate_snd in Hpre, Hfull. fold files in Hpre, Hfull.
  destruct r1 as [ads1|e].
  2:{ destruct Hp2 as [-> ->]. exists hits, []. rewrite !app_nil_r.
      split_and!; try done.
      - by destruct Hev1 as (? & _).
      - apply sublist_nil_l.
      - intros _. split; [|done]. intros f _ Hf.
        split; [by apply Hkeys1 | apply not_elem_of_nil]. }
  specialize (Hfull I).
  pose proof Hp2 as Hp2'.
  apply second_pass_inv in Hp2 as (t & Hev2 & Hload & Hsub & Htouch & Hcover & Herr2).
  rewrite enumerate_snd in Hsub, Htouch, Hcover.
  fold files in Hsub, Htouch, Hcover.
  exists hits, t. split_and!; try done.
  - destruct Hev2 as (-> & _). destruct Hev1 as (-> & _).
    by rewrite <- (assoc_L (++)).
  - intros Hr. split; [done|]. intros f Hf Hmiss. apply Hcover; [done|done|].
    by rewrite Hkeys1.
  - intros Hfits.
    assert (tracks (LRU.keys (cache w) ++ hits) (cache w1)) as Htr.
    { destruct Hev1 as (_ & _ & _ & _ & Htr & _).
      specialize (Htr _ (tracks_keys _ Hwf)). by rewrite touches_hits in Htr. }
    assert (∀ x, x ∈ hits → x ∈ files) as Hhits.
    { intros x. rewrite Hfull. by intros [_ ?]%list_elem_of_filter. }
    assert (fits (LRU.max_size (cache w1)) (length files)) as Hfits1.
    { destruct Hev1 as (_ & _ & -> & _). intros n Hn.
      specialize (Hfits n Hn).
      pose proof (length_requested_files
                    (DistributedAnnDataCollection.adatas self)
                    (indices_list indices)). fold files in H. lia. }
    eapply (second_pass_fits _ _ _ (LRU.keys (cache w)) files) in Hp2'
      as (t2 & Ht2 & Hkeep & Hexact); [|exact Htr|done| |done].
    2:{ intros x. by rewrite enumerate_snd. }
    rewrite enumerate_snd in Hexact. fold files in Hexact.
    assert (t2 = t) as ->.
    { destruct Hev2 as (Ht & _). rewrite Ht in Ht2. by apply app_inv_head in Ht2. }
    split.
    + intros f Hf Hres. apply Hkeep. rewrite Hfull.
      by apply list_elem_of_filter.
    + intros Hr Hnd. rewrite Hexact; [|done|done|].
      * apply filter_ext_in. intros x _. by rewrite Hkeys1.
      * intros f Hf Hin. rewrite Hfull. apply list_elem_of_filter.
        split; [by apply Hkeys1 | done].
Qed.
End materialize_theorems.

Lemma materialize_resident_first_witness :
  LRU.keys (cache Demo3.world_full) = ["s0"; "s2"]%string
  ∧ "s0"%string ∈ LRU.keys (cache Demo3.after_query.2)
  ∧ ∃ loads,
      trace Demo3.after_query.2
      = trace Demo3.world_full ++ [CacheHit "s0"] ++ loads
      ∧ file_reads loads = ["s1"%string].
Proof.
  split; [reflexivity|].
  destruct (materialize_resident_first Demo.files Demo.collection
              (DistributedAnnDataCollection.Seq [1; 0]%Z) Demo3.world_full
              Demo3.after_query.1 Demo3.after_query.2)
    as (hits & loads & Htrace & _ & _ & _ & Hok & Hfits).
  { split.
    - apply (bool_decide_unpack _). vm_compute. exact I.
    - intros n Hn. vm_compute in Hn. injection Hn as <-. vm_compute. lia. }
  { apply surjective_pairing. }
  destruct Hok as [-> _]; [exact I|].
  destruct Hfits as [Hkeep Hexact].
  { intros n Hn. vm_compute in Hn. injection Hn as <-. simpl. lia. }
  split.
  - apply (Hkeep "s0"%string).
    + vm_compute. right. left.
    + vm_compute. left.
  - exists loads. split; [exact Htrace|].
    rewrite Hexact; [reflexivity | exact I |].
    apply (bool_decide_unpack _). vm_compute. exact I.
Defined.

Section guard_theorems.
Context (read_h5ad_file : string → option AnnData.t).
Context (braceexpand : string → list string).

Lemma load_error_not_capacity (e : exn) : load_error e → ¬ CacheCapacityError e.
Proof.
  intros [[f ->]|[(a & b & ->)|(a & b & c & ->)]] (n & m & [=]).
Qed.

(** C4.  For a collection with the enforcement on and a capacity [m],
    [materialize] fails with the cache-capacity error exactly when the
    request names more than [m] positions.  When the collection has just
    been built with capacity 2, [materialize([0,1,2])] raises that error
    and changes nothing, and [materialize([0,1])], the second shard's
    file being distinct from the first and well formed, returns the two
    contents and leaves exactly the first two shards resident, the first
    one least recently used. *)
Theorem materialize_capacity_guard
    (self : DistributedAnnDataCollection.t) (m : nat) :
  DistributedAnnDataCollection.cache_size_strictly_enforced self = true →
  DistributedAnnDataCollection.max_cache_size self = Some m →
  (∀ indices w r w',
     DistributedAnnDataCollection.materialize read_h5ad_file self indices w
     = (r, w') →
     (∃ e, r = Raise e ∧ CacheCapacityError e)
     ↔ m < length (indices_list indices))
  ∧ (∀ args w0 w1,
       DistributedAnnDataCollection.__init__ read_h5ad_file braceexpand args w0
       = (Ok self, w1) →
       m = 2 →
       (∃ e, DistributedAnnDataCollection.materialize read_h5ad_file self
               (DistributedAnnDataCollection.Seq [0; 1; 2]%Z) w1
             = (Raise e, w1)
             ∧ CacheCapacityError e)
       ∧ ∀ shard0 shard1 adata1,
           DistributedAnnDataCollection.adatas self !! 0 = Some shard0 →
           DistributedAnnDataCollection.adatas self !! 1 = Some shard1 →
           LazyAnnData.filename shard1 ≠ LazyAnnData.filename shard0 →
           read_h5ad_file (LazyAnnData.filename shard1) = Some adata1 →
           LazyAnnData.n_obs shard1 = AnnData.n_obs adata1 →
           conforms (DistributedAnnDataCollection.schema self) adata1 →
           ∃ adata0 w2,
             DistributedAnnDataCollection.materialize read_h5ad_file self
               (DistributedAnnDataCollection.Seq [0; 1]%Z) w1
             = (Ok [Some adata0; Some adata1], w2)
             ∧ LRU.keys (cache w2)
               = [LazyAnnData.filename shard0; LazyAnnData.filename shard1]).
Proof.
  intros Hstrict Hmax. split.
  - intros indices w r w' H.
    apply materialize_inv in H as [(_ & -> & Hr)|(Hg & r1 & w1 & Hp1 & Hp2)].
    + destruct Hr as [[Hnone _]|(m' & Hm' & Hlt & ->)]; [congruence|].
      assert (m' = m) as -> by congruence.
      split; [done|]. intros _. eexists. split; [done|]. by eexists _, _.
    + destruct (Hg Hstrict) as (m' & Hm' & Hle).
      assert (m' = m) as -> by congruence.
      split; [|lia]. intros (e & -> & He). exfalso.
      apply first_pass_inv in Hp1 as (hits & _ & _ & _ & _ & Herr1).
      destruct r1 as [ads1|e1].
      * apply second_pass_inv in Hp2 as (t & _ & _ & _ & _ & _ & Herr2).
        destruct (Herr2 e eq_refl) as [->|Hl].
        -- by destruct He as (? & ? & [=]).
        -- by eapply load_error_not_capacity.
      * destruct Hp2 as [[= ->] _]. rewrite (Herr1 e1 eq_refl) in He.
        by destruct He as (? & ? & [=]).
  - intros args w0 w1 Hinit ->.
    apply init_inv in Hinit.
    destruct Hinit as [(_ & [=] & _)|[(_ & _ & [=] & _)|[(_ & _ & _ & [=] & _)
                      |(_ & _ & _ & [(e & t & [=] & _)|(c & [= <-] & Hc)])]]].
    destruct Hc as (f0 & adata0 & L & Hf0 & Hread0 & Hinfer & Hlen & Hself & ->).
    split.
    + eexists. unfold DistributedAnnDataCollection.materialize. simpl.
      rewrite Hstrict, Hmax. split; [reflexivity|]. by eexists _, _.
    + intros shard0 shard1 adata1 Hs0 Hs1 Hne Hread1 Hrows Hconf.
      assert (DistributedAnnDataCollection.max_cache_size self
              = DistributedAnnDataCollection.arg_max_cache_size args) as Hargmax
        by (rewrite Hself; done).
      rewrite Hmax in Hargmax. rewrite <- Hargmax.
      pose proof Hs0 as Hs0'. pose proof Hs1 as Hs1'.
      rewrite Hself in Hs0', Hs1'. simpl in Hs0', Hs1'.
      apply lazy_adatas_lookup in Hs0' as (_ & Hfn0 & _).
      apply lazy_adatas_lookup in Hs1' as (Hsch1 & _ & _).
      assert (LazyAnnData.filename shard0 = f0) as Hf by congruence.
      assert (AnnDataSchema.validate_anndata (LazyAnnData.schema shard1) adata1
              = Ok ()) as Hvalid.
      { rewrite Hsch1. by apply validate_anndata_Ok. }
      exists adata0. eexists. split.
      * apply (materialize_first_two read_h5ad_file self _ shard0 shard1 adata0
                 adata1); try done.
        by rewrite Hf.
      * done.
Qed.
End guard_theorems.

Lemma materialize_capacity_guard_witness :
  (∃ e, DistributedAnnDataCollection.materialize Demo.files Demo.collection
          (DistributedAnnDataCollection.Seq [0; 1; 2]%Z) Demo.world
        = (Raise e, Demo.world)
        ∧ CacheCapacityError e)
  ∧ ∃ adata0 w2,
      DistributedAnnDataCollection.materialize Demo.files Demo.collection
        (DistributedAnnDataCollection.Seq [0; 1]%Z) Demo.world
      = (Ok [Some adata0; Some (Demo.table 10 "cell_type" 1)], w2)
      ∧ LRU.keys (cache w2) = ["s0"; "s1"]%string.
Proof.
  destruct (materialize_capacity_guard Demo.files Demo.braceexpand
              Demo.collection 2 eq_refl eq_refl) as [_ H].
  destruct (H Demo.args Demo.fresh Demo.world) as [H3 H2].
  { vm_compute. reflexivity. }
  { reflexivity. }
  split; [exact H3|].
  apply (H2 (Demo.shard 0) (Demo.shard 1) (Demo.table 10 "cell_type" 1)).
  - reflexivity.
  - reflexivity.
  - discriminate.
  - reflexivity.
  - reflexivity.
  - apply validate_anndata_Ok. vm_compute. reflexivity.
Defined.

(** ** The capacity of the cache *)

Section capacity_theorems.
Context (read_h5ad_file : string → option AnnData.t).
Context (braceexpand : string → list string).

Lemma materialize_evolves (self : DistributedAnnDataCollection.t)
    (indices : DistributedAnnDataCollection.indices_arg) (w : World)
    (r : outcome (list (option AnnData.t))) (w' : World) :
  DistributedAnnDataCollection.materialize read_h5ad_file self indices w
  = (r, w') →
  ∃ t, evolves t w w'.
Proof.
  intros [(_ & -> & _)|(_ & r1 & w1 & Hp1 & Hp2)]%materialize_inv.
  { exists []. apply evolves_refl. }
  apply first_pass_inv in Hp1 as (hits & Hev1 & _).
  destruct r1 as [ads1|e].
  - apply second_pass_inv in Hp2 as (t & Hev2 & _).
    eexists. by eapply evolves_trans.
  - destruct Hp2 as [_ ->]. by eexists.
Qed.

Lemma getattr_evolves (shard : LazyAnnData.t) (attr : string) (w : World)
    (r : outcome AttrValue) (w' : World) :
  LazyAnnData.__getattr__ read_h5ad_file shard attr w = (r, w') →
  ∃ t, evolves t w w'.
Proof.
  unfold LazyAnnData.__getattr__. destruct (lazy w).
  - intros H. exists [].
    assert (w' = w) as ->; [|apply evolves_refl].
    destruct (decide _); [|by injection H].
    destruct (_ !! attr); by injection H.
  - rewrite bind_unfold.
    destruct (LazyAnnData.adata _ shard w) as [[a|e] w1] eqn:Ha;
      apply adata_evolves in Ha as [t Ht]; intros H; exists t.
    + by destruct (AnnData.getattr a attr); injection H as _ <-.
    + by injection H as _ <-.
Qed.

Lemma after_access_evolves (w : World) (a : access) :
  ∃ t, evolves t w (after_access read_h5ad_file w a).
Proof.
  destruct a as [shard|shard attr|shard|self indices]; simpl.
  - eapply adata_evolves, surjective_pairing.
  - eapply getattr_evolves, surjective_pairing.
  - exists []. apply evolves_refl.
  - eapply materialize_evolves, surjective_pairing.
Qed.

Lemma after_accesses_evolves (l : list access) (w : World) :
  ∃ t, evolves t w (after_accesses read_h5ad_file w l).
Proof.
  revert w. induction l as [|a l IH]; intros w; simpl.
  - exists []. apply evolves_refl.
  - destruct (after_access_evolves w a) as [t1 H1].
    destruct (IH (after_access read_h5ad_file w a)) as [t2 H2].
    exists (t1 ++ t2). by eapply evolves_trans.
Qed.

Lemma adata_miss_Ok (shard : LazyAnnData.t) (w : World) (a : AnnData.t)
    (w' : World) :
  LazyAnnData.filename shard ∉ LRU.keys (cache w) →
  LazyAnnData.adata read_h5ad_file shard w = (Ok a, w') →
  cache w' = LRU.setitem (LazyAnnData.filename shard) a (cache w).
Proof.
  intros Hmiss%contains_false%getitem_None.
  rewrite (adata_miss _ _ _ Hmiss). unfold load.
  destruct (read_h5ad_file _) as [adata|]; [|done].
  destruct (decide _); [|done].
  destruct (AnnDataSchema.validate_anndata _ _); [|done].
  by intros [= <- <-].
Qed.

(** C2.  Take a collection built with a capacity [cap], and any sequence
    of accesses to it and its shards afterwards: contents, attributes,
    presence checks, calls to [materialize], failing or not.  The cache
    then holds no key twice and at most [cap] shards; it holds exactly
    the [cap] shards touched most recently since construction, the least
    recently touched first.  When a shard that is not resident is then
    loaded, it becomes the most recently used entry, and if the cache was
    full the entry that leaves is its first one, the least recently
    touched; nothing leaves otherwise. *)
Theorem cache_within_capacity
    (args : DistributedAnnDataCollection.init_args) (w0 : World)
    (self : DistributedAnnDataCollection.t) (w1 : World) (cap : nat)
    (accesses : list access) :
  DistributedAnnDataCollection.__init__ read_h5ad_file braceexpand args w0
  = (Ok self, w1) →
  DistributedAnnDataCollection.arg_max_cache_size args = Some cap →
  LRU.size (cache (after_accesses read_h5ad_file w1 accesses)) ≤ cap
  ∧ NoDup (LRU.keys (cache (after_accesses read_h5ad_file w1 accesses)))
  ∧ (∃ t, trace (after_accesses read_h5ad_file w1 accesses) = trace w0 ++ t
          ∧ LRU.keys (cache (after_accesses read_h5ad_file w1 accesses))
            = last_n cap (recency (touches t)))
  ∧ ∀ shard loaded w',
      LazyAnnData.filename shard
        ∉ LRU.keys (cache (after_accesses read_h5ad_file w1 accesses)) →
      LazyAnnData.adata read_h5ad_file shard
        (after_accesses read_h5ad_file w1 accesses) = (Ok loaded, w') →
      LRU.size (cache w') ≤ cap
      ∧ (LRU.size (cache (after_accesses read_h5ad_file w1 accesses)) < cap →
         LRU.keys (cache w')
         = LRU.keys (cache (after_accesses read_h5ad_file w1 accesses))
           ++ [LazyAnnData.filename shard])
      ∧ (0 < cap →
         LRU.size (cache (after_accesses read_h5ad_file w1 accesses)) = cap →
         LRU.keys (cache w')
         = tail (LRU.keys (cache (after_accesses read_h5ad_file w1 accesses)))
           ++ [LazyAnnData.filename shard]).
Proof.
  intros Hinit Hcap. apply init_inv in Hinit.
  destruct Hinit as [(_ & [=] & _)|[(_ & _ & [=] & _)|[(_ & _ & _ & [=] & _)
                    |(_ & _ & _ & [(e & t & [=] & _)|(c & [= <-] & Hc)])]]].
  destruct Hc as (f0 & adata0 & L & _ & _ & _ & _ & _ & Hw1).
  rewrite Hcap in Hw1.
  destruct (after_accesses_evolves accesses w1)
    as (t & Htrace & _ & Hmax & Hwf & Htracks & _).
  set (w := after_accesses read_h5ad_file w1 accesses) in *.
  assert (LRU.max_size (cache w) = Some cap) as Hm by (by rewrite Hmax, Hw1).
  assert (cache_wf (cache w)) as [Hnd Hsz].
  { apply Hwf. rewrite Hw1. apply cache_wf_setitem, cache_wf_new. }
  assert (tracks ([f0] ++ touches t) (cache w)) as Htr.
  { apply Htracks. rewrite Hw1. simpl.
    apply (tracks_setitem [] f0 adata0 (LRU.new (Some cap))). done. }
  split_and!.
  - by apply Hsz.
  - done.
  - exists ([FileRead f0; CacheInsert f0] ++ t). split.
    + rewrite Htrace, Hw1. simpl. by rewrite <- (assoc_L (++)).
    + rewrite touches_app. unfold tracks in Htr. by rewrite Htr, Hm.
  - intros shard loaded w' Hmiss Hload.
    pose proof (adata_miss_Ok _ _ _ _ Hmiss Hload) as Hc'.
    assert (LRU.keys (cache w')
            = trim (Some cap) (LRU.keys (cache w) ++ [LazyAnnData.filename shard]))
      as Hkeys.
    { by rewrite Hc', keys_setitem, Hm, touch_notin. }
    split_and!.
    + rewrite Hc'. apply cache_wf_setitem; [done|]. by rewrite <- Hm.
    + intros Hlt. rewrite Hkeys. simpl.
      rewrite decide_False; [done|].
      rewrite length_app, <- size_keys. simpl. lia.
    + intros Hpos Hfull. rewrite Hkeys. simpl.
      rewrite decide_True by (rewrite length_app, <- size_keys; simpl; lia).
      rewrite size_keys in Hfull.
      destruct (LRU.keys (cache w)); [simpl in Hfull; lia | done].
Qed.
End capacity_theorems.

Lemma cache_within_capacity_witness :
  LRU.keys (cache (after_accesses Demo.files Demo.world
                     [Materialize Demo.collection
                        (DistributedAnnDataCollection.Int 2);
                      Content (Demo.shard 3);
                      Presence (Demo.shard 1);
                      Attribute (Demo.shard 0) "obs"]))
  = ["s2"; "s0"]%string
  ∧ ∃ w', LazyAnnData.adata Demo.files (Demo.shard 1)
            (after_accesses Demo.files Demo.world
               [Materialize Demo.collection
                  (DistributedAnnDataCollection.Int 2);
                Content (Demo.shard 3);
                Presence (Demo.shard 1);
                Attribute (Demo.shard 0) "obs"])
          = (Ok (Demo.table 10 "cell_type" 1), w')
          ∧ LRU.keys (cache w') = ["s0"; "s1"]%string.
Proof.
  split; [reflexivity|]. eexists. split; [vm_compute; reflexivity|].
  destruct (cache_within_capacity Demo.files Demo.braceexpand Demo.args
              Demo.fresh Demo.collection Demo.world 2
              [Materialize Demo.collection (DistributedAnnDataCollection.Int 2);
               Content (Demo.shard 3);
               Presence (Demo.shard 1);
               Attribute (Demo.shard 0) "obs"])
    as (_ & _ & _ & H).
  { vm_compute. reflexivity. }
  { reflexivity. }
  edestruct (H (Demo.shard 1) (Demo.table 10 "cell_type" 1)) as (_ & _ & Hfull).
  { vm_compute. intros [Hx|Hx]%elem_of_cons; [discriminate|].
    apply list_elem_of_singleton in Hx. discriminate. }
  { vm_compute. reflexivity. }
  rewrite Hfull; [reflexivity | lia | reflexivity].
Defined.

(** ** Further properties of [LazyAnnData] *)

Section lookup_facts.
Context {V : Type}.

Lemma lookup_app_keys (k : string) (es1 es2 : list (string * V)) :
  LRU.lookup k (es1 ++ es2)
  = match LRU.lookup k es1 with
    | Some v => Some v
    | None => LRU.lookup k es2
    end.
Proof.
  induction es1 as [|[k' v'] es1 IH]; [done|]. simpl.
  by destruct (decide (k' = k)).
Qed.

Lemma lookup_snoc_fresh (k : string) (v : V) (es : list (string * V)) :
  k ∉ es.*1 → LRU.lookup k (es ++ [(k, v)]) = Some v.
Proof.
  intros Hk%lookup_None_keys. rewrite lookup_app_keys, Hk. simpl.
  by rewrite decide_True.
Qed.

Lemma without_fresh (k : string) (es : list (string * V)) :
  k ∉ (LRU.without k es).*1.
Proof.
  rewrite keys_without. by intros [? _]%list_elem_of_filter.
Qed.

(** What was just inserted is found, unless the cache holds nothing. *)
Lemma lookup_setitem (k : string) (v : V) (c : LRU.t V) :
  LRU.max_size c ≠ Some 0 →
  LRU.lookup k (LRU.entries (LRU.setitem k v c)) = Some v.
Proof.
  intros Hcap. unfold LRU.setitem, LRU.evict; simpl.
  pose proof (without_fresh k (LRU.entries c)) as Hfresh.
  destruct (LRU.max_size c) as [n|]; [|by apply lookup_snoc_fresh].
  destruct (decide _) as [Hlt|_]; [|by apply lookup_snoc_fresh].
  destruct (LRU.without k (LRU.entries c)) as [|[k' v'] es] eqn:E.
  - simpl in Hlt. destruct n; [done|lia].
  - simpl. apply lookup_snoc_fresh. simpl in Hfresh.
    by apply not_elem_of_cons in Hfresh as [_ ?].
Qed.
End lookup_facts.

Section shard_extras.
Context (read_h5ad_file : string → option AnnData.t).

(** X1.  Reading the content of a shard twice in a row: when the first
    access succeeds and the cache can hold at least one entry, the second
    returns the same content from the cache, as a hit, without reading
    the file. *)
Theorem adata_second_access_hits
    (self : LazyAnnData.t) (w : World) (content : AnnData.t) (w1 : World) :
  LRU.max_size (cache w) ≠ Some 0 →
  LazyAnnData.adata read_h5ad_file self w = (Ok content, w1) →
  ∃ w2,
    LazyAnnData.adata read_h5ad_file self w1 = (Ok content, w2)
    ∧ trace w2 = trace w1 ++ [CacheHit (LazyAnnData.filename self)]
    ∧ LazyAnnData.cached self w1 = (Ok true, w1).
Proof.
  intros Hcap H.
  assert (LRU.lookup (LazyAnnData.filename self) (LRU.entries (cache w1))
          = Some content) as Hlook.
  { destruct (LRU.getitem (LazyAnnData.filename self) (cache w))
      as [[v c']|] eqn:Hget.
    - rewrite (adata_hit _ _ _ _ _ Hget) in H. injection H as -> <-.
      unfold LRU.getitem in Hget.
      destruct (LRU.lookup _ (LRU.entries (cache w))) as [v|]; [|done].
      injection Hget as -> <-. simpl.
      apply lookup_snoc_fresh, without_fresh.
    - pose proof Hget as Hmiss%getitem_None%contains_false.
      rewrite (adata_miss _ _ _ Hget) in H. unfold load in H.
      destruct (read_h5ad_file _) as [adata|]; [|done].
      destruct (decide _); [|done].
      destruct (AnnDataSchema.validate_anndata _ _); [|done].
      injection H as -> <-. simpl. by apply lookup_setitem. }
  assert (LRU.getitem (LazyAnnData.filename self) (cache w1)
          = Some (content,
                  LRU.mk (LRU.max_size (cache w1))
                    (LRU.without (LazyAnnData.filename self)
                       (LRU.entries (cache w1))
                     ++ [(LazyAnnData.filename self, content)]))) as Hget1.
  { unfold LRU.getitem. by rewrite Hlook. }
  eexists. split_and!.
  - by apply adata_hit.
  - done.
  - unfold LazyAnnData.cached, cache_contains. do 2 f_equal.
    apply contains_true. by eapply lookup_Some_keys.
Qed.

(** X2.  A failed load is not remembered: when the access to the content
    of a shard raises, the cache is as before, and the next access reads
    the file again and raises the same exception. *)
Theorem adata_failure_is_not_cached
    (self : LazyAnnData.t) (w : World) (e : exn) (w1 : World) :
  LazyAnnData.adata read_h5ad_file self w = (Raise e, w1) →
  w1 = log (FileRead (LazyAnnData.filename self)) w
  ∧ cache w1 = cache w
  ∧ LazyAnnData.adata read_h5ad_file self w1
    = (Raise e, log (FileRead (LazyAnnData.filename self)) w1).
Proof.
  intros H.
  destruct (LRU.getitem (LazyAnnData.filename self) (cache w))
    as [[v c']|] eqn:Hget.
  { by rewrite (adata_hit _ _ _ _ _ Hget) in H. }
  rewrite (adata_miss _ _ _ Hget) in H.
  assert (∀ w0, load read_h5ad_file self w0
                = (Raise e, log (FileRead (LazyAnnData.filename self)) w0))
    as Hload.
  { intros w0. unfold load in *.
    destruct (read_h5ad_file _) as [adata|]; [|by injection H as <- _].
    destruct (decide _); [|by injection H as <- _].
    destruct (AnnDataSchema.validate_anndata _ _); [done|].
    by injection H as <- _. }
  rewrite Hload in H. injection H as <-.
  split_and!; [done|done|].
  rewrite adata_miss; [apply Hload | done].
Qed.

(** X3.  Attribute errors outside lazy mode.  For a name that normal
    lookup does not find, so that [__getattr__] is called, the content of
    the shard is fetched before the name is looked at.  When the content
    does not have the name, [AttributeError] is raised only after that:
    for a shard that was not resident the file has been read and its
    content inserted into the cache.  When fetching the content fails,
    the failure of the load is raised, not [AttributeError]: the file has
    been read and the cache is as before. *)
Theorem getattr_attribute_errors
    (self : LazyAnnData.t) (attr : string) (w : World)
    (r : outcome AnnData.t) (w1 : World) :
  LazyAnnData.reaches_getattr attr →
  lazy w = false →
  LazyAnnData.adata read_h5ad_file self w = (r, w1) →
  match r with
  | Ok content =>
      AnnData.getattr content attr = None →
      LazyAnnData.__getattr__ read_h5ad_file self attr w
      = (Raise (AttributeError attr), w1)
      ∧ (LazyAnnData.filename self ∉ LRU.keys (cache w) →
         trace w1 = trace w ++ [FileRead (LazyAnnData.filename self);
                                CacheInsert (LazyAnnData.filename self)]
         ∧ cache w1
           = LRU.setitem (LazyAnnData.filename self) content (cache w))
  | Raise e =>
      LazyAnnData.__getattr__ read_h5ad_file self attr w = (Raise e, w1)
      ∧ load_error e
      ∧ e ≠ AttributeError attr
      ∧ trace w1 = trace w ++ [FileRead (LazyAnnData.filename self)]
      ∧ cache w1 = cache w
  end.
Proof.
  intros _ Hlazy Ha. unfold LazyAnnData.__getattr__.
  rewrite Hlazy, bind_unfold, Ha.
  destruct r as [content|e].
  - intros Hnone. rewrite Hnone. split; [done|]. intros Hmiss.
    pose proof Ha as [(? & _)|[(_ & _ & Hev)|(_ & (e & [=] & _) & _)]]%adata_cases;
      [done|].
    split; [by destruct Hev as (? & _)|].
    pose proof Hmiss as Hget%contains_false%getitem_None.
    rewrite (adata_miss _ _ _ Hget) in Ha. unfold load in Ha.
    destruct (read_h5ad_file _) as [adata|]; [|done].
    destruct (decide _); [|done].
    destruct (AnnDataSchema.validate_anndata _ _); [|done].
    by injection Ha as -> <-.
  - apply adata_cases in Ha
      as [(_ & [] & _)|[(_ & [] & _)|(_ & (e' & [= <-] & He) & ->)]].
    split_and!; [done|done| |done|done].
    intros ->. destruct He as [[f [=]]|[(? & ? & [=])|(? & ? & ? & [=])]].
Qed.
End shard_extras.

Lemma adata_second_access_hits_witness :
  ∃ w1 w2,
    LazyAnnData.adata Demo.files (Demo.shard 1) Demo.world
    = (Ok (Demo.table 10 "cell_type" 1), w1)
    ∧ LazyAnnData.adata Demo.files (Demo.shard 1) w1
      = (Ok (Demo.table 10 "cell_type" 1), w2)
    ∧ trace w2 = trace w1 ++ [CacheHit "s1"].
Proof.
  eexists.
  destruct (adata_second_access_hits Demo.files (Demo.shard 1) Demo.world
              (Demo.table 10 "cell_type" 1)
              (LazyAnnData.adata Demo.files (Demo.shard 1) Demo.world).2)
    as (w2 & H2 & Ht & _).
  { discriminate. }
  { vm_compute. reflexivity. }
  exists w2. split_and!; [vm_compute; reflexivity | exact H2 | exact Ht].
Defined.

Lemma adata_failure_is_not_cached_witness :
  ∃ e, LazyAnnData.adata Demo.files (Demo.shard 4)
         (log (FileRead "s4") Demo.world)
       = (Raise e, log (FileRead "s4") (log (FileRead "s4") Demo.world))
       ∧ ShardSizeMismatchError e.
Proof.
  exists (AssertionError_n_obs 10 7). split; [|by eexists _, _].
  destruct (adata_failure_is_not_cached Demo.files (Demo.shard 4) Demo.world
              (AssertionError_n_obs 10 7) (log (FileRead "s4") Demo.world))
    as (_ & _ & H).
  { vm_compute. reflexivity. }
  exact H.
Defined.

Lemma getattr_attribute_errors_witness :
  ∃ w1, LazyAnnData.__getattr__ Demo.files (Demo.shard 1) "no_such_name"
          Demo.world
        = (Raise (AttributeError "no_such_name"), w1)
        ∧ trace w1 = trace Demo.world ++ [FileRead "s1"; CacheInsert "s1"].
Proof.
  exists (LazyAnnData.adata Demo.files (Demo.shard 1) Demo.world).2.
  destruct (getattr_attribute_errors Demo.files (Demo.shard 1) "no_such_name"
              Demo.world (Ok (Demo.table 10 "cell_type" 1))
              (LazyAnnData.adata Demo.files (Demo.shard 1) Demo.world).2)
    as [Herr Hside].
  - split; [|reflexivity]. unfold LazyAnnData._own_attrs.
    rewrite !not_elem_of_cons. split_and!; try discriminate.
    apply not_elem_of_nil.
  - reflexivity.
  - vm_compute. reflexivity.
  - reflexivity.
  - split; [exact Herr|]. apply Hside.
    vm_compute. intros Hx%list_elem_of_singleton. discriminate.
Defined.

(** ** Further properties of construction *)

Lemma lazy_adatas_limits (L : list Z) (fns : list string)
    (s : AnnDataSchema.t) (i : nat) (shard : LazyAnnData.t) :
  DistributedAnnDataCollection.lazy_adatas L fns s !! i = Some shard →
  (0%Z :: L) !! i = Some (LazyAnnData.limits shard).1
  ∧ L !! i = Some (LazyAnnData.limits shard).2.
Proof.
  unfold DistributedAnnDataCollection.lazy_adatas.
  intros (range & f & -> & Hr & Hf)%lookup_zip_with_Some.
  apply lookup_zip_with_Some in Hr as (a & b & -> & Ha & Hb). done.
Qed.

Section range_extras.
Context (read_h5ad_file : string → option AnnData.t).
Context (braceexpand : string → list string).

(** X4.  The shards of a collection that has been built: there is one
    per file name, in the order of the file names, each with the schema
    of the collection; the first one starts at row 0 and every other one
    starts at the row where the one before it ends. *)
Theorem init_shards_are_contiguous
    (args : DistributedAnnDataCollection.init_args) (w0 : World)
    (self : DistributedAnnDataCollection.t) (w1 : World) :
  DistributedAnnDataCollection.__init__ read_h5ad_file braceexpand args w0
  = (Ok self, w1) →
  length (DistributedAnnDataCollection.adatas self)
  = length (DistributedAnnDataCollection.filenames self)
  ∧ (∀ i shard,
       DistributedAnnDataCollection.adatas self !! i = Some shard →
       DistributedAnnDataCollection.filenames self !! i
       = Some (LazyAnnData.filename shard)
       ∧ LazyAnnData.schema shard = DistributedAnnDataCollection.schema self)
  ∧ (∀ shard,
       DistributedAnnDataCollection.adatas self !! 0 = Some shard →
       (LazyAnnData.limits shard).1 = 0%Z)
  ∧ (∀ i shard next,
       DistributedAnnDataCollection.adatas self !! i = Some shard →
       DistributedAnnDataCollection.adatas self !! S i = Some next →
       (LazyAnnData.limits next).1 = (LazyAnnData.limits shard).2).
Proof.
  intros Hinit. apply init_inv in Hinit.
  destruct Hinit as [(_ & [=] & _)|[(_ & _ & [=] & _)|[(_ & _ & _ & [=] & _)
                    |(_ & _ & _ & [(e & t & [=] & _)|(c & [= <-] & Hc)])]]].
  destruct Hc as (f0 & adata0 & L & _ & _ & _ & Hlen & Hself & _).
  rewrite Hself; simpl. split_and!.
  - by apply length_lazy_adatas.
  - intros i shard Hi. by apply lazy_adatas_lookup in Hi as (? & ? & _).
  - intros shard [H0 _]%lazy_adatas_limits. by injection H0.
  - intros i shard next [_ Hend]%lazy_adatas_limits [Hstart _]%lazy_adatas_limits.
    simpl in Hstart. congruence.
Qed.
End range_extras.

Lemma init_shards_are_contiguous_witness :
  (LazyAnnData.limits <$> DistributedAnnDataCollection.adatas Demo.collection)
  = [(0, 10); (10, 20); (20, 30); (30, 40); (40, 50)]%Z
  ∧ ∀ i shard next,
      DistributedAnnDataCollection.adatas Demo.collection !! i = Some shard →
      DistributedAnnDataCollection.adatas Demo.collection !! S i = Some next →
      (LazyAnnData.limits next).1 = (LazyAnnData.limits shard).2.
Proof.
  split; [reflexivity|].
  apply (init_shards_are_contiguous Demo.files Demo.braceexpand Demo.args
           Demo.fresh Demo.collection Demo.world).
  vm_compute. reflexivity.
Defined.

Lemma infer_raises (adata : AnnData.t) (e : exn) :
  AnnDataSchema.infer adata = Raise e → ∃ g, e = SchemaError g.
Proof.
  unfold AnnDataSchema.infer.
  destruct (AnnDataSchema.infer_groups _ _) as [|e'] eqn:E; [done|].
  intros [= <-]. revert e' E.
  induction _lazy_attrs as [|g gs IH]; intros e' E; simpl in E; [done|].
  destruct (AnnData.getattr adata g); [|injection E as <-; by eexists].
  destruct (AnnDataSchema.infer_groups gs adata); [done|].
  injection E as <-. by apply IH.
Qed.

Lemma length_uniform_limits (shard_size : Z) (n : nat) :
  length (DistributedAnnDataCollection.uniform_limits shard_size n) = n.
Proof.
  unfold DistributedAnnDataCollection.uniform_limits.
  by rewrite length_fmap, length_seq.
Qed.

Lemma lookup_uniform_limits (shard_size : Z) (n i : nat) :
  i < n →
  DistributedAnnDataCollection.uniform_limits shard_size n !! i
  = Some (shard_size * (Z.of_nat i + 1))%Z.
Proof.
  intros Hi. unfold DistributedAnnDataCollection.uniform_limits.
  rewrite list_lookup_fmap, lookup_seq_lt by done. done.
Qed.

Lemma py_index_last {A : Type} (l : list A) :
  py_index l (-1) = l !! pred (length l) ∨ (l = [] ∧ py_index l (-1) = None).
Proof.
  unfold py_index. rewrite decide_False by lia.
  destruct l as [|x l]; [right|left].
  - by rewrite decide_False by (simpl; lia).
  - rewrite decide_True by (simpl; lia). f_equal. simpl. lia.
Qed.

(** With a shard size the boundaries are worked out, one per file. *)
Lemma computed_limits_shard_size
    (args : DistributedAnnDataCollection.init_args) (n : nat) (s : Z) :
  DistributedAnnDataCollection.arg_shard_size args = Some s →
  0 < n →
  ∃ L, computed_limits args n = Ok L
       ∧ length L = n
       ∧ ∀ i, i < n →
           L !! i
           = Some (if decide (S i = n)
                   then (s * Z.of_nat i
                         + default s
                             (DistributedAnnDataCollection.arg_last_shard_size args))%Z
                   else (s * (Z.of_nat i + 1))%Z).
Proof.
  intros Hs Hn. unfold computed_limits. rewrite Hs.
  destruct (DistributedAnnDataCollection.arg_last_shard_size args) as [l|];
    simpl.
  - destruct (py_index_last (DistributedAnnDataCollection.uniform_limits s n))
      as [Hlast|[Hnil _]].
    2:{ apply (f_equal length) in Hnil. rewrite length_uniform_limits in Hnil.
        simpl in Hnil. lia. }
    rewrite Hlast, length_uniform_limits, lookup_uniform_limits by lia.
    eexists. split; [done|]. split.
    + by rewrite length_insert, length_uniform_limits.
    + intros i Hi. destruct (decide (S i = n)) as [Heq|Hne].
      * replace (pred n) with i by lia.
        rewrite list_lookup_insert_eq by (rewrite length_uniform_limits; lia).
        f_equal. lia.
      * rewrite list_lookup_insert_ne by lia.
        by apply lookup_uniform_limits.
  - eexists. split; [done|]. split; [apply length_uniform_limits|].
    intros i Hi. rewrite lookup_uniform_limits by done. f_equal.
    destruct (decide (S i = n)); lia.
Qed.

Section init_extras.
Context (read_h5ad_file : string → option AnnData.t).
Context (braceexpand : string → list string).

(** X5.  With no file name at all the constructor raises [IndexError],
    whatever the other arguments are, and leaves the world as it was. *)
Theorem init_without_filenames
    (args : DistributedAnnDataCollection.init_args) (w0 : World) :
  expanded_filenames braceexpand args = [] →
  DistributedAnnDataCollection.__init__ read_h5ad_file braceexpand args w0
  = (Raise IndexError, w0).
Proof.
  intros Hnil. rewrite init_unfold. unfold init_steps. by rewrite Hnil.
Qed.

(** X6.  For a non-empty list of file names, the constructor fails on
    its assertion that there are as many boundaries as file names exactly
    when explicit boundaries are given, alone, and their number is not
    the number of file names.  When it fails so, it has not touched the
    world.  With a shard size the assertion always holds. *)
Theorem init_limits_length_assertion
    (args : DistributedAnnDataCollection.init_args) (w0 : World) :
  expanded_filenames braceexpand args ≠ [] →
  ((DistributedAnnDataCollection.__init__ read_h5ad_file braceexpand args w0).1
   = Raise AssertionError_limits_length
   ↔ ∃ L, DistributedAnnDataCollection.arg_limits args = Some L
          ∧ DistributedAnnDataCollection.arg_shard_size args = None
          ∧ DistributedAnnDataCollection.arg_last_shard_size args = None
          ∧ length L ≠ length (expanded_filenames braceexpand args))
  ∧ ((DistributedAnnDataCollection.__init__ read_h5ad_file braceexpand args w0).1
     = Raise AssertionError_limits_length →
     (DistributedAnnDataCollection.__init__ read_h5ad_file braceexpand args w0).2
     = w0).
Proof.
  intros Hne. rewrite init_unfold. unfold init_steps.
  set (fns := expanded_filenames braceexpand args) in *.
  destruct (fns !! 0) as [f0|] eqn:Hf0; [|by destruct fns].
  assert (0 < length fns) as Hpos by (destruct fns; [done | simpl; lia]).
  destruct (DistributedAnnDataCollection.arg_shard_size args) as [s|] eqn:Hs.
  - assert (∃ L, computed_limits args (length fns) = Ok L
                 ∧ length L = length fns) as (L & HL & Hlen).
    { destruct (computed_limits_shard_size args (length fns) s Hs Hpos)
        as (L & ? & ? & _). eauto. }
    rewrite HL, decide_True by done.
    destruct (bool_decide _); [by split; [split; [|intros (? & _ & [=] & _)]|]|].
    destruct (_ && _); [by split; [split; [|intros (? & _ & [=] & _)]|]|].
    destruct (read_h5ad_file f0);
      [|by split; [split; [|intros (? & _ & [=] & _)]|]].
    destruct (AnnDataSchema.infer _) as [schema|e1] eqn:Hinfer; simpl.
    2:{ apply infer_raises in Hinfer as [g ->].
        by split; [split; [|intros (? & _ & [=] & _)]|]. }
    destruct (decide _) as [HK|HK];
      [|by split; [split; [|intros (? & _ & [=] & _)]|]].
    match goal with
    | |- context [DistributedAnnDataCollection.AnnCollection_init _ ?ads ?w] =>
        destruct (AnnCollection_init_lazy read_h5ad_file ads w eq_refl)
          as (r & -> & _ & Herr)
    end.
    destruct r as [lim|err]; simpl;
      [by split; [split; [|intros (? & _ & [=] & _)]|]|].
    destruct (Herr err eq_refl) as [->|[->| ->]];
      by split; [split; [|intros (? & _ & [=] & _)]|].
  - destruct (DistributedAnnDataCollection.arg_limits args) as [L|] eqn:HL;
      simpl; [|by split; [split; [|intros (? & [=] & _)]|]].
    destruct (DistributedAnnDataCollection.arg_last_shard_size args) as [l|];
      simpl; [by split; [split; [|intros (? & _ & _ & [=] & _)]|]|].
    unfold computed_limits. rewrite Hs, HL.
    destruct (decide (length L = length fns)) as [Hlen|Hlen].
    + assert (∀ r : outcome DistributedAnnDataCollection.t,
                r ≠ Raise AssertionError_limits_length →
                (r = Raise AssertionError_limits_length
                 ↔ ∃ L0, Some L = Some L0 ∧ None = (None : option Z)
                         ∧ None = (None : option Z)
                         ∧ length L0 ≠ length fns)) as Hiff.
      { intros r Hr. split; [done|]. by intros (L' & [= <-] & _ & _ & ?). }
      destruct (read_h5ad_file f0); [|by split; [apply Hiff|]].
      destruct (AnnDataSchema.infer _) as [schema|e1] eqn:Hinfer; simpl.
      2:{ apply infer_raises in Hinfer as [g ->]. by split; [apply Hiff|]. }
      destruct (decide _) as [HK|HK]; [|by split; [apply Hiff|]].
      match goal with
      | |- context [DistributedAnnDataCollection.AnnCollection_init _ ?ads ?w] =>
          destruct (AnnCollection_init_lazy read_h5ad_file ads w eq_refl)
            as (r & -> & _ & Herr)
      end.
      destruct r as [lim|err]; simpl; [by split; [apply Hiff|]|].
      destruct (Herr err eq_refl) as [->|[->| ->]]; by split; [apply Hiff|].
    + simpl. split; [|done]. split; [|done]. intros _. by exists L.
Qed.

(** X7.  Built from a shard size [s], and an optional last shard size,
    the shard at position [i] starts at row [s * i]; it has [s] rows,
    except the last one, which has the last shard size when one is
    given. *)
Theorem init_shard_size_ranges
    (args : DistributedAnnDataCollection.init_args) (w0 : World)
    (self : DistributedAnnDataCollection.t) (w1 : World) (s : Z)
    (i : nat) (shard : LazyAnnData.t) :
  DistributedAnnDataCollection.__init__ read_h5ad_file braceexpand args w0
  = (Ok self, w1) →
  DistributedAnnDataCollection.arg_shard_size args = Some s →
  DistributedAnnDataCollection.adatas self !! i = Some shard →
  (LazyAnnData.limits shard).1 = (s * Z.of_nat i)%Z
  ∧ LazyAnnData.n_obs shard
    = if decide (S i = length (DistributedAnnDataCollection.filenames self))
      then default s (DistributedAnnDataCollection.arg_last_shard_size args)
      else s.
Proof.
  rewrite init_unfold. unfold init_steps.
  set (fns := expanded_filenames braceexpand args) in *.
  intros Hinit Hs Hshard.
  destruct (fns !! 0) as [f0|] eqn:Hf0; [|done].
  assert (0 < length fns) as Hpos by (destruct fns; [done | simpl; lia]).
  destruct (bool_decide _); [done|]. destruct (_ && _); [done|].
  destruct (computed_limits_shard_size args (length fns) s Hs Hpos)
    as (L & HL & Hlen & Hlook).
  rewrite HL, decide_True in Hinit by done.
  destruct (read_h5ad_file f0); [|done].
  destruct (AnnDataSchema.infer _) as [schema|e1]; [|done].
  destruct (decide _) as [HK|HK]; [|done].
  destruct (DistributedAnnDataCollection.AnnCollection_init _ _ _) as [[lim|e2] w3];
    [|done].
  injection Hinit as <- _. simpl in *.
  pose proof (lookup_lt_Some _ _ _ Hshard) as Hi.
  rewrite length_lazy_adatas in Hi by done.
  apply lazy_adatas_limits in Hshard as [Hstart Hend].
  rewrite (Hlook i Hi) in Hend. injection Hend as Hend.
  assert ((LazyAnnData.limits shard).1 = (s * Z.of_nat i)%Z) as Hfirst.
  { destruct i as [|j]; simpl in Hstart.
    - injection Hstart as <-. lia.
    - rewrite (Hlook j) in Hstart by lia. injection Hstart as <-.
      rewrite decide_False by lia. lia. }
  split; [done|]. unfold LazyAnnData.n_obs. rewrite <- Hend, Hfirst.
  destruct (decide (S i = length fns)); lia.
Qed.

(** X8.  Construction never leaves the lazy-attribute mode on: however
    it ends, the mode is off afterwards if it was off before. *)
Theorem init_leaves_lazy_mode_off
    (args : DistributedAnnDataCollection.init_args) (w0 : World) :
  lazy w0 = false →
  lazy (DistributedAnnDataCollection.__init__ read_h5ad_file braceexpand
          args w0).2 = false.
Proof.
  intros Hlazy. rewrite init_unfold. unfold init_steps.
  destruct (_ !! 0) as [f0|]; [|done].
  destruct (bool_decide _); [done|]. destruct (_ && _); [done|].
  destruct (computed_limits _ _) as [L|e1]; [|done].
  destruct (decide _) as [HL|HL]; [|done].
  destruct (read_h5ad_file f0); [|done].
  destruct (AnnDataSchema.infer _) as [schema|e2]; [|done].
  destruct (decide _); done.
Qed.
End init_extras.

Lemma init_without_filenames_witness :
  DistributedAnnDataCollection.__init__ Demo.files Demo.braceexpand
    (DistributedAnnDataCollection.mk_args (DistributedAnnDataCollection.Names [])
       (Some []) (Some 10%Z) None (Some 2) true None) Demo.fresh
  = (Raise IndexError, Demo.fresh).
Proof.
  apply (init_without_filenames Demo.files Demo.braceexpand). reflexivity.
Defined.

Lemma init_limits_length_assertion_witness :
  (DistributedAnnDataCollection.__init__ Demo.files Demo.braceexpand
     (DistributedAnnDataCollection.mk_args
        (DistributedAnnDataCollection.Names Demo.names)
        (Some [10; 20]%Z) None None (Some 2) true None) Demo.fresh).1
  = Raise AssertionError_limits_length.
Proof.
  apply (init_limits_length_assertion Demo.files Demo.braceexpand
           (DistributedAnnDataCollection.mk_args
              (DistributedAnnDataCollection.Names Demo.names)
              (Some [10; 20]%Z) None None (Some 2) true None) Demo.fresh).
  - discriminate.
  - exists [10; 20]%Z. split_and!; try reflexivity. simpl. lia.
Defined.

Lemma init_leaves_lazy_mode_off_witness :
  lazy Demo.world = false.
Proof.
  apply (init_leaves_lazy_mode_off Demo.files Demo.braceexpand Demo.args
           Demo.fresh).
  reflexivity.
Defined.

Lemma init_shard_size_ranges_witness :
  (LazyAnnData.limits
     (LazyAnnData.mk "s4" (40, 47)%Z Demo.schema)).1 = 40%Z
  ∧ LazyAnnData.n_obs (LazyAnnData.mk "s4" (40, 47)%Z Demo.schema) = 7%Z.
Proof.
  apply (init_shard_size_ranges Demo.files Demo.braceexpand
           (DistributedAnnDataCollection.mk_args
              (DistributedAnnDataCollection.Names Demo.names)
              None (Some 10%Z) (Some 7%Z) (Some 2) true None)
           Demo.fresh
           (DistributedAnnDataCollection.mk Demo.names
              [10; 20; 30; 40; 47]%Z (Some 2) true Demo.schema
              (DistributedAnnDataCollection.lazy_adatas
                 [10; 20; 30; 40; 47]%Z Demo.names Demo.schema))
           Demo.world 10%Z 4
           (LazyAnnData.mk "s4" (40, 47)%Z Demo.schema)).
  - vm_compute. reflexivity.
  - reflexivity.
  - reflexivity.
Defined.

(** ** What [materialize] returns *)

Section lookup_hit.
Context {V : Type}.

Lemma lookup_without_ne (k f : string) (es : list (string * V)) :
  k ≠ f → LRU.lookup k (LRU.without f es) = LRU.lookup k es.
Proof.
  intros Hne. unfold LRU.without.
  induction es as [|[k' v'] es IH]; [done|].
  rewrite filter_cons. simpl.
  destruct (decide (k' ≠ f)) as [Hk|Hk]; simpl.
  - by rewrite IH.
  - rewrite IH. rewrite decide_False; [done|]. intros ->. by apply Hk.
Qed.

(** A hit changes the order of the entries, not what they hold. *)
Lemma lookup_getitem (f : string) (c : LRU.t V) (v : V) (c' : LRU.t V) :
  LRU.getitem f c = Some (v, c') →
  ∀ k, LRU.lookup k (LRU.entries c') = LRU.lookup k (LRU.entries c).
Proof.
  unfold LRU.getitem.
  destruct (LRU.lookup f (LRU.entries c)) as [v0|] eqn:Hf; [|done].
  intros [= <- <-] k. simpl. rewrite lookup_app_keys.
  destruct (decide (k = f)) as [->|Hne].
  - pose proof (without_fresh f (LRU.entries c)) as Hfresh.
    apply lookup_None_keys in Hfresh. rewrite Hfresh. simpl.
    by rewrite decide_True.
  - rewrite lookup_without_ne by done.
    destruct (LRU.lookup k (LRU.entries c)); [done|]. simpl.
    by rewrite decide_False.
Qed.
End lookup_hit.

Lemma fill_ext (g g' : Z → option AnnData.t) (slots : list (nat * Z))
    (ads : list (option AnnData.t)) :
  (∀ slot, slot ∈ slots → g slot.2 = g' slot.2) →
  fill g slots ads = fill g' slots ads.
Proof.
  revert ads. induction slots as [|slot slots IH]; intros ads Hg; [done|].
  unfold fill in *. simpl. rewrite (Hg slot) by left.
  apply IH. intros s Hs. apply Hg. by right.
Qed.

Lemma fill_cons (g : Z → option AnnData.t) (slot : nat * Z)
    (slots : list (nat * Z)) (ads : list (option AnnData.t)) :
  fill g (slot :: slots) ads
  = fill g slots (match g slot.2 with
                  | Some a => <[slot.1 := Some a]> ads
                  | None => ads
                  end).
Proof. reflexivity. Qed.

Lemma length_fill (g : Z → option AnnData.t) (slots : list (nat * Z))
    (ads : list (option AnnData.t)) :
  length (fill g slots ads) = length ads.
Proof.
  revert ads. induction slots as [|slot slots IH]; intros ads; [done|].
  rewrite fill_cons, IH. destruct (g slot.2); [apply length_insert | done].
Qed.

Lemma fill_lookup_other (g : Z → option AnnData.t) (slots : list (nat * Z))
    (ads : list (option AnnData.t)) (i : nat) :
  i ∉ slots.*1 → fill g slots ads !! i = ads !! i.
Proof.
  revert ads. induction slots as [|slot slots IH]; intros ads Hi; [done|].
  rewrite fmap_cons, not_elem_of_cons in Hi. destruct Hi as [Hne Hi].
  rewrite fill_cons, IH by done.
  destruct (g slot.2); [|done]. by rewrite list_lookup_insert_ne.
Qed.

(** With every slot named once, the slot of a position holds what
    [content] gives for that position, or what it held. *)
Lemma fill_lookup (g : Z → option AnnData.t) (slots : list (nat * Z))
    (ads : list (option AnnData.t)) (i : nat) (idx : Z) :
  NoDup slots.*1 → (i, idx) ∈ slots → i < length ads →
  fill g slots ads !! i
  = match g idx with
    | Some a => Some (Some a)
    | None => ads !! i
    end.
Proof.
  revert ads. induction slots as [|slot slots IH]; intros ads Hnd Hin Hi.
  { by apply elem_of_nil in Hin. }
  rewrite fmap_cons in Hnd. apply NoDup_cons in Hnd as [Hfresh Hnd].
  rewrite fill_cons. apply elem_of_cons in Hin as [<-|Hin].
  - rewrite fill_lookup_other by done. simpl.
    destruct (g idx); [|done]. by rewrite list_lookup_insert_eq.
  - assert (slot.1 ≠ i) as Hne.
    { intros <-. apply Hfresh. apply list_elem_of_fmap. by exists (slot.1, idx). }
    rewrite IH; [|done|done|].
    + destruct (g idx); [done|]. destruct (g slot.2); [|done].
      by rewrite list_lookup_insert_ne.
    + destruct (g slot.2); [by rewrite length_insert | done].
Qed.

Lemma enumerate_lookup_from {A : Type} (l : list A) (k j : nat) (x : A) :
  l !! j = Some x → (k + j, x) ∈ imap (λ i y, (k + i, y)) l.
Proof.
  revert k j. induction l as [|y l IH]; intros k j Hj; [done|].
  rewrite imap_cons. destruct j as [|j]; simpl in Hj.
  - injection Hj as ->. rewrite Nat.add_0_r. left.
  - right. replace (k + S j) with (S k + j) by lia.
    assert (imap ((λ i y, (k + i, y)) ∘ S) l = imap (λ i y, (S k + i, y)) l)
      as ->.
    { apply imap_ext. intros i z _. simpl. f_equal. lia. }
    by apply IH.
Qed.

Lemma enumerate_elem_of {A : Type} (l : list A) (j : nat) (x : A) :
  l !! j = Some x → (j, x) ∈ enumerate l.
Proof. intros H. apply (enumerate_lookup_from l 0 j x H). Qed.

Lemma enumerate_fst_from {A : Type} (l : list A) (k : nat) :
  (imap (λ i y, (k + i, y)) l).*1 = seq k (length l).
Proof.
  revert k. induction l as [|y l IH]; intros k; [done|].
  rewrite imap_cons, fmap_cons. simpl. rewrite Nat.add_0_r. f_equal.
  assert (imap ((λ i y, (k + i, y)) ∘ S) l = imap (λ i y, (S k + i, y)) l)
    as ->.
  { apply imap_ext. intros i z _. simpl. f_equal. lia. }
  apply IH.
Qed.

Lemma enumerate_fst {A : Type} (l : list A) :
  (enumerate l).*1 = seq 0 (length l).
Proof. apply (enumerate_fst_from l 0). Qed.

Section result_facts.
Context (read_h5ad_file : string → option AnnData.t).
Implicit Types (self : DistributedAnnDataCollection.t) (w : World).

Lemma adata_miss_value (shard : LazyAnnData.t) w (a : AnnData.t) w' :
  LazyAnnData.filename shard ∉ LRU.keys (cache w) →
  LazyAnnData.adata read_h5ad_file shard w = (Ok a, w') →
  read_h5ad_file (LazyAnnData.filename shard) = Some a.
Proof.
  intros Hmiss%contains_false%getitem_None.
  rewrite (adata_miss _ _ _ Hmiss). unfold load.
  destruct (read_h5ad_file _) as [adata|]; [|done].
  destruct (decide _); [|done].
  destruct (AnnDataSchema.validate_anndata _ _); [|done].
  by intros [= <- _].
Qed.

(** The first pass fills the slots of the resident shards with what the
    cache holds for them. *)
Lemma first_pass_fills self (slots : list (nat * Z)) :
  ∀ (ads : list (option AnnData.t)) w ads' w',
    for_each slots (DistributedAnnDataCollection.fetch_cached read_h5ad_file self)
      ads w = (Ok ads', w') →
    ads' = fill (cached_content (DistributedAnnDataCollection.adatas self)
                   (cache w)) slots ads
    ∧ (∀ k, LRU.lookup k (LRU.entries (cache w'))
            = LRU.lookup k (LRU.entries (cache w)))
    ∧ Forall (λ slot, is_Some (py_index
                                 (DistributedAnnDataCollection.adatas self)
                                 slot.2)) slots.
Proof.
  induction slots as [|[i idx] slots IH]; intros ads w ads' w' H.
  { by injection H as <- <-. }
  rewrite for_each_cons, fetch_cached_unfold in H.
  rewrite fill_cons. unfold cached_content at 2. cbn [fst snd].
  destruct (py_index _ idx) as [shard|] eqn:Hidx; [|done]. simpl.
  destruct (LRU.contains _ _) eqn:Hc.
  - apply contains_getitem in Hc as (v & c' & Hget).
    rewrite (adata_hit _ _ _ _ _ Hget) in H.
    apply IH in H as (-> & Hlook & Hvalid). simpl in Hlook.
    pose proof (lookup_getitem _ _ _ _ Hget) as Hsame.
    assert (LRU.lookup (LazyAnnData.filename shard) (LRU.entries (cache w))
            = Some v) as ->.
    { unfold LRU.getitem in Hget.
      destruct (LRU.lookup _ _) as [v0|]; [|done]. by injection Hget as ->. }
    split_and!.
    + apply fill_ext. intros slot _. unfold cached_content. simpl.
      destruct (py_index _ slot.2); [|done]. simpl. apply Hsame.
    + intros k. by rewrite Hlook, Hsame.
    + apply Forall_cons. split; [cbn [snd]; by rewrite Hidx|done].
  - apply contains_false, lookup_None_keys in Hc.
    apply IH in H as (-> & Hlook & Hvalid).
    unfold LRU.keys in Hc. rewrite Hc. split_and!; [done|done|].
    apply Forall_cons. split; [cbn [snd]; by rewrite Hidx|done].
Qed.

(** While the request fits the cache and names no file twice, the
    second pass fills the slots of the shards that were not resident with
    what it reads from their files. *)
Lemma second_pass_fills self (slots : list (nat * Z)) (h F : list string) :
  ∀ (ads : list (option AnnData.t)) w ads' w' (T : list string),
    for_each slots (DistributedAnnDataCollection.fetch_new read_h5ad_file self)
      ads w = (Ok ads', w') →
    tracks (h ++ T) (cache w) →
    (∀ x, x ∈ T → x ∈ F) →
    (∀ x, x ∈ requested_files (DistributedAnnDataCollection.adatas self)
                slots.*2 → x ∈ F) →
    fits (LRU.max_size (cache w)) (length F) →
    NoDup (requested_files (DistributedAnnDataCollection.adatas self)
             slots.*2) →
    (∀ f, f ∈ requested_files (DistributedAnnDataCollection.adatas self)
                slots.*2 →
          f ∈ LRU.keys (cache w) → f ∈ T) →
    ads' = fill (file_content read_h5ad_file
                   (DistributedAnnDataCollection.adatas self) (cache w))
             slots ads
    ∧ ∀ slot shard,
        slot ∈ slots →
        py_index (DistributedAnnDataCollection.adatas self) slot.2
        = Some shard →
        LazyAnnData.filename shard ∉ LRU.keys (cache w) →
        is_Some (read_h5ad_file (LazyAnnData.filename shard)).
Proof.
  induction slots as [|[i idx] slots IH];
    intros ads w ads' w' T H Htr HT HF Hfits Hnd Hres.
  { injection H as <- <-. split; [done|]. intros slot shard Hin.
    by apply elem_of_nil in Hin. }
  rewrite for_each_cons, fetch_new_unfold in H.
  rewrite fmap_cons in *; cbn [snd] in *.
  rewrite fill_cons. unfold file_content at 2. cbn [fst snd].
  destruct (py_index _ idx) as [shard|] eqn:Hidx; [|done]. simpl.
  rewrite (requested_files_cons_Some _ _ _ _ Hidx) in *.
  apply NoDup_cons in Hnd as [Hfresh Hnd].
  set (f := LazyAnnData.filename shard) in *.
  destruct (LRU.contains f (cache w)) eqn:Hc.
  - apply contains_true in Hc. rewrite decide_True by done.
    eapply IH in H as (-> & Hread); [|done|done| |done|done|].
    2:{ intros x Hx. apply HF. by right. }
    2:{ intros g Hg. apply Hres. by right. }
    split; [done|].
    intros slot shard' [->|Hin]%elem_of_cons Hs Hmiss; [|by eapply Hread].
    simpl in Hs. rewrite Hidx in Hs. injection Hs as <-. done.
  - apply contains_false in Hc. rewrite decide_False by done.
    destruct (LazyAnnData.adata _ shard w) as [r1 w1] eqn:Ha.
    destruct r1 as [a|]; [|done].
    pose proof (adata_miss_value _ _ _ _ Hc Ha) as Hvalue. fold f in Hvalue.
    rewrite Hvalue.
    apply adata_cases in Ha as [(? & _)|[(_ & _ & Hev)|(_ & (e & [=] & _) & _)]];
      [done|].
    destruct Hev as (_ & _ & Hmax & _ & Htr1 & Hgrow).
    specialize (Htr1 _ Htr). simpl in Htr1. rewrite <- (assoc_L (++)) in Htr1.
    assert (∀ x, x ∈ T ++ [f] → x ∈ F) as HT1.
    { intros x [?|Hx%list_elem_of_singleton]%elem_of_app; [by apply HT|].
      subst x. apply HF. by left. }
    assert (fits (LRU.max_size (cache w1)) (length F)) as Hfits1
      by by rewrite Hmax.
    assert (∀ g, g ∈ requested_files (DistributedAnnDataCollection.adatas self)
                       slots.*2 →
                 g ∈ LRU.keys (cache w1) ↔ g ∈ LRU.keys (cache w)) as Hsame.
    { intros g Hg. split; intros Hin.
      - destruct (Hgrow g Hin) as [?|Hg']; [done|].
        apply list_elem_of_singleton in Hg' as ->. done.
      - eapply tracked_resident; [exact Htr1|done|done|].
        apply elem_of_app. left. apply Hres; [by right|done]. }
    eapply IH in H as (-> & Hread); [|exact Htr1|done| |done|done|].
    2:{ intros x Hx. apply HF. by right. }
    2:{ intros g Hg Hin. apply elem_of_app.
        destruct (Hgrow g Hin) as [?|Hg']; [|by right].
        left. apply Hres; [by right|done]. }
    assert (∀ slot shard',
              slot ∈ slots →
              py_index (DistributedAnnDataCollection.adatas self) slot.2
              = Some shard' →
              LazyAnnData.filename shard'
                ∈ requested_files (DistributedAnnDataCollection.adatas self)
                    slots.*2) as Hfiles.
    { intros slot shard' Hin Hs. unfold requested_files.
      apply list_elem_of_omap. exists slot.2. split.
      - apply list_elem_of_fmap. by exists slot.
      - by rewrite Hs. }
    split.
    + apply fill_ext. intros slot Hin. unfold file_content.
      destruct (py_index _ slot.2) as [shard'|] eqn:Hs; [|done]. simpl.
      pose proof (Hsame _ (Hfiles _ _ Hin Hs)) as Hiff.
      destruct (decide _), (decide _); tauto.
    + intros slot shard' [->|Hin]%elem_of_cons Hs Hmiss.
      * simpl in Hs. rewrite Hidx in Hs. injection Hs as <-. by eexists.
      * eapply Hread; [done|done|].
        by rewrite (Hsame _ (Hfiles _ _ Hin Hs)).
Qed.
End result_facts.

Section result_theorems.
Context (read_h5ad_file : string → option AnnData.t).

(** X9.  What a successful call to [materialize] returns, when the
    request names no more positions than the capacity of the cache and no
    file twice: a list with one entry per requested position, in the
    order of the request, where the entry of a position is the content of
    its shard -- the content the cache held when the call started, for a
    shard that was resident, and the content of its file otherwise. *)
Theorem materialize_returns_contents
    (self : DistributedAnnDataCollection.t)
    (indices : DistributedAnnDataCollection.indices_arg)
    (w : World) (result : list (option AnnData.t)) (w' : World) :
  cache_wf (cache w) →
  fits (LRU.max_size (cache w)) (length (indices_list indices)) →
  NoDup (requested_files (DistributedAnnDataCollection.adatas self)
           (indices_list indices)) →
  DistributedAnnDataCollection.materialize read_h5ad_file self indices w
  = (Ok result, w') →
  length result = length (indices_list indices)
  ∧ ∀ i idx,
      indices_list indices !! i = Some idx →
      ∃ shard content,
        py_index (DistributedAnnDataCollection.adatas self) idx = Some shard
        ∧ result !! i = Some (Some content)
        ∧ if decide (LazyAnnData.filename shard ∈ LRU.keys (cache w))
          then LRU.lookup (LazyAnnData.filename shard) (LRU.entries (cache w))
               = Some content
          else read_h5ad_file (LazyAnnData.filename shard) = Some content.
Proof.
  intros Hwf Hfits Hnd H.
  set (idxs := indices_list indices) in *.
  set (files := requested_files (DistributedAnnDataCollection.adatas self) idxs)
    in *.
  apply materialize_inv in H as [(_ & _ & [[_ [=]]|(m & _ & _ & [=])])
                                |(_ & r1 & w1 & Hp1 & Hp2)].
  fold idxs in Hp1, Hp2.
  destruct r1 as [ads1|e]; [|by destruct Hp2 as [[=] _]].
  pose proof Hp1 as Hp1'.
  apply first_pass_inv in Hp1 as (hits & Hev1 & Hkeys1 & _ & Hfull & _).
  rewrite enumerate_snd in Hfull. fold files in Hfull. specialize (Hfull I).
  apply first_pass_fills in Hp1' as (-> & _ & Hvalid).
  assert (tracks (LRU.keys (cache w) ++ hits) (cache w1)) as Htr.
  { destruct Hev1 as (_ & _ & _ & _ & Htr & _).
    specialize (Htr _ (tracks_keys _ Hwf)). by rewrite touches_hits in Htr. }
  assert (fits (LRU.max_size (cache w1)) (length files)) as Hfits1.
  { destruct Hev1 as (_ & _ & -> & _). intros n Hn. specialize (Hfits n Hn).
    pose proof (length_requested_files
                  (DistributedAnnDataCollection.adatas self) idxs) as Hlen.
    fold files in Hlen. lia. }
  eapply (second_pass_fills _ _ _ (LRU.keys (cache w)) files) in Hp2
    as (-> & Hread); [|exact Htr| | |done| |].
  2:{ intros x. rewrite Hfull. by intros [_ ?]%list_elem_of_filter. }
  2:{ intros x. by rewrite enumerate_snd. }
  2:{ by rewrite enumerate_snd. }
  2:{ rewrite enumerate_snd. intros f Hf Hin. rewrite Hfull.
      apply list_elem_of_filter. split; [by apply Hkeys1 | done]. }
  split.
  { by rewrite !length_fill, length_replicate. }
  intros i idx Hi.
  pose proof (enumerate_elem_of _ _ _ Hi) as Hslot.
  pose proof (lookup_lt_Some _ _ _ Hi) as Hlt.
  assert (NoDup (enumerate idxs).*1) as Hnd1
    by (rewrite enumerate_fst; apply NoDup_seq).
  rewrite Forall_forall in Hvalid.
  destruct (Hvalid _ Hslot) as [shard Hshard]. simpl in Hshard.
  exists shard.
  rewrite (fill_lookup _ _ _ i idx Hnd1 Hslot)
    by (by rewrite length_fill, length_replicate).
  rewrite (fill_lookup _ _ _ i idx Hnd1 Hslot) by (by rewrite length_replicate).
  unfold file_content, cached_content. rewrite Hshard. simpl.
  destruct (decide (LazyAnnData.filename shard ∈ LRU.keys (cache w)))
    as [Hin|Hout].
  - rewrite decide_True by (by apply Hkeys1).
    destruct (LRU.lookup _ (LRU.entries (cache w))) as [v|] eqn:Hv.
    + by exists v.
    + by apply lookup_None_keys in Hv.
  - rewrite decide_False by (by rewrite Hkeys1).
    destruct (Hread _ _ Hslot Hshard) as [a Ha]; [by rewrite Hkeys1|].
    rewrite Ha. by exists a.
Qed.
End result_theorems.

Lemma materialize_returns_contents_witness :
  ∃ shard content,
    py_index (DistributedAnnDataCollection.adatas Demo.collection) 1
    = Some shard
    ∧ [Some (Demo.table 10 "cell_type" 1); Some (Demo.table 10 "cell_type" 0)]
        !! 0 = Some (Some content)
    ∧ if decide (LazyAnnData.filename shard
                   ∈ LRU.keys (cache Demo3.world_full))
      then LRU.lookup (LazyAnnData.filename shard)
             (LRU.entries (cache Demo3.world_full)) = Some content
      else Demo.files (LazyAnnData.filename shard) = Some content.
Proof.
  refine (proj2 (materialize_returns_contents Demo.files Demo.collection
                   (DistributedAnnDataCollection.Seq [1; 0]%Z)
                   Demo3.world_full
                   [Some (Demo.table 10 "cell_type" 1);
                    Some (Demo.table 10 "cell_type" 0)]
                   Demo3.after_query.2 _ _ _ _) 0 1%Z eq_refl).
  - split.
    + apply (bool_decide_unpack _). vm_compute. exact I.
    + intros n Hn. vm_compute in Hn. injection Hn as <-. vm_compute. lia.
  - intros n Hn. vm_compute in Hn. injection Hn as <-. simpl. lia.
  - apply (bool_decide_unpack _). vm_compute. exact I.
  - vm_compute. reflexivity.
Defined.

Section repeated_position.
Context (read_h5ad_file : string → option AnnData.t).

(** X10.  A position named twice.  When the shard at a position is not
    resident and [materialize] is asked for that position twice, the file
    is read once and the call succeeds, but only the first of the two
    slots of the result holds the content: the second pass skips the
    second slot, the shard being resident by then, and leaves [None]
    there. *)
Theorem materialize_repeated_position
    (self : DistributedAnnDataCollection.t) (idx : Z) (w : World)
    (shard : LazyAnnData.t) (content : AnnData.t) :
  (DistributedAnnDataCollection.cache_size_strictly_enforced self = true →
   ∃ m, DistributedAnnDataCollection.max_cache_size self = Some m ∧ 2 ≤ m) →
  LRU.max_size (cache w) ≠ Some 0 →
  py_index (DistributedAnnDataCollection.adatas self) idx = Some shard →
  LazyAnnData.filename shard ∉ LRU.keys (cache w) →
  read_h5ad_file (LazyAnnData.filename shard) = Some content →
  LazyAnnData.n_obs shard = AnnData.n_obs content →
  conforms (LazyAnnData.schema shard) content →
  ∃ w',
    DistributedAnnDataCollection.materialize read_h5ad_file self
      (DistributedAnnDataCollection.Seq [idx; idx]) w
    = (Ok [Some content; None], w')
    ∧ trace w' = trace w ++ [FileRead (LazyAnnData.filename shard);
                             CacheInsert (LazyAnnData.filename shard)].
Proof.
  intros Hguard Hcap Hidx Hmiss Hread Hrows Hconf%validate_anndata_Ok.
  set (f := LazyAnnData.filename shard) in *.
  pose proof Hmiss as Hc%contains_false.
  pose proof Hc as Hget%getitem_None.
  set (w1 := mkWorld (lazy w) (LRU.setitem f content (cache w))
               ((trace w ++ [FileRead f]) ++ [CacheInsert f])).
  assert (LazyAnnData.adata read_h5ad_file shard w = (Ok content, w1)) as Ha.
  { rewrite adata_miss by done. unfold load. fold f.
    by rewrite Hread, decide_True, Hconf by done. }
  assert (LRU.contains f (cache w1) = true) as Hc1.
  { apply contains_true. eapply lookup_Some_keys.
    simpl. by apply lookup_setitem. }
  assert (enumerate [idx; idx] = [(0, idx); (1, idx)]) as Henum by done.
  exists w1. split; [|simpl; by rewrite <- (assoc_L (++))].
  unfold DistributedAnnDataCollection.materialize.
  cbn [indices_list length replicate]. rewrite Henum, bind_unfold.
  assert ((if DistributedAnnDataCollection.cache_size_strictly_enforced self
           then match DistributedAnnDataCollection.max_cache_size self with
                | Some max_size =>
                    assert (2 ≤ max_size) (AssertionError_cache_size 2 max_size)
                | None => raise TypeError
                end
           else mret ()) w = (Ok (), w)) as ->.
  { destruct (DistributedAnnDataCollection.cache_size_strictly_enforced self);
      [|done].
    destruct (Hguard eq_refl) as (m & -> & Hm). unfold assert.
    by rewrite decide_True. }
  rewrite bind_unfold, for_each_cons.
  rewrite fetch_cached_unfold, Hidx. fold f. rewrite Hc.
  rewrite for_each_cons, fetch_cached_unfold, Hidx. fold f. rewrite Hc.
  rewrite for_each_nil, bind_unfold, for_each_cons.
  rewrite fetch_new_unfold, Hidx. fold f. rewrite Hc, Ha.
  rewrite for_each_cons, fetch_new_unfold, Hidx. fold f. rewrite Hc1.
  by rewrite for_each_nil.
Qed.
End repeated_position.

Lemma materialize_repeated_position_witness :
  ∃ w',
    DistributedAnnDataCollection.materialize Demo.files Demo.collection
      (DistributedAnnDataCollection.Seq [1; 1]%Z) Demo.world
    = (Ok [Some (Demo.table 10 "cell_type" 1); None], w')
    ∧ trace w' = trace Demo.world ++ [FileRead "s1"; CacheInsert "s1"].
Proof.
  apply (materialize_repeated_position Demo.files Demo.collection 1%Z
           Demo.world (Demo.shard 1) (Demo.table 10 "cell_type" 1)).
  - intros _. exists 2. split; [reflexivity | lia].
  - discriminate.
  - reflexivity.
  - vm_compute. intros Hx%list_elem_of_singleton. discriminate.
  - reflexivity.
  - reflexivity.
  - apply validate_anndata_Ok. vm_compute. reflexivity.
Defined.

(** ** Row labels *)

Lemma cell_name_inj : Inj (=) (=) LazyAnnData.cell_name.
Proof.
  intros i j H. unfold LazyAnnData.cell_name in H. cbn in H.
  injection H as H. by apply (inj pretty).
Qed.

(** X11.  The row labels of a shard are [cell_i] for the positions [i] of
    its range, in order and without repetition; there are as many as the
    shard has rows, and none when the range is empty or reversed. *)
Theorem obs_names_of_range (self : LazyAnnData.t) :
  length (LazyAnnData.obs_names self) = Z.to_nat (LazyAnnData.n_obs self)
  ∧ (∀ j : nat,
       (Z.of_nat j < LazyAnnData.n_obs self)%Z →
       LazyAnnData.obs_names self !! j
       = Some (LazyAnnData.cell_name ((LazyAnnData.limits self).1 + Z.of_nat j)))
  ∧ NoDup (LazyAnnData.obs_names self)
  ∧ ((LazyAnnData.limits self).2 ≤ (LazyAnnData.limits self).1 →
     LazyAnnData.obs_names self = [])%Z.
Proof.
  unfold LazyAnnData.obs_names, LazyAnnData.n_obs. split_and!.
  - by rewrite length_fmap, length_seqZ.
  - intros j Hj. by rewrite list_lookup_fmap, lookup_seqZ_lt.
  - apply (NoDup_fmap_2 _), NoDup_seqZ.
  - intros Hle. by rewrite seqZ_nil by lia.
Qed.

Lemma seqZ_split (a b c : Z) :
  (a ≤ b)%Z → (b ≤ c)%Z →
  seqZ a (b - a) ++ seqZ b (c - b) = seqZ a (c - a).
Proof.
  intros Hab Hbc.
  replace (c - a)%Z with ((b - a) + (c - b))%Z by lia.
  rewrite seqZ_app by lia. do 2 f_equal. lia.
Qed.

(** Shards cut at ascending boundaries have the labels of all rows from
    the first boundary to the last, in order. *)
Lemma obs_names_lazy_adatas (L : list Z) (fns : list string)
    (s : AnnDataSchema.t) (start : Z) :
  length L ≤ length fns →
  (∀ shard,
     shard ∈ zip_with (λ range filename, LazyAnnData.mk filename range s)
               (zip (start :: L) L) fns →
     0 ≤ LazyAnnData.n_obs shard)%Z →
  (start ≤ default start (last L))%Z
  ∧ zip_with (λ range filename, LazyAnnData.mk filename range s)
      (zip (start :: L) L) fns ≫= LazyAnnData.obs_names
    = LazyAnnData.cell_name <$> seqZ start (default start (last L) - start).
Proof.
  revert fns start. induction L as [|x L IH]; intros fns start Hlen Hpos.
  { simpl. split; [lia|]. by rewrite Z.sub_diag. }
  destruct fns as [|f fns]; simpl in Hlen; [lia|].
  set (g := λ range filename, LazyAnnData.mk filename range s) in *.
  assert (zip_with g (zip (start :: x :: L) (x :: L)) (f :: fns)
          = g (start, x) f :: zip_with g (zip (x :: L) L) fns) as Hcons by done.
  rewrite Hcons in *.
  assert (0 ≤ x - start)%Z as Hhead by (apply (Hpos (g (start, x) f)); left).
  destruct (IH fns x) as [Hle Hrest]; [lia| |].
  { intros shard Hin. apply Hpos. by right. }
  assert (default start (last (x :: L)) = default x (last L)) as ->.
  { rewrite last_cons. by destruct (last L). }
  split; [lia|].
  rewrite bind_cons, Hrest. unfold LazyAnnData.obs_names at 1.
  unfold g at 1 2 3. cbn [LazyAnnData.limits fst snd].
  rewrite <- fmap_app. f_equal. apply seqZ_split; lia.
Qed.

Section names_extras.
Context (read_h5ad_file : string → option AnnData.t).
Context (braceexpand : string → list string).

(** X12.  In a collection that has been built and has no shard with a
    negative row count, the row labels of the shards, taken in the order
    of the shards, are [cell_0], [cell_1], ... up to the last boundary:
    every row of the table has its own label, and the labels follow the
    global positions. *)
Theorem init_obs_names_cover_rows
    (args : DistributedAnnDataCollection.init_args) (w0 : World)
    (self : DistributedAnnDataCollection.t) (w1 : World) :
  DistributedAnnDataCollection.__init__ read_h5ad_file braceexpand args w0
  = (Ok self, w1) →
  (∀ shard, shard ∈ DistributedAnnDataCollection.adatas self →
            0 ≤ LazyAnnData.n_obs shard)%Z →
  DistributedAnnDataCollection.adatas self ≫= LazyAnnData.obs_names
  = LazyAnnData.cell_name
      <$> seqZ 0 (default 0%Z (last (DistributedAnnDataCollection.limits self)))
  ∧ NoDup (DistributedAnnDataCollection.adatas self ≫= LazyAnnData.obs_names).
Proof.
  intros Hinit. apply init_inv in Hinit.
  destruct Hinit as [(_ & [=] & _)|[(_ & _ & [=] & _)|[(_ & _ & _ & [=] & _)
                    |(_ & _ & _ & [(e & t & [=] & _)|(c & [= <-] & Hc)])]]].
  destruct Hc as (f0 & adata0 & L & _ & _ & _ & Hlen & Hself & _).
  rewrite Hself; simpl. intros Hpos.
  unfold DistributedAnnDataCollection.lazy_adatas in *.
  rewrite running_totals_lazy_adatas by lia.
  assert (length L ≤ length (expanded_filenames braceexpand args)) as Hle
    by lia.
  destruct (obs_names_lazy_adatas L _ _ 0%Z Hle Hpos) as [_ Hnames].
  rewrite Z.sub_0_r in Hnames. rewrite Hnames. split; [done|].
  apply (NoDup_fmap_2 _), NoDup_seqZ.
Qed.
End names_extras.

Lemma init_obs_names_cover_rows_witness :
  length (DistributedAnnDataCollection.adatas Demo.collection
            ≫= LazyAnnData.obs_names) = 50
  ∧ NoDup (DistributedAnnDataCollection.adatas Demo.collection
             ≫= LazyAnnData.obs_names).
Proof.
  destruct (init_obs_names_cover_rows Demo.files Demo.braceexpand Demo.args
              Demo.fresh Demo.collection Demo.world) as [Hnames Hnd].
  - vm_compute. reflexivity.
  - intros shard Hin. apply list_elem_of_lookup in Hin as [i Hi].
    do 5 (destruct i as [|i]; [injection Hi as <-; vm_compute; discriminate|]).
    done.
  - split; [|exact Hnd]. rewrite Hnames, length_fmap, length_seqZ. reflexivity.
Defined.

(** ** Queries *)

Lemma filter_enumerate_snd_from {A : Type} (P : A → Prop)
    (Q : nat * A → Prop) `{!∀ x, Decision (P x)} `{!∀ slot, Decision (Q slot)}
    (l : list A) (g : nat → nat) :
  (∀ slot, Q slot ↔ P slot.2) →
  (filter Q (imap (λ i x, (g i, x)) l)).*2 = filter P l.
Proof.
  intros HQ. revert g. induction l as [|x l IH]; intros g; [done|].
  rewrite imap_cons, !filter_cons.
  pose proof (HQ (g 0, x)) as Hx. cbn [snd] in Hx.
  destruct (decide (Q (g 0, x))), (decide (P x)); try tauto.
  - rewrite fmap_cons. cbn [snd]. f_equal. apply (IH (g ∘ S)).
  - apply (IH (g ∘ S)).
Qed.

Lemma length_filter_enumerate {A : Type} (P : A → Prop)
    (Q : nat * A → Prop) `{!∀ x, Decision (P x)} `{!∀ slot, Decision (Q slot)}
    (l : list A) :
  (∀ slot, Q slot ↔ P slot.2) →
  length (filter Q (enumerate l)) = length (filter P l).
Proof.
  intros HQ. rewrite <- (filter_enumerate_snd_from P Q l id HQ).
  by rewrite length_fmap.
Qed.

Lemma py_index_of_nat {A : Type} (l : list A) (p : nat) :
  py_index l (Z.of_nat p) = l !! p.
Proof. unfold py_index. rewrite decide_True by lia. by rewrite Nat2Z.id. Qed.

Lemma file_reads_hits (hits : list string) : file_reads (CacheHit <$> hits) = [].
Proof. induction hits as [|k hits IH]; [done|]. apply IH. Qed.

Lemma load_error_not_IndexError : ¬ load_error IndexError.
Proof. intros [[f [=]]|[(? & ? & [=])|(? & ? & ? & [=])]]. Qed.

Section query_facts.
Context (read_h5ad_file : string → option AnnData.t).
Implicit Types (self : DistributedAnnDataCollection.t) (w : World).

Lemma first_pass_in_range self (slots : list (nat * Z)) :
  Forall (λ slot : nat * Z,
            is_Some (py_index (DistributedAnnDataCollection.adatas self) slot.2))
    slots →
  ∀ (ads : list (option AnnData.t)) w r w',
    for_each slots (DistributedAnnDataCollection.fetch_cached read_h5ad_file self)
      ads w = (r, w') →
    r ≠ Raise IndexError.
Proof.
  induction 1 as [|[i idx] slots [shard Hs] _ IH]; intros ads w r w' H.
  { by injection H as <- <-. }
  rewrite for_each_cons, fetch_cached_unfold in H. cbn [snd] in Hs.
  rewrite Hs in H.
  destruct (LRU.contains _ _) eqn:Hc; [|by eapply IH].
  destruct (LazyAnnData.adata _ shard w) as [[a|e] w1] eqn:Ha; [by eapply IH|].
  injection H as <- <-.
  apply adata_cases in Ha
    as [(_ & [] & _)|[(_ & [] & _)|(_ & (e' & [= ->] & He) & _)]].
  intros [= ->]. by apply load_error_not_IndexError.
Qed.

Lemma second_pass_in_range self (slots : list (nat * Z)) :
  Forall (λ slot : nat * Z,
            is_Some (py_index (DistributedAnnDataCollection.adatas self) slot.2))
    slots →
  ∀ (ads : list (option AnnData.t)) w r w',
    for_each slots (DistributedAnnDataCollection.fetch_new read_h5ad_file self)
      ads w = (r, w') →
    r ≠ Raise IndexError.
Proof.
  induction 1 as [|[i idx] slots [shard Hs] _ IH]; intros ads w r w' H.
  { by injection H as <- <-. }
  rewrite for_each_cons, fetch_new_unfold in H. cbn [snd] in Hs.
  rewrite Hs in H.
  destruct (LRU.contains _ _) eqn:Hc; [by eapply IH|].
  destruct (LazyAnnData.adata _ shard w) as [[a|e] w1] eqn:Ha; [by eapply IH|].
  injection H as <- <-.
  apply adata_cases in Ha
    as [(_ & [] & _)|[(_ & [] & _)|(_ & (e' & [= ->] & He) & _)]].
  intros [= ->]. by apply load_error_not_IndexError.
Qed.

(** Past its guard, a call to [materialize] whose positions are all in
    range reads only requested files and fails only where a load fails. *)
Lemma materialize_in_range self (indices : DistributedAnnDataCollection.indices_arg)
    w (r : outcome (list (option AnnData.t))) w' :
  Forall (λ idx, is_Some (py_index (DistributedAnnDataCollection.adatas self) idx))
    (indices_list indices) →
  DistributedAnnDataCollection.materialize read_h5ad_file self indices w
  = (r, w') →
  (∃ t, trace w' = trace w ++ t
        ∧ ∀ f, f ∈ file_reads t →
               f ∈ requested_files (DistributedAnnDataCollection.adatas self)
                     (indices_list indices))
  ∧ ∀ e, r = Raise e →
         (DistributedAnnDataCollection.cache_size_strictly_enforced self = true
          ∧ w' = w
          ∧ ((DistributedAnnDataCollection.max_cache_size self = None
              ∧ e = TypeError)
             ∨ ∃ m, DistributedAnnDataCollection.max_cache_size self = Some m
                    ∧ m < length (indices_list indices)
                    ∧ e = AssertionError_cache_size
                            (length (indices_list indices)) m))
         ∨ ((DistributedAnnDataCollection.cache_size_strictly_enforced self = true →
             ∃ m, DistributedAnnDataCollection.max_cache_size self = Some m
                  ∧ length (indices_list indices) ≤ m)
            ∧ load_error e).
Proof.
  intros Hvalid H.
  assert (Forall (λ slot : nat * Z,
            is_Some (py_index (DistributedAnnDataCollection.adatas self) slot.2))
            (enumerate (indices_list indices))) as Hslots.
  { apply Forall_forall. intros [i idx] Hin. cbn [snd].
    rewrite Forall_forall in Hvalid. apply Hvalid.
    rewrite <- (enumerate_snd (indices_list indices)).
    apply list_elem_of_fmap. by exists (i, idx). }
  apply materialize_inv in H as [(Hs & -> & Hr)|(Hs & r1 & w1 & Hp1 & Hp2)].
  { split.
    - exists []. rewrite app_nil_r. split; [done|]. by intros f ?%elem_of_nil.
    - intros e ->. left. split_and!; [done|done|].
      destruct Hr as [[Hm [= ->]]|(m & Hm & Hlt & [= ->])]; [by left|].
      right. by exists m. }
  pose proof (first_pass_in_range _ _ Hslots _ _ _ _ Hp1) as Hno1.
  apply first_pass_inv in Hp1 as (hits & Hev1 & _ & _ & _ & Herr1).
  destruct r1 as [ads1|e1].
  2:{ by specialize (Herr1 e1 eq_refl) as ->. }
  pose proof (second_pass_in_range _ _ Hslots _ _ _ _ Hp2) as Hno2.
  apply second_pass_inv in Hp2 as (t & Hev2 & _ & Hsub & _ & _ & Herr2).
  rewrite enumerate_snd in Hsub.
  destruct Hev2 as (Ht2 & _), Hev1 as (Ht1 & _).
  split.
  - exists ((CacheHit <$> hits) ++ t).
    split; [by rewrite Ht2, Ht1, (assoc_L (++))|].
    intros f. rewrite file_reads_app, file_reads_hits, app_nil_l. intros Hf.
    eapply elem_of_sublist; [exact Hf|exact Hsub].
  - intros e ->. right. split; [done|].
    destruct (Herr2 e eq_refl) as [->|He]; [done|exact He].
Qed.
(** A second pass that succeeds has put every requested file that was
    not resident through the cache. *)
Lemma second_pass_touches self (slots : list (nat * Z)) :
  ∀ (ads : list (option AnnData.t)) w (ads' : list (option AnnData.t)) w',
    for_each slots (DistributedAnnDataCollection.fetch_new read_h5ad_file self)
      ads w = (Ok ads', w') →
    ∃ t, trace w' = trace w ++ t
         ∧ ∀ f, f ∈ requested_files (DistributedAnnDataCollection.adatas self)
                      slots.*2 →
                f ∈ LRU.keys (cache w) ∨ f ∈ touches t.
Proof.
  induction slots as [|[i idx] slots IH]; intros ads w ads' w' H.
  { injection H as <- <-. exists []. rewrite app_nil_r. split; [done|].
    by intros f ?%elem_of_nil. }
  rewrite for_each_cons, fetch_new_unfold in H.
  rewrite fmap_cons; cbn [snd].
  destruct (py_index _ idx) as [shard|] eqn:Hidx; [|done].
  rewrite (requested_files_cons_Some _ _ _ _ Hidx).
  set (f := LazyAnnData.filename shard) in *.
  destruct (LRU.contains f (cache w)) eqn:Hc.
  - apply contains_true in Hc. apply IH in H as (t & Ht & Hreq).
    exists t. split; [done|].
    intros g [->|Hg]%elem_of_cons; [by left|by apply Hreq].
  - apply contains_false in Hc.
    destruct (LazyAnnData.adata _ shard w) as [r1 w1] eqn:Ha.
    apply adata_cases in Ha
      as [(? & _)|[(_ & Hok & Hev)|(_ & (e & -> & He) & ->)]]; [done| |done].
    destruct r1 as [a|]; [|done].
    apply IH in H as (t & Ht & Hreq).
    destruct Hev as (Ht1 & _ & _ & _ & _ & Hgrow).
    exists ([FileRead f; CacheInsert f] ++ t).
    split; [by rewrite Ht, Ht1, (assoc_L (++))|].
    intros g Hg. rewrite touches_app, elem_of_app.
    apply elem_of_cons in Hg as [->|Hg].
    + right. left. by apply list_elem_of_singleton.
    + destruct (Hreq g Hg) as [Hin|Hin]; [|by right; right].
      destruct (Hgrow g Hin) as [?|Hg']; [by left|]. right. by left.
Qed.

(** A call to [materialize] that succeeds has put every requested file
    through the cache, and nothing else: the resident ones by a hit, the
    others by reading them. *)
Lemma materialize_fetches self (indices : DistributedAnnDataCollection.indices_arg)
    w (ads : list (option AnnData.t)) w' :
  DistributedAnnDataCollection.materialize read_h5ad_file self indices w
  = (Ok ads, w') →
  ∃ t, evolves t w w'
       ∧ (∀ f, f ∈ touches t →
               f ∈ requested_files (DistributedAnnDataCollection.adatas self)
                     (indices_list indices))
       ∧ (∀ f, f ∈ requested_files (DistributedAnnDataCollection.adatas self)
                     (indices_list indices) →
               f ∈ touches t
               ∧ (f ∉ LRU.keys (cache w) → f ∈ file_reads t)).
Proof.
  intros H.
  apply materialize_inv in H as [(_ & _ & [[_ [=]]|(m & _ & _ & [=])])
                                |(_ & r1 & w1 & Hp1 & Hp2)].
  apply first_pass_inv in Hp1 as (hits & Hev1 & Hkeys1 & _ & Hfull & _).
  destruct r1 as [ads1|e1]; [|by destruct Hp2 as [[=] _]].
  specialize (Hfull I). rewrite enumerate_snd in Hfull.
  pose proof (second_pass_touches _ _ _ _ _ _ Hp2) as (t2' & Ht2' & Hreq).
  apply second_pass_inv in Hp2 as (t2 & Hev2 & _ & _ & Htouch & Hcover & _).
  rewrite enumerate_snd in Hreq, Htouch, Hcover.
  assert (t2' = t2) as ->.
  { destruct Hev2 as (Ht2 & _). rewrite Ht2 in Ht2'.
    by apply (inj (app (trace w1))) in Ht2'. }
  exists ((CacheHit <$> hits) ++ t2).
  split; [by eapply evolves_trans|]. split.
  - intros f. rewrite touches_app, touches_hits, elem_of_app.
    intros [Hf|Hf]; [|by apply Htouch].
    rewrite Hfull in Hf. by apply list_elem_of_filter in Hf as [_ ?].
  - intros f Hf. rewrite touches_app, touches_hits, elem_of_app.
    rewrite file_reads_app, file_reads_hits, app_nil_l.
    destruct (decide (f ∈ LRU.keys (cache w))) as [Hin|Hout].
    + split; [|done]. left. rewrite Hfull. by apply list_elem_of_filter.
    + assert (f ∉ LRU.keys (cache w1)) as Hout1 by (by rewrite Hkeys1).
      split; [|intros _; by apply (Hcover I)].
      destruct (Hreq f Hf) as [?|?]; [done|by right].
Qed.
End query_facts.

Section query_theorems.
Context (read_h5ad_file : string → option AnnData.t).
Context {Index Names Oidx Vidx Resolved I View : Type}.
Context (obs_names var_names : DistributedAnnDataCollection.t → Names).
Context (_normalize_indices : Index → Names → Names → outcome (Oidx * Vidx)).
Context (_resolve_idx :
           DistributedAnnDataCollection.t → Oidx → Vidx → outcome Resolved).
Context (resolved_idx_0 : Resolved → list (option I)).
Context (AnnCollectionView : DistributedAnnDataCollection.t → Resolved → View).

(** X13.  A query on a collection.  When the index cannot be normalized
    or resolved, the query fails with that error and nothing is fetched.
    Otherwise, with one entry per member in the resolved index ([None]
    for a member the query does not touch): every file read during the
    query is the file of a member the query touches; with strict
    enforcement and capacity [m], a query that touches more than [m]
    members fails with the cache-size assertion and changes nothing; a
    failure past the resolution is one of the guard of [materialize] or
    of the load of a touched member, never an index out of range; and
    when the query succeeds it returns the view, every touched member has
    been fetched through the cache -- read from its file when it was not
    resident -- and, when the cache is well formed and the touched
    members fit its capacity, every touched member is resident
    afterwards. *)
Theorem getitem_loads_touched_members
    (self : DistributedAnnDataCollection.t) (index : Index)
    (w : World) (r : outcome View) (w' : World) :
  DistributedAnnDataCollection.__getitem__ read_h5ad_file obs_names var_names
    _normalize_indices _resolve_idx resolved_idx_0 AnnCollectionView
    self index w = (r, w') →
  match _normalize_indices index (obs_names self) (var_names self) with
  | Raise e => r = Raise e ∧ w' = w
  | Ok normalized =>
      match _resolve_idx self normalized.1 normalized.2 with
      | Raise e => r = Raise e ∧ w' = w
      | Ok resolved =>
          length (resolved_idx_0 resolved)
          ≤ length (DistributedAnnDataCollection.adatas self) →
          ∃ t,
            trace w' = trace w ++ t
            ∧ (∀ f, f ∈ file_reads t →
                 ∃ p e shard,
                   resolved_idx_0 resolved !! p = Some (Some e)
                   ∧ DistributedAnnDataCollection.adatas self !! p = Some shard
                   ∧ LazyAnnData.filename shard = f)
            ∧ (∀ m,
                 DistributedAnnDataCollection.cache_size_strictly_enforced self
                 = true →
                 DistributedAnnDataCollection.max_cache_size self = Some m →
                 m < length (filter (λ e, e ≠ None) (resolved_idx_0 resolved)) →
                 r = Raise (AssertionError_cache_size
                              (length (filter (λ e, e ≠ None)
                                         (resolved_idx_0 resolved))) m)
                 ∧ w' = w)
            ∧ (∀ e, r = Raise e →
                 (DistributedAnnDataCollection.cache_size_strictly_enforced self
                  = true
                  ∧ (e = TypeError ∨ CacheCapacityError e))
                 ∨ load_error e)
            ∧ (is_Ok r →
               r = Ok (AnnCollectionView self resolved)
               ∧ ∀ p e shard,
                   resolved_idx_0 resolved !! p = Some (Some e) →
                   DistributedAnnDataCollection.adatas self !! p = Some shard →
                   LazyAnnData.filename shard ∈ touches t
                   ∧ (LazyAnnData.filename shard ∉ LRU.keys (cache w) →
                      LazyAnnData.filename shard ∈ file_reads t)
                   ∧ (cache_wf (cache w) →
                      fits (LRU.max_size (cache w))
                        (length (filter (λ e, e ≠ None)
                                   (resolved_idx_0 resolved))) →
                      LazyAnnData.filename shard ∈ LRU.keys (cache w')))
      end
  end.
Proof.
  intros H. unfold DistributedAnnDataCollection.__getitem__ in H.
  rewrite bind_unfold in H. unfold lift at 1 in H.
  destruct (_normalize_indices _ _ _) as [normalized|e0];
    [|by injection H as <- <-].
  rewrite bind_unfold in H. unfold lift at 1 in H.
  destruct (_resolve_idx _ _ _) as [resolved|e0]; [|by injection H as <- <-].
  intros Hlen.
  set (idxs := (λ slot : nat * option I, Z.of_nat slot.1)
                 <$> filter (λ slot, slot.2 ≠ None)
                       (enumerate (resolved_idx_0 resolved))) in H.
  assert (length idxs
          = length (filter (λ e, e ≠ None) (resolved_idx_0 resolved)))
    as Hcount.
  { unfold idxs. rewrite length_fmap. by apply length_filter_enumerate. }
  assert (∀ idx, idx ∈ idxs ↔
            ∃ p e, idx = Z.of_nat p
                   ∧ resolved_idx_0 resolved !! p = Some (Some e)) as Hidxs.
  { intros idx. unfold idxs. rewrite list_elem_of_fmap. split.
    - intros [[p o] [-> [Hne Hin]%list_elem_of_filter]].
      apply elem_of_lookup_imap in Hin as (i & y & [= -> ->] & Hl).
      cbn [snd] in Hne. destruct y as [e|]; [|done]. by exists i, e.
    - intros (p & e & -> & Hp). exists (p, Some e). split; [done|].
      apply list_elem_of_filter. split; [done|]. by apply enumerate_elem_of. }
  assert (Forall (λ idx, is_Some (py_index
                   (DistributedAnnDataCollection.adatas self) idx)) idxs)
    as Hvalid.
  { apply Forall_forall. intros idx (p & e & -> & Hp)%Hidxs.
    rewrite py_index_of_nat. apply lookup_lt_is_Some.
    apply lookup_lt_Some in Hp. lia. }
  assert (∀ f, f ∈ requested_files (DistributedAnnDataCollection.adatas self)
                     idxs ↔
               ∃ p e shard,
                 resolved_idx_0 resolved !! p = Some (Some e)
                 ∧ DistributedAnnDataCollection.adatas self !! p = Some shard
                 ∧ LazyAnnData.filename shard = f) as Hfiles.
  { intros f. unfold requested_files. rewrite list_elem_of_omap. split.
    - intros (idx & (p & e & -> & Hp)%Hidxs & Hshard).
      rewrite py_index_of_nat in Hshard.
      destruct (DistributedAnnDataCollection.adatas self !! p) as [shard|]
        eqn:Hs; [|done].
      injection Hshard as <-. by exists p, e, shard.
    - intros (p & e & shard & Hp & Hs & <-). exists (Z.of_nat p).
      split; [apply Hidxs; by exists p, e|].
      by rewrite py_index_of_nat, Hs. }
  rewrite bind_unfold in H.
  destruct (DistributedAnnDataCollection.materialize _ _ _ w) as [r0 w0] eqn:Hm.
  pose proof (materialize_in_range read_h5ad_file self
                (DistributedAnnDataCollection.Seq idxs) w r0 w0 Hvalid Hm)
    as [(t & Ht & Hreads) Herr].
  cbn [indices_list] in Hreads, Herr.
  assert (w' = w0 ∧ (∀ e, r = Raise e → r0 = Raise e)
          ∧ (is_Ok r → r = Ok (AnnCollectionView self resolved) ∧ is_Ok r0))
    as (-> & Hr & Hok).
  { destruct r0 as [ads|e0]; injection H as <- <-; (split; [done|]).
    - split; [intros e [=]|done].
    - split; [by intros e [= ->]|intros []]. }
  exists t. split_and!.
  - done.
  - intros f Hf. by apply Hfiles, Hreads.
  - intros m Hs Hmax Hlt. rewrite <- Hcount in *.
    apply materialize_inv in Hm
      as [(_ & Hw & [[Hn _]|(m' & Hm' & _ & Hr0)])|(Hfit & _)].
    + congruence.
    + assert (m' = m) as -> by congruence. cbn [indices_list] in Hr0.
      subst r0. by injection H as <-.
    + destruct (Hfit Hs) as (m' & Hm' & Hle). cbn [indices_list] in Hle.
      assert (m' = m) as -> by congruence. lia.
  - intros e He. apply Hr, Herr in He
      as [(Hs & _ & [[_ ->]|(m & _ & _ & ->)])|[_ He]].
    + left. split; [done|by left].
    + left. split; [done|]. right. by eexists _, _.
    + by right.
  - intros Hisok. destruct (Hok Hisok) as [-> Hok0]. split; [done|].
    destruct r0 as [ads|]; [|done].
    apply materialize_fetches in Hm as (t' & Hev & Htouched & Hfetched).
    cbn [indices_list] in Htouched, Hfetched.
    assert (t' = t) as ->.
    { destruct Hev as (Ht' & _). rewrite Ht in Ht'.
      by apply (inj (app (trace w))) in Ht'. }
    intros p e shard Hp Hs.
    assert (LazyAnnData.filename shard
            ∈ requested_files (DistributedAnnDataCollection.adatas self) idxs)
      as Hreq by (apply Hfiles; by exists p, e, shard).
    destruct (Hfetched _ Hreq) as [Hin Hread]. split_and!; [done|done|].
    intros Hwf Hfits.
    destruct Hev as (_ & _ & Hmax & _ & Htracks & _).
    eapply (tracked_resident _ (LRU.keys (cache w)) (touches t)
              (recency (touches t))).
    + apply Htracks. by apply tracks_keys.
    + intros x Hx. by apply (elem_of_recency x (touches t)).
    + rewrite Hmax. intros n Hn. specialize (Hfits n Hn).
      etrans; [|exact Hfits]. rewrite <- Hcount.
      etrans; [|apply (length_requested_files
                         (DistributedAnnDataCollection.adatas self))].
      apply submseteq_length, NoDup_submseteq; [apply NoDup_recency|].
      intros x Hx. by apply Htouched, (elem_of_recency x (touches t)).
    + done.
Qed.
End query_theorems.

Lemma getitem_loads_touched_members_witness :
  "s2"%string
  ∈ LRU.keys (cache (Demo4.query [None; Some (); Some (); None; None]
                       Demo.world).2).
Proof.
  pose proof (getitem_loads_touched_members Demo.files
                (λ _, ()) (λ _, ()) (λ index _ _, Ok (index, ()))
                (λ _ oidx _, Ok oidx) (λ resolved, resolved)
                (λ _ resolved, resolved)
                Demo.collection [None; Some (); Some (); None; None]
                Demo.world _ _ (surjective_pairing _)) as H.
  hnf in H.
  destruct (H ltac:(vm_compute; lia)) as (t & _ & _ & _ & _ & Hok).
  destruct (Hok ltac:(vm_compute; exact I)) as [_ Hres].
  destruct (Hres 2 () (Demo.shard 2) eq_refl eq_refl) as (_ & _ & Hin).
  apply Hin.
  - split.
    + apply (bool_decide_unpack _). vm_compute. exact I.
    + intros n Hn. vm_compute in Hn. injection Hn as <-. vm_compute. lia.
  - intros n Hn. vm_compute in Hn. injection Hn as <-. vm_compute. lia.
Defined.

(** ** The training plan *)

Section plan_theorems.
Context {Value Loss Optim : Type}.
Context (lr_default : Value) (Trace_ELBO_loss : Loss) (Adam : Optim).

(** X14.  Given a dict, the constructor keeps that very dict as the
    keyword arguments of the plan and completes it in place: afterwards
    the caller's dict has a learning rate, which is the caller's own when
    there was one and the default otherwise; its other keys, and every
    other dict, are as before. *)
Theorem init_completes_given_dict
    (arg_loss_fn : option Loss) (arg_optim : option Optim) (id : nat)
    (h : PyroTrainingPlan.heap) (d : PyroTrainingPlan.dict) :
  h !! id = Some d →
  ∃ self h' d',
    PyroTrainingPlan.__init__ lr_default Trace_ELBO_loss Adam
      arg_loss_fn arg_optim (PyroTrainingPlan.Dict id) h = Some (self, h')
    ∧ PyroTrainingPlan.optim_kwargs self = id
    ∧ h' !! id = Some d'
    ∧ d' !! "lr"%string = Some (default lr_default (d !! "lr"%string))
    ∧ (∀ key, key ≠ "lr"%string → d' !! key = d !! key)
    ∧ (∀ id', id' ≠ id → h' !! id' = h !! id').
Proof.
  intros Hd. unfold PyroTrainingPlan.__init__, PyroTrainingPlan.update.
  cbv beta iota zeta. unfold PyroTrainingPlan.heap, PyroTrainingPlan.dict in *.
  rewrite Hd. cbn [mbind option_bind].
  destruct (decide ("lr"%string ∉ dom d)) as [Hno|Hyes].
  - eexists _, _, (<["lr"%string := lr_default]> d). split; [done|].
    cbn [PyroTrainingPlan.optim_kwargs].
    apply (not_elem_of_dom (M:=gmap string)) in Hno.
    split_and!; [done|by rewrite lookup_insert_eq| | |].
    + by rewrite lookup_insert_eq, Hno.
    + intros key Hkey. by rewrite lookup_insert_ne.
    + intros id' Hid. by rewrite lookup_insert_ne.
  - eexists _, _, d. split; [done|]. cbn [PyroTrainingPlan.optim_kwargs].
    apply dec_stable, (elem_of_dom (M:=gmap string)) in Hyes as [v Hv].
    split_and!; [done|done| |done|done]. by rewrite Hv.
Qed.

(** X15.  Given anything but a dict ([None], the default, included), the
    constructor makes a dict of its own, which holds the default learning
    rate and nothing else; no dict that existed before is touched. *)
Theorem init_makes_own_dict
    (arg_loss_fn : option Loss) (arg_optim : option Optim)
    (h : PyroTrainingPlan.heap) :
  ∃ self h',
    PyroTrainingPlan.__init__ lr_default Trace_ELBO_loss Adam
      arg_loss_fn arg_optim PyroTrainingPlan.NotADict h = Some (self, h')
    ∧ h !! PyroTrainingPlan.optim_kwargs self = None
    ∧ h' !! PyroTrainingPlan.optim_kwargs self
      = Some {[ "lr"%string := lr_default ]}
    ∧ (∀ id, is_Some (h !! id) → h' !! id = h !! id).
Proof.
  unfold PyroTrainingPlan.__init__, PyroTrainingPlan.new_dict,
    PyroTrainingPlan.update.
  cbv beta iota zeta. unfold PyroTrainingPlan.heap, PyroTrainingPlan.dict in *.
  set (id := fresh (dom h)).
  assert (h !! id = None) as Hfresh by (apply (not_elem_of_dom (M:=gmap nat)), is_fresh).
  assert (<[id := (∅ : gmap string Value)]> h !! id = Some ∅) as Hnew
    by apply lookup_insert_eq.
  rewrite !Hnew. cbn [mbind option_bind].
  rewrite decide_True by (rewrite dom_empty_L; apply not_elem_of_empty).
  eexists _, _. split; [done|]. cbn [PyroTrainingPlan.optim_kwargs].
  split_and!; [done| |].
  - rewrite lookup_insert_eq. by rewrite insert_empty.
  - intros id' [d' Hd']. rewrite !lookup_insert_ne; [done|congruence..].
Qed.

(** X16.  The optimizer of a plan is always configured with a learning
    rate: once the constructor has returned, [configure_optimizers] calls
    the optimizer class that was given, or [Adam] if none was, with
    keyword arguments among which is [lr]; the loss is the one given, or
    the default one. *)
Theorem configure_optimizers_has_lr
    (arg_loss_fn : option Loss) (arg_optim : option Optim)
    (arg_optim_kwargs : PyroTrainingPlan.kwargs_arg)
    (h : PyroTrainingPlan.heap) (self : PyroTrainingPlan.t)
    (h' : PyroTrainingPlan.heap) :
  PyroTrainingPlan.__init__ lr_default Trace_ELBO_loss Adam
    arg_loss_fn arg_optim arg_optim_kwargs h = Some (self, h') →
  PyroTrainingPlan.loss_fn self = default Trace_ELBO_loss arg_loss_fn
  ∧ ∃ kwargs,
      PyroTrainingPlan.configure_optimizers self h'
      = Some (default Adam arg_optim, kwargs)
      ∧ is_Some (kwargs !! "lr"%string).
Proof.
  unfold PyroTrainingPlan.__init__, PyroTrainingPlan.configure_optimizers,
    PyroTrainingPlan.update.
  unfold PyroTrainingPlan.heap, PyroTrainingPlan.dict in *.
  destruct (match arg_optim_kwargs with
            | PyroTrainingPlan.Dict id => (id, h)
            | PyroTrainingPlan.NotADict => PyroTrainingPlan.new_dict h
            end) as [id h0].
  destruct (h0 !! id) as [d|] eqn:Hd; [|done]. cbn [mbind option_bind].
  intros [= <- <-]. cbn [PyroTrainingPlan.optim_kwargs PyroTrainingPlan.optim
                         PyroTrainingPlan.loss_fn].
  split; [by destruct arg_loss_fn|].
  destruct (decide ("lr"%string ∉ dom d)) as [Hno|Hyes].
  - exists (<["lr"%string := lr_default]> d).
    rewrite lookup_insert_eq. cbn [mbind option_bind].
    split; [by destruct arg_optim|]. by rewrite lookup_insert_eq.
  - exists d. rewrite Hd. cbn [mbind option_bind].
    split; [by destruct arg_optim|].
    by apply dec_stable, (elem_of_dom (M:=gmap string)) in Hyes.
Qed.
End plan_theorems.

Lemma init_completes_given_dict_witness :
  ∃ self h' d',
    PyroTrainingPlan.__init__ 1%Z "Trace_ELBO"%string "Adam"%string
      None None (PyroTrainingPlan.Dict 0)
      {[ 0 := {[ "weight_decay"%string := 5%Z ]} ]} = Some (self, h')
    ∧ PyroTrainingPlan.optim_kwargs self = 0
    ∧ h' !! 0 = Some d'
    ∧ d' !! "lr"%string = Some 1%Z
    ∧ d' !! "weight_decay"%string = Some 5%Z.
Proof.
  assert (({[ 0 := {[ "weight_decay"%string := 5%Z ]} ]}
             : PyroTrainingPlan.heap) !! 0
          = Some {[ "weight_decay"%string := 5%Z ]}) as Hd
    by (vm_compute; reflexivity).
  destruct (init_completes_given_dict 1%Z "Trace_ELBO"%string "Adam"%string
              None None 0 _ _ Hd)
    as (self & h' & d' & Hinit & Hid & Hd' & Hlr & Hkeys & _).
  exists self, h', d'. split_and!; [exact Hinit|exact Hid|exact Hd'|exact Hlr|].
  rewrite Hkeys by discriminate. vm_compute. reflexivity.
Defined.

Lemma configure_optimizers_has_lr_witness :
  ∃ kwargs,
    PyroTrainingPlan.configure_optimizers
      (PyroTrainingPlan.mk 0 "Trace_ELBO"%string "SGD"%string)
      {[ 0 := {[ "lr"%string := 7%Z ]} ]}
    = Some ("SGD"%string, kwargs)
    ∧ is_Some (kwargs !! "lr"%string).
Proof.
  refine (proj2 (configure_optimizers_has_lr 1%Z "Trace_ELBO"%string
                   "Adam"%string None (Some "SGD"%string)
                   (PyroTrainingPlan.Dict 0)
                   {[ 0 := {[ "lr"%string := 7%Z ]} ]}
                   (PyroTrainingPlan.mk 0 "Trace_ELBO"%string "SGD"%string)
                   {[ 0 := {[ "lr"%string := 7%Z ]} ]} _)).
  vm_compute. reflexivity.
Defined.
